(** * Customer engagement priority engine

    A shallow embedding of [tech/generate_customer_alerts.py]: order
    ingestion ([load_customers]), time windows, churn thresholds, the uplift
    and timing-window estimators, the life-cycle value, the priority score,
    the segmentation and the contact work list ([build_alert_rows]); then
    the high-value threshold, the contact log, the anniversary dates and the
    recommended actions, and from [tech/common.py] the lookup of a column
    by its header.

    Conventions of the embedding.
    - A Python [float] is a rational [Q]: arithmetic is exact, and two floats
      are compared with [Qeq]/[Qlt]/[Qle].  [math.exp] is a parameter of the
      sections that need it.
    - A Python [int] is a [Z].
    - A [datetime.date] is its proleptic Gregorian ordinal
      ([date.toordinal()]), a [Z]; [(a - b).days] is [a - b].
    - A [str] is a [string] holding its UTF-8 bytes; [x in s] on strings is a
      search for a byte substring, which agrees with the search for a
      substring of code points on well-formed UTF-8.
    - [Optional[T]] is [option T]; an insertion-ordered [dict] is an
      association list. *)

From Stdlib Require Import ZArith QArith Qround Qabs Bool List String Ascii.
From Stdlib Require Import DecimalString.
From Stdlib Require Import Lia Lqa Sorted Permutation.
Import ListNotations.

Open Scope string_scope.
Open Scope list_scope.
Open Scope Z_scope.

(** ** Python primitives *)

Module Py.

Definition Qleb (x y : Q) : bool := Qle_bool x y.
Definition Qltb (x y : Q) : bool := negb (Qle_bool y x).
Definition Qeqb (x y : Q) : bool := Qeq_bool x y.

(** [min(a, b)] and [max(a, b)] keep the first argument unless the second
    is strictly better. *)
Definition fmin (a b : Q) : Q := if Qltb b a then b else a.
Definition fmax (a b : Q) : Q := if Qltb a b then b else a.

(** [math.ceil] *)
Definition ceil (x : Q) : Z := Qceiling x.

(** [round(x)] on a float: to the nearest integer, ties to even. *)
Definition round_half_even (x : Q) : Z :=
  let f := Qfloor x in
  match Qcompare (x - inject_Z f) (1 # 2) with
  | Lt => f
  | Gt => f + 1
  | Eq => if Z.even f then f else f + 1
  end.

(** [round(x, 2)] *)
Definition round2 (x : Q) : Q := (inject_Z (round_half_even (x * 100)) / 100)%Q.

(** [int / int] is true division. *)
Definition zdiv (a b : Z) : Q := (inject_Z a / inject_Z b)%Q.

Definition of_int (a : Z) : Q := inject_Z a.

(** [needle in hay] *)
Fixpoint contains (needle hay : string) : bool :=
  if String.prefix needle hay then true
  else match hay with
       | EmptyString => false
       | String _ rest => contains needle rest
       end.

(** [sep.join(parts)] *)
Fixpoint join (sep : string) (parts : list string) : string :=
  match parts with
  | [] => EmptyString
  | [p] => p
  | p :: rest => (p ++ sep ++ join sep rest)%string
  end.

(** Truthiness of an optional text cell: [None] and [""] are false. *)
Definition truthy (s : option string) : bool :=
  match s with
  | Some (String _ _) => true
  | _ => false
  end.

Definition nonempty (s : string) : bool :=
  match s with EmptyString => false | _ => true end.

End Py.

Import Py.

(** ** Time windows ([compute_time_windows]) *)

Record Windows : Type := mkWindows {
  days_30 : Q;
  days_90 : Q;
  prev_90 : Q;
  days_180 : Q;
  days_365 : Q
}.

Definition window_totals_init : Windows := mkWindows 0 0 0 0 0.

(** One turn of the loop [for order_date, net in entries]. *)
Definition window_step (today : Z) (w : Windows) (entry : Z * Q) : Windows :=
  let '(order_date, net) := entry in
  let cutoff_30 := today - 30 in
  let cutoff_90 := today - 90 in
  let cutoff_prev_90 := today - 180 in
  let cutoff_180 := today - 180 in
  let cutoff_365 := today - 365 in
  let d30 := if cutoff_30 <=? order_date then (days_30 w + net)%Q else days_30 w in
  let d90 := if cutoff_90 <=? order_date then (days_90 w + net)%Q else days_90 w in
  let p90 :=
    if cutoff_90 <=? order_date then prev_90 w
    else if cutoff_prev_90 <=? order_date then (prev_90 w + net)%Q
    else prev_90 w in
  let d180 := if cutoff_180 <=? order_date then (days_180 w + net)%Q else days_180 w in
  let d365 := if cutoff_365 <=? order_date then (days_365 w + net)%Q else days_365 w in
  mkWindows d30 d90 p90 d180 d365.

Definition compute_time_windows (entries : list (Z * Q)) (today : Z) : Windows :=
  fold_left (window_step today) entries window_totals_init.

(** ** Text helpers ([str.strip]) *)

Module Text.

Definition bytes (l : list nat) : string :=
  fold_right (fun n s => String (ascii_of_nat n) s) EmptyString l.

(** The code points on which [str.isspace] holds, as UTF-8. *)
Definition whitespace : list string :=
  map bytes
    [ [9]; [10]; [11]; [12]; [13]; [28]; [29]; [30]; [31]; [32];
      [194; 133]; [194; 160]; [225; 154; 128];
      [226; 128; 128]; [226; 128; 129]; [226; 128; 130]; [226; 128; 131];
      [226; 128; 132]; [226; 128; 133]; [226; 128; 134]; [226; 128; 135];
      [226; 128; 136]; [226; 128; 137]; [226; 128; 138];
      [226; 128; 168]; [226; 128; 169]; [226; 128; 175];
      [226; 129; 159]; [227; 128; 128] ]%nat.

Fixpoint drop_prefix (p s : string) : option string :=
  match p, s with
  | EmptyString, _ => Some s
  | String a p', String b s' =>
      if Ascii.eqb a b then drop_prefix p' s' else None
  | String _ _, EmptyString => None
  end.

Fixpoint drop_any (ps : list string) (s : string) : option string :=
  match ps with
  | [] => None
  | p :: ps' =>
      match drop_prefix p s with
      | Some r => Some r
      | None => drop_any ps' s
      end
  end.

Fixpoint lstrip_with (ws : list string) (fuel : nat) (s : string) : string :=
  match fuel with
  | O => s
  | S fuel' =>
      match drop_any ws s with
      | Some r => lstrip_with ws fuel' r
      | None => s
      end
  end.

Fixpoint rev_append_string (s acc : string) : string :=
  match s with
  | EmptyString => acc
  | String a s' => rev_append_string s' (String a acc)
  end.

Definition rev_string (s : string) : string := rev_append_string s EmptyString.

Definition lstrip (s : string) : string :=
  lstrip_with whitespace (String.length s) s.

Definition rstrip (s : string) : string :=
  rev_string (lstrip_with (map rev_string whitespace) (String.length s) (rev_string s)).

Definition strip (s : string) : string := rstrip (lstrip s).

(** [str(x).strip() if x is not None else ""] *)
Definition strip_some (o : option string) : string :=
  match o with Some s => strip s | None => EmptyString end.

(** [str(x).strip() if x else ""] *)
Definition strip_truthy (o : option string) : string :=
  if truthy o then strip_some o else EmptyString.

(** [str(x).strip() if x else None] *)
Definition strip_opt (o : option string) : option string :=
  if truthy o then Some (strip_some o) else None.

(** [x if x else None] *)
Definition keep_truthy (o : option string) : option string :=
  if truthy o then o else None.

(** [str(x).strip() if x is not None else None] *)
Definition strip_present (o : option string) : option string :=
  option_map strip o.

End Text.

(** ** [collections.Counter], in insertion order *)

Definition Counter : Type := list (string * Z).

(** [counter[key] += 1] *)
Fixpoint counter_incr (key : string) (c : Counter) : Counter :=
  match c with
  | [] => [(key, 1)]
  | (k, n) :: rest =>
      if String.eqb k key then (k, n + 1) :: rest
      else (k, n) :: counter_incr key rest
  end.

(** [max(items, key=count)]: the first entry holding the largest count. *)
Fixpoint first_max (best : string * Z) (rest : Counter) : string * Z :=
  match rest with
  | [] => best
  | (k, n) :: rest' =>
      if snd best <? n then first_max (k, n) rest' else first_max best rest'
  end.

Definition choose_primary (counter : Counter) : option string :=
  match counter with
  | [] => None
  | e :: rest => Some (fst (first_max e rest))
  end.

(** ** Insertion-ordered dictionaries with text keys *)

Fixpoint dict_get {A : Type} (k : string) (d : list (string * A)) : option A :=
  match d with
  | [] => None
  | (k', v) :: rest => if String.eqb k' k then Some v else dict_get k rest
  end.

(** [d[k] = v]: an existing key keeps its place. *)
Fixpoint dict_set {A : Type} (k : string) (v : A) (d : list (string * A))
    : list (string * A) :=
  match d with
  | [] => [(k, v)]
  | (k', v') :: rest =>
      if String.eqb k' k then (k', v) :: rest
      else (k', v') :: dict_set k v rest
  end.

(** ** Customer statistics ([CustomerStats]) *)

(** One record of [order_details]; the fields carry the dictionary keys of
    the source in their comments. *)
Record OrderDetail : Type := mkOrderDetail {
  d_name : string;           (* 姓名 *)
  d_phone : string;          (* 手机号 *)
  d_platform : string;       (* 下单平台 *)
  d_manufacturer : string;   (* 厂家 *)
  d_item : string;           (* 货品名, 商品名称 *)
  d_color : string;          (* 颜色 *)
  d_size : string;           (* 尺码 *)
  d_gross : Q;               (* 付款金额, 收款额 *)
  d_net : Q;                 (* 净收款 *)
  d_pay_cost : Q;            (* 打款金额 *)
  d_refund_type : string;    (* 退款类型 *)
  d_refund_reason : string;  (* 退款原因 *)
  d_notes : string;          (* 备注 *)
  d_order_date : option Z;   (* 下单时间 *)
  d_order_no : string;       (* 订单号 *)
  d_return_no : string;      (* 退货单号 *)
  d_data_source : string     (* 数据来源 *)
}.

Record CustomerStats : Type := mkStats {
  key : string;
  name : option string;
  phone : option string;
  address : option string;
  owners : Counter;
  platforms : Counter;
  items : Counter;
  first_order : option Z;
  last_order : option Z;
  orders : Z;
  gross_total : Q;
  net_total : Q;
  cost_total : Q;
  profit_total : Q;
  refund_amount : Q;
  refund_count : Z;
  cancel_count : Z;
  order_history : list (Z * Q);
  order_details : list OrderDetail
}.

(** [CustomerStats.__init__] *)
Definition new_stats (k : string) : CustomerStats :=
  mkStats k None None None [] [] [] None None 0 0 0 0 0 0 0 0 [] [].

Definition counter_add (o : option string) (c : Counter) : Counter :=
  if truthy o then counter_incr (Text.strip_some o) c else c.

Definition register_valid_order (st : CustomerStats)
    (order_date : option Z) (gross net cost profit : Q)
    (item owner platform addr : option string) : CustomerStats :=
  let history :=
    match order_date with
    | Some d => order_history st ++ [(d, net)]
    | None => order_history st
    end in
  let first :=
    match order_date with
    | Some d =>
        match first_order st with
        | None => Some d
        | Some f => if d <? f then Some d else Some f
        end
    | None => first_order st
    end in
  let last :=
    match order_date with
    | Some d =>
        match last_order st with
        | None => Some d
        | Some l => if l <? d then Some d else Some l
        end
    | None => last_order st
    end in
  let addr' :=
    if truthy addr && negb (truthy (address st))
    then Some (Text.strip_some addr) else address st in
  mkStats (key st) (name st) (phone st) addr'
    (counter_add owner (owners st))
    (counter_add platform (platforms st))
    (counter_add item (items st))
    first last
    (orders st + 1)
    (gross_total st + gross)%Q (net_total st + net)%Q
    (cost_total st + cost)%Q (profit_total st + profit)%Q
    (refund_amount st) (refund_count st) (cancel_count st)
    history (order_details st).

Definition register_cancellation (st : CustomerStats) : CustomerStats :=
  mkStats (key st) (name st) (phone st) (address st)
    (owners st) (platforms st) (items st) (first_order st) (last_order st)
    (orders st) (gross_total st) (net_total st) (cost_total st)
    (profit_total st) (refund_amount st) (refund_count st)
    (cancel_count st + 1) (order_history st) (order_details st).

Definition register_refund (st : CustomerStats) (amount : Q) (force : bool)
    : CustomerStats :=
  let '(amt, cnt) :=
    if Qltb 0 amount then ((refund_amount st + amount)%Q, refund_count st + 1)
    else if force then (refund_amount st, refund_count st + 1)
    else (refund_amount st, refund_count st) in
  mkStats (key st) (name st) (phone st) (address st)
    (owners st) (platforms st) (items st) (first_order st) (last_order st)
    (orders st) (gross_total st) (net_total st) (cost_total st)
    (profit_total st) amt cnt
    (cancel_count st) (order_history st) (order_details st).

Definition with_details (st : CustomerStats) (ds : list OrderDetail)
    : CustomerStats :=
  mkStats (key st) (name st) (phone st) (address st)
    (owners st) (platforms st) (items st) (first_order st) (last_order st)
    (orders st) (gross_total st) (net_total st) (cost_total st)
    (profit_total st) (refund_amount st) (refund_count st)
    (cancel_count st) (order_history st) ds.

Definition with_identity (st : CustomerStats)
    (nm ph ad : option string) : CustomerStats :=
  mkStats (key st) nm ph ad
    (owners st) (platforms st) (items st) (first_order st) (last_order st)
    (orders st) (gross_total st) (net_total st) (cost_total st)
    (profit_total st) (refund_amount st) (refund_count st)
    (cancel_count st) (order_history st) (order_details st).

(** ** Order ingestion ([load_customers]) *)

(** A sheet row after the cell parsers of [common.py]: amounts went through
    [to_float], the pay date through [parse_excel_date], the phone through
    [deduplicate_phone]; text cells are kept as read.  [net_cell] is [None]
    when the sheet has no net column, [cost_cell] is [None] when the cost is
    absent or blank. *)
Record Row : Type := mkRow {
  name_raw : option string;
  phone_cell : option string;
  address_raw : option string;
  owner_raw : option string;
  platform_raw : option string;
  item_raw : option string;
  manufacturer_raw : option string;
  status_raw : option string;
  gross_cell : Q;
  net_cell : option Q;
  cost_cell : option Q;
  refund_cell : Q;
  refund_status_raw : option string;
  notes_raw : option string;
  refund_type_raw : option string;
  refund_reason_raw : option string;
  pay_date : option Z;
  order_no_raw : option string;
  return_no_raw : option string;
  data_source_raw : option string;
  color_raw : option string;
  size_raw : option string
}.

Definition cancel_marker : string := "取消".
Definition refund_marker : string := "退".
Definition exchange_marker : string := "换".
Definition unknown_customer : string := "未知客户".

Definition build_customer_key (nm ph addr : option string) : string :=
  let phone_part := match ph with Some p => p | None => EmptyString end in
  let name_part := Text.strip (match nm with Some n => n | None => EmptyString end) in
  if nonempty phone_part then phone_part
  else if nonempty name_part && truthy addr
       then (name_part ++ "|" ++ Text.strip_some addr)%string
  else if nonempty name_part then name_part
  else if truthy addr then Text.strip_some addr else unknown_customer.

(** [(x or "").strip() if x else ""], the normalisation of
    [append_order_detail]. *)
Definition detail_text (o : option string) : string := Text.strip_truthy o.

Definition append_order_detail (st : CustomerStats)
    (nm ph platform item : option string) (pay_amount : Q) (pay_cost : option Q)
    (refund_type refund_reason : option string) (order_date : option Z)
    (order_no return_no manufacturer notes color size data_source : option string)
    (gross_amount net_amount : Q) : CustomerStats :=
  with_details st
    (order_details st ++
     [ mkOrderDetail
         (detail_text nm) (detail_text ph) (detail_text platform)
         (detail_text manufacturer) (detail_text item)
         (detail_text color) (detail_text size)
         gross_amount net_amount
         (match pay_cost with Some c => c | None => 0%Q end)
         (Text.strip_some refund_type) (Text.strip_some refund_reason)
         (Text.strip_some notes) order_date
         (Text.strip_some order_no) (Text.strip_some return_no)
         (Text.strip_some data_source) ]).

(** Whether [load_customers] takes the row for a cancellation. *)
Definition row_is_cancellation (r : Row) : bool :=
  let status := Text.strip_truthy (status_raw r) in
  let refund_type_text := Text.strip_some (refund_type_raw r) in
  let is_cancelled :=
    contains cancel_marker status || contains cancel_marker refund_type_text in
  is_cancelled || Qleb (gross_cell r) 0.

(** Whether [load_customers] takes the row for a refund event. *)
Definition row_is_refund (r : Row) : bool :=
  let refund_type_text := Text.strip_some (refund_type_raw r) in
  Qltb 0 (refund_cell r)
  || (truthy (refund_status_raw r)
      && contains refund_marker
           (match refund_status_raw r with Some t => t | None => EmptyString end))
  || (nonempty refund_type_text && contains refund_marker refund_type_text).

(** The body of the loop over the rows, once the customer is found, in its
    three parts.  First the identity fields still unset are filled in. *)
Definition fill_identity (st0 : CustomerStats) (r : Row) : CustomerStats :=
  with_identity st0
    (if truthy (name_raw r) && negb (truthy (name st0))
     then Some (Text.strip_some (name_raw r)) else name st0)
    (if truthy (phone_cell r) && negb (truthy (phone st0))
     then phone_cell r else phone st0)
    (if truthy (address_raw r) && negb (truthy (address st0))
     then Some (Text.strip_some (address_raw r)) else address st0).

(** The net amount of the row: the gross amount stands in for an empty one.
    [math.isclose(net, 0.0)], with its default tolerances (relative 1e-9,
    absolute 0), holds exactly when [net] is 0. *)
Definition row_net (r : Row) : Q :=
  let gross := gross_cell r in
  let net0 := match net_cell r with Some n => n | None => gross end in
  if Qeqb net0 0 && Qltb 0 gross then gross else net0.

Definition row_cost (r : Row) : Q :=
  match cost_cell r with Some c => c | None => 0%Q end.

Definition row_profit (r : Row) : Q :=
  match cost_cell r with
  | Some _ => ((if Qltb 0 (row_net r) then row_net r else gross_cell r) - row_cost r)%Q
  | None => 0%Q
  end.

(** Then the detail line is kept and the row is counted as a cancellation
    or as a valid order. *)
Definition record_order (st1 : CustomerStats) (r : Row) : CustomerStats :=
  let gross := gross_cell r in
  let st2 :=
    append_order_detail st1
      (if truthy (name_raw r) then Some (Text.strip_some (name_raw r))
       else Some (match name st1 with Some n => n | None => EmptyString end))
      (phone_cell r)
      (Text.strip_opt (platform_raw r))
      (Text.strip_opt (item_raw r))
      gross (cost_cell r)
      (match refund_type_raw r with
       | Some t => Some t
       | None => refund_status_raw r
       end)
      (refund_reason_raw r)
      (pay_date r)
      (Text.strip_present (order_no_raw r))
      (Text.strip_present (return_no_raw r))
      (Text.strip_present (manufacturer_raw r))
      (Text.strip_present (notes_raw r))
      (Text.strip_present (color_raw r))
      (Text.strip_present (size_raw r))
      (Text.strip_present (data_source_raw r))
      gross (row_net r) in
  if row_is_cancellation r then register_cancellation st2
  else register_valid_order st2 (pay_date r) gross (row_net r) (row_cost r)
         (row_profit r)
         (Text.keep_truthy (item_raw r)) (Text.keep_truthy (owner_raw r))
         (Text.keep_truthy (platform_raw r)) (Text.keep_truthy (address_raw r)).

(** Last, and whatever the row was counted as, a refund is registered. *)
Definition record_refund (st3 : CustomerStats) (r : Row) : CustomerStats :=
  if row_is_refund r then register_refund st3 (refund_cell r) true else st3.

Definition ingest_row (st0 : CustomerStats) (r : Row) : CustomerStats :=
  record_refund (record_order (fill_identity st0 r) r) r.

(** The customers dictionary, in insertion order. *)
Definition Customers : Type := list (string * CustomerStats).

Definition load_row (cs : Customers) (r : Row) : Customers :=
  let k := build_customer_key (name_raw r) (phone_cell r) (address_raw r) in
  let st := match dict_get k cs with
            | Some st => st
            | None => new_stats k
            end in
  dict_set k (ingest_row st r) cs.

Definition load_customers (rows : list Row) : Customers :=
  fold_left load_row rows [].

(** ** Configuration ([ConfigModel]) *)

(** The [defaults] object of the configuration file; an absent key is
    [None] and is given its fallback where it is read. *)
Record Defaults : Type := mkDefaults {
  df_gross_margin : option Q;
  df_category_cycle_days : option Q;
  df_expected_return_rate : option Q;
  df_touch_cost : option Q;
  df_max_estimated_margin : option Q;
  df_max_estimated_uplift : option Q;
  df_uplift_base : option Q;
  df_uplift_floor : option Q;
  df_uplift_ceiling : option Q;
  df_uplift_premium_min_orders : option Q;
  df_uplift_premium_max_return : option Q;
  df_uplift_premium_min_days_span : option Q;
  df_uplift_ceiling_premium : option Q;
  df_min_priority_score : option Q;
  df_max_priority_score : option Q
}.

(** One entry of the [categories] table. *)
Record CategoryPayload : Type := mkCategory {
  aliases : list string;
  cp_gross_margin : option Q;
  cp_category_cycle_days : option Q;
  cp_expected_return_rate : option Q;
  cp_touch_cost : option Q;
  cp_max_estimated_margin : option Q;
  cp_max_estimated_uplift : option Q
}.

(** [timing_window_boost_config], with the fallbacks of [__init__] applied. *)
Record TimingParams : Type := mkTiming {
  enabled : bool;
  window_percentage : Q;
  peak_boost : Q;
  min_orders : Z;
  max_return_rate : Q;
  gaussian_k : Q
}.

Record ConfigModel : Type := mkConfig {
  defaults : Defaults;
  categories : list (string * CategoryPayload);
  platform_touch_cost : list (string * Q);
  orders_dampening : list (string * Q);
  single_order_enabled : bool;
  single_order_mode : string;
  single_order_days : Z;
  timing_window_boost_config : TimingParams
}.

Definition or_default (o : option Q) (d : Q) : Q :=
  match o with Some v => v | None => d end.

(** The attributes [__init__] derives from the raw file. *)
Definition priority_min (cfg : ConfigModel) : Q :=
  or_default (df_min_priority_score (defaults cfg)) (-50).

Definition priority_max (cfg : ConfigModel) : Q :=
  or_default (df_max_priority_score (defaults cfg)) 150.

Definition alias_map (cfg : ConfigModel) : list (string * string) :=
  fold_left
    (fun acc entry =>
       let '(category, payload) := entry in
       fold_left (fun acc' alias => dict_set alias category acc')
                 (aliases payload) (dict_set category category acc))
    (categories cfg) [].

Definition resolve_category_name (cfg : ConfigModel) (item_name : option string)
    : option string :=
  if truthy item_name then
    let nm := Text.strip_some item_name in
    if nonempty nm then dict_get nm (alias_map cfg) else None
  else None.

Record CategoryProfile : Type := mkProfile {
  gross_margin : Q;
  category_cycle_days : Q;
  expected_return_rate : Q;
  touch_cost : Q;
  max_estimated_margin : Q;
  max_estimated_uplift : Q
}.

Definition override (o : option Q) (d : Q) : Q := or_default o d.

Definition category_profile (cfg : ConfigModel) (category_name : option string)
    : CategoryProfile :=
  let df := defaults cfg in
  let base :=
    mkProfile
      (or_default (df_gross_margin df) 0.3)
      (or_default (df_category_cycle_days df) 60)
      (or_default (df_expected_return_rate df) 0.08)
      (or_default (df_touch_cost df) 6)
      (or_default (df_max_estimated_margin df) 10000)
      (or_default (df_max_estimated_uplift df) 5) in
  match category_name with
  | Some cn =>
      if nonempty cn then
        match dict_get cn (categories cfg) with
        | Some payload =>
            mkProfile
              (override (cp_gross_margin payload) (gross_margin base))
              (override (cp_category_cycle_days payload) (category_cycle_days base))
              (override (cp_expected_return_rate payload) (expected_return_rate base))
              (override (cp_touch_cost payload) (touch_cost base))
              (override (cp_max_estimated_margin payload) (max_estimated_margin base))
              (override (cp_max_estimated_uplift payload) (max_estimated_uplift base))
        | None => base
        end
      else base
  | None => base
  end.

Record UpliftParams : Type := mkUplift {
  up_base : Q;
  up_floor : Q;
  up_ceiling : Q
}.

Definition uplift_params (cfg : ConfigModel) : UpliftParams :=
  mkUplift (or_default (df_uplift_base (defaults cfg)) 0.5)
           (or_default (df_uplift_floor (defaults cfg)) 0.1)
           (or_default (df_uplift_ceiling (defaults cfg)) 2).

Definition platform_cost (cfg : ConfigModel) (platform_name : option string)
    (fallback : Q) : Q :=
  if truthy platform_name then
    match dict_get (Text.strip_some platform_name) (platform_touch_cost cfg) with
    | Some c => c
    | None => fallback
    end
  else fallback.

Definition priority_bounds (cfg : ConfigModel) : Q * Q :=
  let lower := fmin (priority_min cfg) (priority_max cfg) in
  let upper := fmax (priority_min cfg) (priority_max cfg) in
  (lower, upper).

(** [str(int(n))] *)
Definition str_of_int (n : Z) : string := NilZero.string_of_int (Z.to_int n).

Definition default_key : string := "default".

Definition orders_weight (cfg : ConfigModel) (n : Z) : Q :=
  let count_key := str_of_int n in
  match orders_dampening cfg with
  | [] => 1
  | od =>
      match dict_get count_key od with
      | Some w => w
      | None => or_default (dict_get default_key od) 1
      end
  end.

Definition timing_boost_params (cfg : ConfigModel) : TimingParams :=
  timing_window_boost_config cfg.

(** *** Calendar arithmetic for the single-order policy *)

Module Calendar.

Definition is_leap (y : Z) : bool :=
  (y mod 4 =? 0) && (negb (y mod 100 =? 0) || (y mod 400 =? 0)).

Definition days_before_year (y : Z) : Z :=
  let p := y - 1 in p * 365 + p / 4 - p / 100 + p / 400.

(** [calendar.monthrange(y, m)[1]] *)
Definition days_in_month (y m : Z) : Z :=
  if m =? 2 then (if is_leap y then 29 else 28)
  else if (m =? 4) || (m =? 6) || (m =? 9) || (m =? 11) then 30
  else 31.

Fixpoint days_before_month_aux (y : Z) (k : nat) : Z :=
  match k with
  | O => 0
  | S k' => days_before_month_aux y k' + days_in_month y (Z.of_nat k)
  end.

(** Days of year [y] before the first of month [m]. *)
Definition days_before_month (y m : Z) : Z :=
  days_before_month_aux y (Z.to_nat (m - 1)).

(** [date(y, m, d).toordinal()] *)
Definition ymd2ord (y m d : Z) : Z :=
  days_before_year y + days_before_month y m + d.

(** The year of an ordinal, as [date.fromordinal] finds it. *)
Definition year_of (ordinal : Z) : Z :=
  let n := ordinal - 1 in
  let n400 := n / 146097 in
  let r400 := n mod 146097 in
  let n100 := r400 / 36524 in
  let r100 := r400 mod 36524 in
  let n4 := r100 / 1461 in
  let r4 := r100 mod 1461 in
  let n1 := r4 / 365 in
  let y := n400 * 400 + 1 + n100 * 100 + n4 * 4 + n1 in
  if (n1 =? 4) || (n100 =? 4) then y - 1 else y.

Fixpoint month_from (y : Z) (day_of_year : Z) (m : Z) (fuel : nat) : Z :=
  match fuel with
  | O => m
  | S fuel' =>
      if day_of_year <=? days_in_month y m then m
      else month_from y (day_of_year - days_in_month y m) (m + 1) fuel'
  end.

Definition month_of (ordinal : Z) : Z :=
  let y := year_of ordinal in
  month_from y (ordinal - days_before_year y) 1 11.

End Calendar.

(** [str.lower] on the ASCII letters.  The lowered texts are only compared
    with, or searched for, texts that [str.lower] yields from no other
    source: the mode names [previous_month] and [days], and keywords in
    Chinese. *)
Definition ascii_lower (c : ascii) : ascii :=
  let n := nat_of_ascii c in
  if (Nat.leb 65 n && Nat.leb n 90)%bool then ascii_of_nat (n + 32) else c.

Fixpoint lower (s : string) : string :=
  match s with
  | EmptyString => EmptyString
  | String c rest => String (ascii_lower c) (lower rest)
  end.

Definition allow_single_order (cfg : ConfigModel) (last : option Z) (today : Z)
    : bool :=
  if negb (single_order_enabled cfg) then true
  else match last with
       | None => false
       | Some last_order_date =>
           let mode :=
             lower (if nonempty (single_order_mode cfg)
                    then single_order_mode cfg else "previous_month") in
           if String.eqb mode "previous_month" then
             let year := Calendar.year_of today in
             let month := Calendar.month_of today in
             let prev_month := if month - 1 =? 0 then 12 else month - 1 in
             let prev_year := if month - 1 =? 0 then year - 1 else year in
             let start := Calendar.ymd2ord prev_year prev_month 1 in
             let last_day := Calendar.days_in_month prev_year prev_month in
             let stop := Calendar.ymd2ord prev_year prev_month last_day in
             (start <=? last_order_date) && (last_order_date <=? stop)
           else if String.eqb mode "days" then
             let window_start := today - Z.max 0 (single_order_days cfg) in
             window_start <=? last_order_date
           else true
       end.

(** ** Churn thresholds (from [build_alert_rows]) *)

(** [sorted({...})]: the distinct dates in increasing order. *)
Fixpoint insert_unique (d : Z) (l : list Z) : list Z :=
  match l with
  | [] => [d]
  | x :: rest =>
      if d <? x then d :: l
      else if d =? x then l
      else x :: insert_unique d rest
  end.

Definition sorted_dates (history : list (Z * Q)) : list Z :=
  fold_right (fun e acc => insert_unique (fst e) acc) [] history.

(** The gaps between consecutive dates, a gap below one day counted as one. *)
Fixpoint intervals_from (prev_date : Z) (rest : list Z) : list Z :=
  match rest with
  | [] => []
  | current_date :: rest' =>
      let gap := current_date - prev_date in
      (if 0 <? gap then gap else 1) :: intervals_from current_date rest'
  end.

Definition zsum (l : list Z) : Z := fold_left Z.add l 0.

Definition personal_cycle_days (st : CustomerStats) : option Q :=
  match first_order st, last_order st with
  | Some first, Some last =>
      if 2 <=? orders st then
        let order_dates := sorted_dates (order_history st) in
        let from_gaps :=
          match order_dates with
          | d0 :: ((_ :: _) as later) =>
              match intervals_from d0 later with
              | [] => None
              | intervals =>
                  Some (zdiv (zsum intervals) (Z.of_nat (List.length intervals)))
              end
          | _ => None
          end in
        match from_gaps with
        | Some pc => Some pc
        | None =>
            if 1 <? orders st then
              let span_days := if last - first <? 0 then 0 else last - first in
              if orders st - 1 =? 0 then None
              else
                let pc := zdiv span_days (orders st - 1) in
                Some (if Qleb pc 0 then 1%Q else pc)
            else None
        end
      else None
  | _, _ => None
  end.

Definition personalized_threshold_of (pc : option Q) (churn_multiplier : Q)
    : option Q :=
  match pc with
  | Some c =>
      let t := (c * churn_multiplier)%Q in
      if Qleb t 0 then None else Some t
  | None => None
  end.

Definition category_cycle_of (profile : CategoryProfile) : Q :=
  fmax 1 (category_cycle_days profile).

Definition zmax_list (first : Z) (rest : list Z) : Z :=
  fold_left Z.max rest first.

Definition long_term_threshold_of (churn_days : Z) (churn_multiplier : Q)
    (category_cycle : Q) (personalized_threshold : option Q) : Z :=
  let category_threshold := Z.max 1 (ceil (category_cycle * churn_multiplier)) in
  let fallback_threshold := Z.max 1 churn_days in
  let threshold_candidates :=
    [fallback_threshold; category_threshold] ++
    match personalized_threshold with
    | Some t => [Z.max 1 (ceil t)]
    | None => []
    end in
  match threshold_candidates with
  | c :: cs => zmax_list c cs
  | [] => fallback_threshold
  end.

Definition short_term_threshold_of (long_term_threshold : Z) : Z :=
  let short_term_threshold := Z.max 1 (ceil (zdiv long_term_threshold 2)) in
  if (long_term_threshold <=? short_term_threshold) && (1 <? long_term_threshold)
  then long_term_threshold - 1
  else short_term_threshold.

(** The short-term threshold as the specification words it: half the
    long-term threshold, rounded up and at least 1, less 1 when that would
    reach the long-term threshold. *)
Definition short_term_threshold_spec (long_term_threshold : Z) : Z :=
  let half := Z.max 1 (ceil (zdiv long_term_threshold 2)) in
  if long_term_threshold <=? half then half - 1 else half.

(** ** Uplift ([estimate_uplift]) *)

(** The VIP test of [estimate_uplift], with its [if]/[elif] chain on the
    number of orders. *)
Definition is_vip (n : option Z) (return_rate : option Q) (avg_order_value : Q)
    : bool :=
  match n with
  | None => false
  | Some k =>
      if 7 <=? k then
        match return_rate with
        | Some r => Qltb r 0.2
        | None => true
        end
      else if 5 <=? k then
        match return_rate with
        | Some r => Qltb r 0.1 && Qltb 400 avg_order_value
        | None => false
        end
      else if (3 <=? k) && Qltb 500 avg_order_value then
        match return_rate with
        | Some r => Qltb r 0.15
        | None => true
        end
      else false
  end.

(** The factor applied to a VIP customer's uplift. *)
Definition vip_factor (days_since : Z) : Q :=
  if days_since <=? 30 then 0.9
  else if days_since <=? 90 then 1.1
  else if days_since <=? 180 then 0.95
  else 0.8.

(** The factor of the golden-window curve, for the other customers. *)
Definition golden_factor (days_since : Z) : Q :=
  if days_since <=? 30 then 0.7
  else if days_since <=? 90 then 1.3 + zdiv (days_since - 30) 60 * 0.2
  else if days_since <=? 180 then 1.5 - zdiv (days_since - 90) 90 * 0.7
  else 0.5.

Definition estimate_uplift (days_since threshold : option Z) (cfg : ConfigModel)
    (extra_ceiling : option Q) (n : option Z) (return_rate : option Q)
    (avg_order_value : Q) : Q :=
  let params := uplift_params cfg in
  let base := up_base params in
  let floor0 := up_floor params in
  let ceiling0 := up_ceiling params in
  let floor :=
    match n with
    | Some k => if 3 <=? k then fmax floor0 1 else floor0
    | None => floor0
    end in
  let ceiling1 :=
    match extra_ceiling with
    | Some c => fmin ceiling0 c
    | None => ceiling0
    end in
  let ceiling := if Qltb ceiling1 floor then floor else ceiling1 in
  match days_since, threshold with
  | Some ds, Some th =>
      if th <=? 0 then fmax floor (fmin ceiling base)
      else
        let ratio := zdiv ds (Z.max th 1) in
        let uplift := (base + fmax 0 (ratio - 1))%Q in
        let adjusted :=
          if is_vip n return_rate avg_order_value
          then (uplift * vip_factor ds)%Q
          else (uplift * golden_factor ds)%Q in
        fmax floor (fmin ceiling adjusted)
  | _, _ => fmax floor (fmin ceiling base)
  end.

(** ** Score buckets and customer lists *)

Definition bucket_priority_score (score : Q) : string * string :=
  if Qleb 80 score then ("高(≥80)", "priority-high")
  else if Qleb 50 score then ("中(50-79)", "priority-mid")
  else if Qleb 0 score then ("低(0-49)", "priority-low")
  else ("负分", "priority-other").

Definition classify_customer_value (net_total_v : Q) (n : Z)
    (avg_order_value : Q) : string :=
  if Qleb 5000 net_total_v || ((3 <=? n) && Qleb 500 avg_order_value) then "高价值"
  else if Qleb 2000 net_total_v || (2 <=? n) then "中价值"
  else "低价值".

Definition tag_refund_spike : string := "退货激增".
Definition list_audit : string := "高风险待排查".
Definition list_super_vip : string := "超级VIP".
Definition list_nurture : string := "活跃培养".
Definition list_at_risk : string := "濒临流失".
Definition list_cooldown : string := "冷却期".
Definition label_star : string := "明星客户".
Definition label_potential : string := "潜力客户".
Definition label_ordinary : string := "普通客户".

Definition rate_below (return_rate : option Q) (bound : Q) : bool :=
  match return_rate with
  | None => true
  | Some r => Qltb r bound
  end.

Definition classify_customer_list
    (personal_cycle_days : option Q) (avg_order_value : Q)
    (top_platform : option string) (n : Z) (return_rate : option Q)
    (potential_label : string) (days_since : option Z) (net_total_v : Q)
    (tags_text : string) (priority_score : Q) (long_term_threshold : Z)
    : string :=
  if contains tag_refund_spike tags_text then list_audit
  else if match return_rate with
          | Some r => Qltb 0.4 r && Qleb 50 priority_score
          | None => false
          end then list_audit
  else if (7 <=? n) && rate_below return_rate 0.2 then list_super_vip
  else if Qleb 2000 net_total_v && (5 <=? n) && rate_below return_rate 0.25
       then list_super_vip
  else if Qleb 200 priority_score && (5 <=? n) then list_super_vip
  else if String.eqb potential_label label_star && (5 <=? n) then list_super_vip
  else if match days_since with
          | Some ds => (ds <? 90) && (2 <=? n) && rate_below return_rate 0.3
          | None => false
          end then list_nurture
  else if match days_since with
          | Some ds =>
              (90 <=? ds) && (ds <=? long_term_threshold * 3)
              && ((3 <=? n) || Qleb 1000 net_total_v)
              && rate_below return_rate 0.5
          | None => false
          end then list_at_risk
  else list_nurture.

(** ** Life-cycle value ([compute_customer_lifecycle_value]) *)

Definition growth_growing : string := "成长型".
Definition growth_stable : string := "稳定型".
Definition growth_declining : string := "下滑型".
Definition growth_dormant : string := "休眠型".
Definition growth_new : string := "新客型".
Definition growth_high_new : string := "高潜新客".

Definition compute_customer_lifecycle_value (st : CustomerStats)
    (windows : Windows) (today : Z) : Q * string * string :=
  let historical_score :=
    if Qltb 0 (net_total st) then
      (0 + fmin 100 (net_total st / 10000 * 100) * 0.25
         + fmin 100 (zdiv (orders st) 20 * 100) * 0.15)%Q
    else 0%Q in
  let activity_score :=
    match last_order st with
    | Some last =>
        let days_since := today - last in
        let recency_score := fmax 0 (100 - zdiv days_since 180 * 100) in
        let a1 := (0 + recency_score * 0.15)%Q in
        if Qltb 0 (net_total st) then
          let recent_ratio := (days_90 windows / fmax (net_total st) 1)%Q in
          (a1 + fmin 100 (recent_ratio * 200) * 0.15)%Q
        else a1
    | None => 0%Q
    end in
  let recent_90 := days_90 windows in
  let prev_90_v := prev_90 windows in
  let recent_30 := days_30 windows in
  let '(growth_score, growth_type) :=
    if 2 <=? orders st then
      let '(g1, gt) :=
        if Qltb 0 prev_90_v then
          let growth_rate := ((recent_90 - prev_90_v) / prev_90_v)%Q in
          if Qltb 0.2 growth_rate
          then ((0 + fmin 100 (growth_rate * 100) * 0.2)%Q, growth_growing)
          else if Qltb growth_rate (-0.2)
          then ((0 + fmax 0 (50 + growth_rate * 50) * 0.2)%Q, growth_declining)
          else ((0 + 60 * 0.2)%Q, growth_stable)
        else
          ((0 + (if Qltb 0 recent_90 then 60 else 20) * 0.2)%Q,
           if Qltb 0 recent_90 then growth_stable else growth_dormant) in
      let g2 :=
        if 3 <=? orders st then
          let avg_cycle :=
            match last_order st, first_order st with
            | Some last, Some first => zdiv (last - first) (orders st - 1)
            | _, _ => 999%Q
            end in
          if Qltb avg_cycle 60 then (g1 + 10 * 0.1)%Q else g1
        else g1 in
      let avg_order_value :=
        if orders st =? 0 then 0%Q else (net_total st / of_int (orders st))%Q in
      let g3 :=
        if Qltb 0 recent_90 && Qltb 0 recent_30 then
          if Qltb (avg_order_value * 1.2) recent_30 then (g2 + 10 * 0.1)%Q else g2
        else g2 in
      (g3, gt)
    else if Qltb 200 recent_30 then ((0 + 80 * 0.3)%Q, growth_high_new)
    else ((0 + 50 * 0.3)%Q, growth_new) in
  let clv_score := (historical_score + activity_score + growth_score)%Q in
  let potential_label :=
    if Qleb 70 clv_score then label_star
    else if Qleb 40 clv_score
            || String.eqb growth_type growth_growing
            || String.eqb growth_type growth_high_new then label_potential
    else label_ordinary in
  (clv_score, growth_type, potential_label).

(** ** The arguments of [build_alert_rows] *)

(** One entry of [contact_info]. *)
Record ContactInfo : Type := mkContact {
  ci_employee : option string;
  ci_platform : option string;
  ci_status : option string;
  ci_note : option string;
  ci_next_contact : option Z;
  ci_happiness : option Q
}.

Record Args : Type := mkArgs {
  today : Z;
  high_value_threshold : Q;
  churn_days : Z;
  churn_multiplier : Q;
  drop_threshold : Q;
  config_model : ConfigModel;
  anniversary_dates : list Z;
  anniversary_window : Z;
  anniversary_only : bool;
  contact_log : list (string * Z);
  contact_info : list (string * ContactInfo);
  cooldown_days : Z;
  cooldown_scope : string;
  exclude_recent_days : Z;
  allow_high_return : bool
}.

(** ** Quantities of one customer that do not depend on the run *)

Definition top_owner (st : CustomerStats) : option string := choose_primary (owners st).
Definition top_platform (st : CustomerStats) : option string := choose_primary (platforms st).
Definition top_item (st : CustomerStats) : option string := choose_primary (items st).

Definition return_rate (st : CustomerStats) : option Q :=
  if 0 <? orders st
  then Some (fmin (zdiv (refund_count st) (Z.max (orders st) 1)) 1)
  else if 0 <? refund_count st then Some 1%Q
  else None.

Definition avg_order_value (st : CustomerStats) : Q :=
  if orders st =? 0 then 0%Q else (net_total st / of_int (orders st))%Q.

Definition aov_value (st : CustomerStats) : option Q :=
  if orders st =? 0 then None else Some (net_total st / of_int (orders st))%Q.

Definition is_exchange (d : OrderDetail) : bool :=
  contains exchange_marker (Text.strip (d_refund_type d)).

(** The number of detail lines whose refund type names an exchange. *)
Definition exchange_count (st : CustomerStats) : Z :=
  Z.of_nat (List.length (filter is_exchange (order_details st))).

Definition effective_orders (st : CustomerStats) : Z :=
  orders st - exchange_count st.

Definition exchange_penalty (st : CustomerStats) : Z :=
  if 0 <? exchange_count st then
    if effective_orders st <? 2 then -200
    else if effective_orders st =? 2 then -100
    else if effective_orders st <=? 4 then -50
    else 0
  else 0.

Definition clv_boost (potential_label : string) (n : Z) : Z :=
  if String.eqb potential_label label_star then 30
  else if String.eqb potential_label label_potential then 15
  else if 10 <=? n then 40
  else if 7 <=? n then 30
  else if 5 <=? n then 20
  else if 4 <=? n then 10
  else if 3 <=? n then 5
  else 0.

Definition return_rate_boost (rate : option Q) : Z :=
  match rate with
  | None => 0
  | Some r =>
      if Qleb 0.49 r then -80
      else if Qleb r 0 then 20
      else if Qltb r 0.1 then 15
      else if Qltb r 0.2 then 10
      else if Qltb r 0.3 then 5
      else 0
  end.

Definition aov_boost (avg_order_value_calc : Q) : Z :=
  if Qltb 500 avg_order_value_calc then 25
  else if Qltb 400 avg_order_value_calc then 15
  else if Qltb 300 avg_order_value_calc then 10
  else if Qltb 200 avg_order_value_calc then 5
  else 0.

Definition activity_boost (days : option Z) (n : Z) (rate : option Q) : Z :=
  match days with
  | Some ds =>
      if ds <? 45 then
        if (3 <=? n) && match rate with Some r => Qltb r 0.2 | None => false end
        then 50
        else if (2 <=? n) && match rate with Some r => Qltb r 0.3 | None => false end
        then 30
        else 0
      else 0
  | None => 0
  end.

Definition platform_quality : list (string * Z) :=
  [ ("相册", 15); ("三店", 15); ("二店", 10); ("四店", 8); ("一店", 5);
    ("咸鱼", -5); ("咸鱼二", -5); ("代发", -10) ].

Definition platform_boost (platform : option string) : Z :=
  if truthy platform then
    match platform with
    | Some pf =>
        match dict_get pf platform_quality with
        | Some b => b
        | None => 0
        end
    | None => 0
    end
  else 0.

Definition platform_dropship : string := "代发".

Definition high_freq_boost (cycle : option Q) (platform : option string)
    (avg_order_value_calc : Q) : Z :=
  match cycle with
  | Some pc =>
      if Qltb pc 30
         && negb (match platform with
                  | Some pf => String.eqb pf platform_dropship
                  | None => false
                  end)
      then (if Qltb 300 avg_order_value_calc then 60 else 40)
      else 0
  | None => 0
  end.

Definition super_vip_boost (n : Z) (rate : option Q) : Z :=
  if (10 <=? n) && rate_below rate 0.2 then 80
  else if (7 <=? n) && rate_below rate 0.15 then 60
  else if (5 <=? n) && rate_below rate 0.1 then 40
  else 0.

Definition long_dormant_penalty (days : option Z) (n : Z) : Z :=
  match days with
  | Some ds =>
      if 180 <=? ds then
        if n =? 2 then -100
        else if n =? 3 then -60
        else if n =? 4 then -40
        else 0
      else 0
  | None => 0
  end.

(** [classify_reply_status], the helper of [build_alert_rows]. *)
Definition no_reply_keywords : list string :=
  [ "无回复"; "未回复"; "没回复"; "未回"; "不回"; "不理"; "拒绝"; "不需要";
    "不想要"; "拉黑" ].

Definition positive_keywords : list string :=
  [ "已回复"; "有回复"; "已沟通"; "已联系"; "成交"; "成单"; "已加"; "加微";
    "加微信"; "已购买"; "已下单" ].

Definition classify_reply_status (status : option string) : option bool :=
  if truthy status then
    let text := lower (Text.strip_some status) in
    if nonempty text then
      if existsb (fun k => contains k text) no_reply_keywords then Some false
      else if existsb (fun k => contains k text) positive_keywords then Some true
      else None
    else None
  else None.

(** ** Output rows *)

(** A row of [overview_rows]; the columns that only repeat a statistic
    rounded for display are left out. *)
Record OverviewRow : Type := mkOverview {
  ov_key : string;
  ov_name : string;
  ov_phone : string;
  ov_days_since : option Z;
  ov_priority_score : Q;
  ov_timing_window_boost : Q;
  ov_orders : Z;
  ov_cancel_count : Z;
  ov_refund_count : Z;
  ov_tags : string;
  ov_growth_type : string;
  ov_potential_label : string
}.

(** An entry of [meta_map]. *)
Record Meta : Type := mkMeta {
  mt_priority_bucket : string;
  mt_priority_class : string;
  mt_priority_score : Q;
  mt_customer_value : string;
  mt_orders : Z;
  mt_return_rate : option Q;
  mt_days : option Z;
  mt_aov : option Q;
  mt_contact_status : string
}.

(** An entry of [action_rows]; the free-text columns [actions] and
    [priority_explanation] are left out. *)
Record ActionRow : Type := mkAction {
  ar_customer_list : string;
  ar_priority_bucket : string;
  ar_priority_class : string;
  ar_priority_score : Q;
  ar_priority_score_raw : Q;
  ar_priority_score_unbounded : Q;
  ar_priority_score_pre_weight : Q;
  ar_name : string;
  ar_phone : string;
  ar_tags : string;
  ar_customer_value : string;
  ar_growth_type : string;
  ar_potential_label : string;
  ar_orders : Z;
  ar_return_rate : option Q;
  ar_days : option Z;
  ar_aov : option Q;
  ar_aov_trend : option Q;
  ar_cycle : option Q;
  ar_threshold_days : Z;
  ar_detail_key : string;
  ar_details : list OrderDetail;
  ar_contact_status : string
}.

(** [action_sort_key] and the comparison of its tuples. *)
Definition action_sort_key (entry : ActionRow) : Q * Z * Q * Q :=
  let score := ar_priority_score_raw entry in
  let orders_value := - ar_orders entry in
  let rate_value := match ar_return_rate entry with Some r => r | None => 1.1%Q end in
  let aov := match ar_aov entry with Some v => v | None => 0%Q end in
  ((- score)%Q, orders_value, rate_value, (- aov)%Q).

(** [k1 < k2] on tuples: decided at the first position where they differ. *)
Definition key_ltb (k1 k2 : Q * Z * Q * Q) : bool :=
  let '(s1, o1, r1, a1) := k1 in
  let '(s2, o2, r2, a2) := k2 in
  if negb (Qeqb s1 s2) then Qltb s1 s2
  else if negb (o1 =? o2) then o1 <? o2
  else if negb (Qeqb r1 r2) then Qltb r1 r2
  else Qltb a1 a2.

(** [list.sort(key=...)] is stable: an entry is placed behind the entries
    that do not come after it. *)
Fixpoint sort_insert (x : ActionRow) (sorted : list ActionRow) : list ActionRow :=
  match sorted with
  | [] => [x]
  | y :: rest =>
      if key_ltb (action_sort_key x) (action_sort_key y) then x :: sorted
      else y :: sort_insert x rest
  end.

Definition sort_action_rows (rows : list ActionRow) : list ActionRow :=
  fold_left (fun sorted x => sort_insert x sorted) rows [].

(** The order of the work list as the specification words it: score
    descending, then order count descending, then return rate ascending with
    an undefined rate after every defined one, then average order value
    descending. *)
Definition rate_before (r1 r2 : option Q) : Prop :=
  match r1, r2 with
  | Some x, Some y => (x < y)%Q
  | Some _, None => True
  | None, _ => False
  end.

Definition rate_tied (r1 r2 : option Q) : Prop :=
  match r1, r2 with
  | Some x, Some y => (x == y)%Q
  | None, None => True
  | _, _ => False
  end.

Definition aov_not_below (a1 a2 : option Q) : Prop :=
  match a1, a2 with
  | Some x, Some y => (y <= x)%Q
  | _, _ => False
  end.

Definition spec_before_or_tied (e1 e2 : ActionRow) : Prop :=
  (ar_priority_score e2 < ar_priority_score e1)%Q
  \/ ((ar_priority_score e1 == ar_priority_score e2)%Q
      /\ (ar_orders e2 < ar_orders e1
          \/ (ar_orders e1 = ar_orders e2
              /\ (rate_before (ar_return_rate e1) (ar_return_rate e2)
                  \/ (rate_tied (ar_return_rate e1) (ar_return_rate e2)
                      /\ aov_not_below (ar_aov e1) (ar_aov e2)))))).

Definition partitioned (w : Windows) : Prop :=
  (days_90 w + prev_90 w == days_180 w)%Q.

(** ** Scoring one customer and building the lists *)

Section Scoring.

(** [math.exp], on floats. *)
Variable math_exp : Q -> Q.

Definition calculate_timing_boost (days_since : option Z)
    (cycle : option Q) (st : CustomerStats) (rate : option Q)
    (cfg : ConfigModel) : Q :=
  let timing_params := timing_boost_params cfg in
  if negb (enabled timing_params) then 0%Q
  else
    match days_since, cycle with
    | Some ds, Some pc =>
        if orders st <? min_orders timing_params then 0%Q
        else if effective_orders st <? min_orders timing_params then 0%Q
        else if 0 <? exchange_count st then 0%Q
        else if match rate with
                | Some r => Qltb (max_return_rate timing_params) r
                | None => false
                end then 0%Q
        else
          let window_radius := (pc * window_percentage timing_params)%Q in
          let lower_bound := (pc - window_radius)%Q in
          let upper_bound := (pc + window_radius)%Q in
          if Qltb (of_int ds) lower_bound || Qltb upper_bound (of_int ds) then 0%Q
          else
            let center := pc in
            let distance_from_center := Qabs (of_int ds - center) in
            let normalized_distance :=
              if Qltb 0 window_radius
              then (distance_from_center / window_radius)%Q else 0%Q in
            let boost :=
              (peak_boost timing_params
               * math_exp (- gaussian_k timing_params
                           * (normalized_distance * normalized_distance)))%Q in
            round2 boost
    | _, _ => 0%Q
    end.

Variable a : Args.

Definition cfg : ConfigModel := config_model a.

Definition windows (st : CustomerStats) : Windows :=
  compute_time_windows (order_history st) (today a).

Definition days_since (st : CustomerStats) : option Z :=
  match last_order st with
  | Some last => Some (today a - last)
  | None => None
  end.

Definition personalized_threshold (st : CustomerStats) : option Q :=
  personalized_threshold_of (personal_cycle_days st) (churn_multiplier a).

Definition customer_profile (st : CustomerStats) : CategoryProfile :=
  category_profile cfg (resolve_category_name cfg (top_item st)).

Definition category_cycle (st : CustomerStats) : Q :=
  category_cycle_of (customer_profile st).

Definition margin_cap (st : CustomerStats) : Q :=
  fmax 0 (max_estimated_margin (customer_profile st)).

Definition uplift_cap (st : CustomerStats) : Q :=
  max_estimated_uplift (customer_profile st).

Definition long_term_threshold (st : CustomerStats) : Z :=
  long_term_threshold_of (churn_days a) (churn_multiplier a)
    (category_cycle st) (personalized_threshold st).

Definition short_term_threshold (st : CustomerStats) : Z :=
  short_term_threshold_of (long_term_threshold st).

Definition high_value (st : CustomerStats) : bool :=
  Qleb (high_value_threshold a) (net_total st)
  && Qltb 0 (high_value_threshold a).

Definition anniversary_match (st : CustomerStats) : bool :=
  match last_order st with
  | Some last =>
      existsb (fun target => Z.abs (last - target) <=? anniversary_window a)
              (anniversary_dates a)
  | None => false
  end.

Definition drop_ratio (st : CustomerStats) : option Q :=
  let recent := days_90 (windows st) in
  let previous := prev_90 (windows st) in
  if Qltb 0 previous then Some (recent / previous)%Q else None.

Definition tags (st : CustomerStats) : list string :=
  let t1 :=
    match days_since st with
    | Some ds =>
        if high_value st && (long_term_threshold st <=? ds)
        then ["高价值流失预警"]
        else if long_term_threshold st <=? ds then ["长期未复购"]
        else if short_term_threshold st <=? ds then ["短期未复购"]
        else []
    | None => []
    end in
  let recent := days_90 (windows st) in
  let previous := prev_90 (windows st) in
  let t2 :=
    if Qltb 0 previous && Qleb recent (previous * drop_threshold a)
    then t1 ++ ["消费骤降"] else t1 in
  let t3 :=
    if Qltb 0 (refund_amount st) && Qltb 0 (net_total st) then
      let refund_ratio := (refund_amount st / fmax (net_total st) 1)%Q in
      if Qleb 0.3 refund_ratio || (2 <=? refund_count st)
      then t2 ++ [tag_refund_spike] else t2
    else t2 in
  let t4 :=
    if anniversary_match st then
      if existsb (String.eqb "节点回访") t3 then t3 else t3 ++ ["节点回访"]
    else t3 in
  match t4, days_since st with
  | [], Some ds =>
      if Qleb (high_value_threshold a) (net_total st)
         && (ds <? Z.max 30 (short_term_threshold st))
      then ["高价值活跃"] else t4
  | _, _ => t4
  end.

Definition tags_text (st : CustomerStats) : string := join ", " (tags st).

Definition use_premium_uplift (st : CustomerStats) : bool :=
  let df := defaults cfg in
  Qleb (or_default (df_uplift_premium_min_orders df) 3) (of_int (orders st))
  && match return_rate st with
     | Some r => Qltb r (or_default (df_uplift_premium_max_return df) 0.3)
     | None => false
     end
  && match first_order st, last_order st with
     | Some first, Some last =>
         Qleb (or_default (df_uplift_premium_min_days_span df) 30)
              (of_int (last - first))
     | _, _ => false
     end.

Definition effective_uplift_cap (st : CustomerStats) : Q :=
  if use_premium_uplift st
  then fmin (or_default (df_uplift_ceiling_premium (defaults cfg)) 3.5)
            (uplift_cap st)
  else uplift_cap st.

Definition estimated_uplift (st : CustomerStats) : Q :=
  estimate_uplift (days_since st) (Some (long_term_threshold st)) cfg
    (Some (effective_uplift_cap st)) (Some (orders st)) (return_rate st)
    (avg_order_value st).

Definition avg_profit_per_order (st : CustomerStats) : Q :=
  if negb (orders st =? 0) && Qltb 0 (profit_total st)
  then (profit_total st / of_int (orders st))%Q else 0%Q.

Definition estimated_margin (st : CustomerStats) : Q :=
  let m0 :=
    if Qltb 0 (avg_profit_per_order st) then avg_profit_per_order st
    else (avg_order_value st * gross_margin (customer_profile st))%Q in
  let m1 := fmax 0 m0 in
  if Qltb 0 (margin_cap st) then fmin m1 (margin_cap st) else m1.

Definition estimated_return_rate (st : CustomerStats) : Q :=
  let expected_return := expected_return_rate (customer_profile st) in
  match return_rate st with
  | Some observed_return =>
      if 3 <=? orders st
      then fmin 0.95 (0.7 * observed_return + 0.3 * expected_return)
      else fmin 0.95 (fmax observed_return expected_return)
  | None => fmin 0.95 expected_return
  end.

Definition customer_touch_cost (st : CustomerStats) : Q :=
  fmax 0 (platform_cost cfg (top_platform st) (touch_cost (customer_profile st))).

Definition lifecycle (st : CustomerStats) : Q * string * string :=
  compute_customer_lifecycle_value st (windows st) (today a).

Definition clv_score (st : CustomerStats) : Q := fst (fst (lifecycle st)).
Definition growth_type (st : CustomerStats) : string := snd (fst (lifecycle st)).
Definition potential_label (st : CustomerStats) : string := snd (lifecycle st).

Definition priority_score_pre_weight (st : CustomerStats) : Q :=
  (estimated_uplift st * estimated_margin st * (1 - estimated_return_rate st)
   - customer_touch_cost st)%Q.

Definition timing_window_boost (st : CustomerStats) : Q :=
  calculate_timing_boost (days_since st) (personal_cycle_days st) st
    (return_rate st) cfg.

Definition total_boost (st : CustomerStats) : Q :=
  (of_int (clv_boost (potential_label st) (orders st))
   + of_int (return_rate_boost (return_rate st))
   + of_int (aov_boost (avg_order_value st))
   + of_int (activity_boost (days_since st) (orders st) (return_rate st))
   + of_int (platform_boost (top_platform st))
   + of_int (high_freq_boost (personal_cycle_days st) (top_platform st)
                             (avg_order_value st))
   + of_int (super_vip_boost (orders st) (return_rate st))
   + timing_window_boost st
   + of_int (exchange_penalty st)
   + of_int (long_dormant_penalty (days_since st) (orders st)))%Q.

Definition priority_score_unbounded (st : CustomerStats) : Q :=
  (priority_score_pre_weight st * orders_weight cfg (orders st)
   + total_boost st)%Q.

Definition priority_score_clamped (st : CustomerStats) : Q :=
  let '(lower_bound, upper_bound) := priority_bounds cfg in
  fmin upper_bound (fmax lower_bound (priority_score_unbounded st)).

Definition priority_score (st : CustomerStats) : Q :=
  round2 (priority_score_clamped st).

Definition customer_value (st : CustomerStats) : string :=
  classify_customer_value (net_total st) (orders st) (avg_order_value st).

(** *** Contact log *)

Definition effective_cooldown_days : Z := Z.max 0 (cooldown_days a).

Definition phone_text (st : CustomerStats) : string :=
  match phone st with
  | Some ph => ph
  | None => EmptyString
  end.

Definition ci_meta (st : CustomerStats) : option ContactInfo :=
  dict_get (phone_text st) (contact_info a).

Definition contact_status (st : CustomerStats) : string :=
  match ci_meta st with
  | Some ci => if truthy (ci_status ci) then Text.strip_some (ci_status ci)
               else EmptyString
  | None => EmptyString
  end.

Definition contact_status_raw (st : CustomerStats) : string :=
  match ci_meta st with
  | Some ci =>
      match ci_status ci with
      | Some t => t
      | None => EmptyString
      end
  | None => EmptyString
  end.

Definition reply_flag (st : CustomerStats) : option bool :=
  classify_reply_status (Some (contact_status st)).

Definition last_contact_date (st : CustomerStats) : option Z :=
  match contact_log a with
  | [] => None
  | log => if truthy (phone st) then dict_get (phone_text st) log else None
  end.

(** Days since the last contact, a contact in the future counted as
    today's, compared with the cooldown. *)
Definition within_cooldown (contacted : Z) : bool :=
  let delta_days := today a - contacted in
  (if delta_days <? 0 then 0 else delta_days) <? effective_cooldown_days.

(** *** Rows *)

Definition text_or_empty (o : option string) : string :=
  if truthy o then match o with Some t => t | None => EmptyString end
  else EmptyString.

Definition overview_row (st : CustomerStats) : OverviewRow :=
  mkOverview (key st) (text_or_empty (name st)) (text_or_empty (phone st))
    (days_since st) (priority_score st) (timing_window_boost st)
    (orders st) (cancel_count st) (refund_count st)
    (tags_text st) (growth_type st) (potential_label st).

Definition meta_entry (st : CustomerStats) : Meta :=
  mkMeta (fst (bucket_priority_score (priority_score_clamped st)))
    (snd (bucket_priority_score (priority_score_clamped st)))
    (priority_score st) (customer_value st) (orders st) (return_rate st)
    (days_since st) (aov_value st) (contact_status_raw st).

Definition action_row (st : CustomerStats) (customer_list : string) : ActionRow :=
  mkAction customer_list
    (fst (bucket_priority_score (priority_score_clamped st)))
    (snd (bucket_priority_score (priority_score_clamped st)))
    (priority_score st) (priority_score st)
    (round2 (priority_score_unbounded st))
    (round2 (priority_score_pre_weight st))
    (text_or_empty (name st)) (text_or_empty (phone st))
    (tags_text st) (customer_value st) (growth_type st) (potential_label st)
    (orders st) (return_rate st) (days_since st) (aov_value st)
    (drop_ratio st) (personal_cycle_days st) (long_term_threshold st)
    (key st) (order_details st) (contact_status_raw st).

(** *** Inclusion in the work list *)

Definition include_in_action (st : CustomerStats) : bool :=
  (match tags st with [] => false | _ => true end
   && negb (anniversary_only a && negb (anniversary_match st)))
  || String.eqb (potential_label st) label_star
  || String.eqb (potential_label st) label_potential
  || Qleb 50 (priority_score st)
  || (5 <=? orders st)
  || String.eqb (growth_type st) growth_growing
  || String.eqb (growth_type st) growth_high_new.

Definition recent_buyer (st : CustomerStats) : bool :=
  match days_since st with
  | Some ds => ds <? Z.max 0 (exclude_recent_days a)
  | None => false
  end.

Definition high_return (st : CustomerStats) : bool :=
  negb (allow_high_return a)
  && match return_rate st with
     | Some r => Qleb 0.49 r
     | None => false
     end.

Definition single_order_rejected (st : CustomerStats) : bool :=
  (orders st =? 1) && negb (allow_single_order cfg (last_order st) (today a)).

Definition presumed_lost (st : CustomerStats) : bool :=
  negb (String.eqb (potential_label st) label_star)
  && match days_since st with
     | Some ds => long_term_threshold st * 3 <? ds
     | None => false
     end.

Definition customer_list_of (st : CustomerStats) : string :=
  classify_customer_list (personal_cycle_days st) (avg_order_value st)
    (top_platform st) (orders st) (return_rate st) (potential_label st)
    (days_since st) (net_total st) (tags_text st) (priority_score st)
    (long_term_threshold st).

(** Whether the last contact falls inside the cooldown. *)
Definition in_cooldown (st : CustomerStats) : bool :=
  match last_contact_date st with
  | Some c => (0 <? effective_cooldown_days) && within_cooldown c
  | None => false
  end.

(** The part of the loop body after the overview row and the meta entry:
    the action row, if any, and the contact date stored in
    [cooldown_customers] (with [snoozed_total] raised) if any. *)
Definition worklist_step (st : CustomerStats) : option ActionRow * option Z :=
  let listed :=
    if include_in_action st then
      match last_contact_date st, reply_flag st with
      | Some _, Some false => (None, None)
      | _, _ =>
          if in_cooldown st
          then (Some (action_row st list_cooldown), last_contact_date st)
          else if recent_buyer st then (None, None)
          else if high_return st then (None, None)
          else if single_order_rejected st then (None, None)
          else if presumed_lost st then (None, None)
          else (Some (action_row st (customer_list_of st)), None)
      end
    else (None, None) in
  match last_contact_date st with
  | Some c =>
      if String.eqb (cooldown_scope a) "all" && (0 <? effective_cooldown_days)
      then
        match reply_flag st with
        | Some false => (None, None)
        | _ => if within_cooldown c then (None, Some c) else listed
        end
      else listed
  | None => listed
  end.

Record Output : Type := mkOutput {
  overview_rows : list OverviewRow;
  action_rows : list ActionRow;
  snoozed_total : Z;
  meta_map : list (string * Meta);
  cooldown_customers : list (string * Z)
}.

(** One turn of [for stats in customers.values()]. *)
Definition alert_step (out : Output) (st : CustomerStats) : Output :=
  if orders st =? 0 then out
  else
    let '(row, snoozed) := worklist_step st in
    mkOutput
      (overview_rows out ++ [overview_row st])
      (match row with
       | Some r => action_rows out ++ [r]
       | None => action_rows out
       end)
      (match snoozed with
       | Some _ => snoozed_total out + 1
       | None => snoozed_total out
       end)
      (dict_set (key st) (meta_entry st) (meta_map out))
      (match snoozed with
       | Some c => dict_set (key st) c (cooldown_customers out)
       | None => cooldown_customers out
       end).

Definition build_alert_rows (customers : Customers) : Output :=
  let out := fold_left alert_step (map snd customers) (mkOutput [] [] 0 [] []) in
  mkOutput (overview_rows out) (sort_action_rows (action_rows out))
    (snoozed_total out) (meta_map out) (cooldown_customers out).

End Scoring.

(** ** Specification-side predicates *)

(** A number of whole hundredths. *)
Definition whole_cents (x : Q) : Prop :=
  exists n : Z, (x == inject_Z n / 100)%Q.

(** The valid-order side of a customer: what a cancellation must leave
    alone. *)
Definition same_valid_orders (st st' : CustomerStats) : Prop :=
  orders st' = orders st
  /\ gross_total st' = gross_total st
  /\ net_total st' = net_total st
  /\ cost_total st' = cost_total st
  /\ profit_total st' = profit_total st
  /\ order_history st' = order_history st
  /\ first_order st' = first_order st
  /\ last_order st' = last_order st
  /\ owners st' = owners st
  /\ platforms st' = platforms st
  /\ items st' = items st.

(** [st'] is [st] with one cancellation more and the detail [d] appended,
    and nothing else changed. *)
Definition cancellation_recorded (st st' : CustomerStats) (d : OrderDetail)
    : Prop :=
  st' = mkStats (key st) (name st) (phone st) (address st)
          (owners st) (platforms st) (items st) (first_order st) (last_order st)
          (orders st) (gross_total st) (net_total st) (cost_total st)
          (profit_total st) (refund_amount st) (refund_count st)
          (cancel_count st + 1) (order_history st) (order_details st ++ [d]).

(** The eligibility conditions of the timing-window boost, the days since
    the last order and the personal cycle being known. *)
Definition timing_eligible (cfg : ConfigModel) (st : CustomerStats)
    (rate : option Q) : Prop :=
  enabled (timing_boost_params cfg) = true
  /\ min_orders (timing_boost_params cfg) <= orders st
  /\ exchange_count st = 0
  /\ match rate with
     | Some r => (r <= max_return_rate (timing_boost_params cfg))%Q
     | None => True
     end.

(** What the timing-window boost needs of [math.exp]. *)
Definition exp_one_at_zero (e : Q -> Q) : Prop :=
  forall x : Q, (x == 0)%Q -> (e x == 1)%Q.

Definition exp_unit_below_zero (e : Q -> Q) : Prop :=
  forall x : Q, (x <= 0)%Q -> (0 <= e x)%Q /\ (e x <= 1)%Q.

(** The score lies in the configured range. *)
Definition score_in_range (cfg : ConfigModel) (s : Q) : Prop :=
  (fst (priority_bounds cfg) <= s)%Q /\ (s <= snd (priority_bounds cfg))%Q.

(** The score is a value of the configured range rounded to two decimals:
    it is within half a cent of the range, and inside it on the side of a
    bound that is a number of whole cents. *)
Definition score_in_rounded_range (cfg : ConfigModel) (s : Q) : Prop :=
  let lower := fst (priority_bounds cfg) in
  let upper := snd (priority_bounds cfg) in
  (exists c : Q, score_in_range cfg c /\ s = round2 c)
  /\ (lower - (1 # 200) <= s)%Q
  /\ (s <= upper + (1 # 200))%Q
  /\ (whole_cents lower -> (lower <= s)%Q)
  /\ (whole_cents upper -> (s <= upper)%Q).

(** Where the rows of the three outputs come from. *)
Definition overview_from (math_exp : Q -> Q) (a : Args) (row : OverviewRow)
    : Prop :=
  exists st, orders st <> 0 /\ row = overview_row math_exp a st.

Definition action_from (math_exp : Q -> Q) (a : Args) (row : ActionRow)
    : Prop :=
  exists st l, orders st <> 0 /\ row = action_row math_exp a st l.

Definition meta_from (math_exp : Q -> Q) (a : Args) (e : string * Meta)
    : Prop :=
  exists st, orders st <> 0 /\ snd e = meta_entry math_exp a st.

Definition rows_from (math_exp : Q -> Q) (a : Args) (out : Output) : Prop :=
  Forall (overview_from math_exp a) (overview_rows out)
  /\ Forall (action_from math_exp a) (action_rows out)
  /\ Forall (meta_from math_exp a) (meta_map out).

(** The order of the sort keys, as propositions. *)
Definition key_le (k1 k2 : Q * Z * Q * Q) : Prop :=
  let '(s1, o1, r1, a1) := k1 in
  let '(s2, o2, r2, a2) := k2 in
  (s1 < s2)%Q
  \/ ((s1 == s2)%Q
      /\ (o1 < o2
          \/ (o1 = o2
              /\ ((r1 < r2)%Q \/ ((r1 == r2)%Q /\ (a1 <= a2)%Q))))).

(** [x] does not sort after [y]. *)
Definition not_after (x y : ActionRow) : Prop :=
  key_le (action_sort_key x) (action_sort_key y).

(** What [build_alert_rows] guarantees of the fields the sort reads. *)
Definition sortable (row : ActionRow) : Prop :=
  ar_priority_score_raw row = ar_priority_score row
  /\ (forall r, ar_return_rate row = Some r -> (r <= 1)%Q)
  /\ (exists v, ar_aov row = Some v).

(** The customer's return rate is known and equal to [q]. *)
Definition return_rate_is (st : CustomerStats) (q : Q) : Prop :=
  match return_rate st with
  | Some r => (r == q)%Q
  | None => False
  end.

(** ** Sample data *)

Module Sample.

(** A configuration file with no key set: every fallback applies. *)
Definition no_defaults : Defaults :=
  mkDefaults None None None None None None None None None None None None
             None None None.

Definition timing_defaults : TimingParams := mkTiming true 0.2 30 2 0 2.

Definition config : ConfigModel :=
  mkConfig no_defaults [] [] [] false "previous_month" 30 timing_defaults.

(** 2026-11-04, with the defaults of the command line. *)
Definition run_day : Z := 739924.

Definition args : Args :=
  mkArgs run_day 1000 90 1.5 0.5 config [] 0 false [] [] 0 "action" 30 false.

Definition blank_row : Row :=
  mkRow None None None None None None None None 0 None None 0
        None None None None None None None None None None.

(** A paid order of [amount] by the customer with phone [ph]. *)
Definition order_row (ph : string) (day : Z) (amount : Q) : Row :=
  mkRow (Some "Li") (Some ph) None None (Some "一店") (Some "tea") None None
        amount (Some amount) None 0 None None None None (Some day)
        None None None None None.

(** The same, with [refund] paid back and a refund type. *)
Definition refund_row (ph : string) (day : Z) (amount refund : Q)
    (kind : string) : Row :=
  mkRow (Some "Li") (Some ph) None None (Some "一店") (Some "tea") None None
        amount (Some amount) None refund None None (Some kind) None (Some day)
        None None None None None.

(** A function with the two properties of [math.exp] used below, to run
    the timing-window boost on examples. *)
Definition exp_stand_in (x : Q) : Q := (1 / (1 - x))%Q.

(** Two orders 40 days apart, the later one 40 days before [run_day]. *)
Definition two_orders : CustomerStats :=
  ingest_row
    (ingest_row (new_stats "13800000000")
       (order_row "13800000000" (run_day - 80) 120))
    (order_row "13800000000" (run_day - 40) 150).

(** [n] orders of [amount], 30 days apart, the latest on day [last]. *)
Fixpoint monthly_orders (ph : string) (last : Z) (amount : Q) (n : nat)
    : list Row :=
  match n with
  | O => []
  | S k =>
      monthly_orders ph last amount k
      ++ [order_row ph (last - 30 * Z.of_nat k) amount]
  end.

(** Ten orders, the latest 40 days before [run_day]: nine of 100 and one
    of 600 that was paid back in full. *)
Definition ten_orders_rows : list Row :=
  monthly_orders "13900000000" (run_day - 70) 100 9
  ++ [refund_row "13900000000" (run_day - 40) 600 600 "仅退款"].

Definition ten_orders : Customers := load_customers ten_orders_rows.

Definition ten_orders_stats : CustomerStats :=
  match dict_get "13900000000" ten_orders with
  | Some st => st
  | None => new_stats "13900000000"
  end.

(** A run with a cooldown of 7 days that leaves out the buyers of the
    last 60 days, in which the customer of [ten_orders] was contacted 3
    days ago and the contact has the reply status [status]. *)
Definition args_contacted (status : option string) : Args :=
  mkArgs run_day 1000 90 1.5 0.5 config [] 0 false
         [("13900000000", run_day - 3)]
         [("13900000000", mkContact None None status None None None)]
         7 "action" 60 false.

(** The configuration with an upper bound of the score that is not a
    number of whole cents. *)
Definition config_with_max (bound : Q) : ConfigModel :=
  mkConfig
    (mkDefaults None None None None None None None None None None None None
                None None (Some bound))
    [] [] [] false "previous_month" 30 timing_defaults.

Definition args_with (c : ConfigModel) : Args :=
  mkArgs run_day 1000 90 1.5 0.5 c [] 0 false [] [] 0 "action" 30 false.

Definition config_with_peak (peak : Q) : ConfigModel :=
  mkConfig no_defaults [] [] [] false "previous_month" 30
           (mkTiming true 0.2 peak 2 0 2).

End Sample.

(** ** Invariants of the customer statistics *)

(** The counters of a customer agree with the rows kept for it. *)
Definition counts_consistent (st : CustomerStats) : Prop :=
  0 <= orders st
  /\ 0 <= cancel_count st
  /\ 0 <= refund_count st
  /\ orders st + cancel_count st = Z.of_nat (List.length (order_details st))
  /\ Z.of_nat (List.length (order_history st)) <= orders st
  /\ refund_count st <= Z.of_nat (List.length (order_details st))
  /\ (0 <= refund_amount st)%Q.

(** The first and last order dates are the least and the greatest date of
    the order history, and are unset exactly when the history is empty. *)
Definition order_dates_consistent (st : CustomerStats) : Prop :=
  match first_order st, last_order st with
  | None, None => order_history st = []
  | Some f, Some l =>
      In f (map fst (order_history st))
      /\ In l (map fst (order_history st))
      /\ Forall (fun e => f <= fst e /\ fst e <= l) (order_history st)
  | _, _ => False
  end.

(** The number of detail records kept over all the customers. *)
Definition total_details (cs : Customers) : nat :=
  fold_right (fun e acc => (List.length (order_details (snd e)) + acc)%nat) O cs.

(** ** Further sample data *)

Module Sample2.

(** A run with the cooldown of 7 days in the scope "all" and no contact yet. *)
Definition args_global : Args :=
  mkArgs Sample.run_day 1000 90 1.5 0.5 Sample.config [] 0 false [] []
         7 "all" 30 false.

(** The row of the customer of [Sample.ten_orders] in a run without
    contact log. *)
Definition ten_orders_row (a : Args) : ActionRow :=
  action_row Sample.exp_stand_in a Sample.ten_orders_stats list_audit.

End Sample2.

(** Whether a row of the work list is a cooldown row. *)
Definition is_cooldown_row (row : ActionRow) : bool :=
  String.eqb (ar_customer_list row) list_cooldown.

(** * Further parts of the program *)

(** ** The high-value threshold ([determine_threshold]) *)

(** [int(x)] on a float: the integer part, rounded towards zero. *)
Definition trunc (x : Q) : Z := Z.quot (Qnum x) (Z.pos (Qden x)).

(** [sorted(..., reverse=True)] is stable: an amount is placed behind the
    amounts that are not smaller. *)
Fixpoint insert_desc (x : Q) (sorted : list Q) : list Q :=
  match sorted with
  | [] => [x]
  | y :: rest => if Qltb y x then x :: sorted else y :: insert_desc x rest
  end.

Definition sorted_desc (l : list Q) : list Q :=
  fold_left (fun sorted x => insert_desc x sorted) l [].

Definition determine_threshold (customers : Customers) (fraction : Q) : Q :=
  let totals := sorted_desc (map (fun e => net_total (snd e)) customers) in
  match totals with
  | [] => 0%Q
  | _ :: _ =>
      let n := Z.of_nat (List.length totals) in
      let cutoff_index :=
        Z.max 0 (Z.min (n - 1) (trunc (of_int n * fraction) - 1)) in
      nth (Z.to_nat cutoff_index) totals 0%Q
  end.

(** ** Columns found by their header (common.py) *)

(** [for idx, cell in enumerate(header_row)]: a later column of the same
    name replaces the earlier one, a column without a name is skipped.  The
    cells of the header are texts or empty. *)
Fixpoint header_fold (cells : list (option string)) (idx : nat)
    (mapping : list (string * nat)) : list (string * nat) :=
  match cells with
  | [] => mapping
  | cell :: rest =>
      let name := Text.strip_some cell in
      header_fold rest (S idx)
        (if nonempty name then dict_set name idx mapping else mapping)
  end.

Definition build_header_index (header_row : list (option string))
    : list (string * nat) :=
  header_fold header_row 0%nat [].

Fixpoint lookup_index (header_index : list (string * nat))
    (candidates : list string) : option nat :=
  match candidates with
  | [] => None
  | candidate :: rest =>
      match dict_get candidate header_index with
      | Some idx => Some idx
      | None => lookup_index header_index rest
      end
  end.

(** The last position of [name] in [names], counted from [idx]. *)
Fixpoint last_position (name : string) (names : list string) (idx : nat)
    : option nat :=
  match names with
  | [] => None
  | x :: rest =>
      match last_position name rest (S idx) with
      | Some j => Some j
      | None => if String.eqb x name then Some idx else None
      end
  end.

(** ** The contact log ([load_contact_log]) *)

(** A row of the contact log after [deduplicate_phone] and
    [parse_excel_date] were applied to its two cells. *)
Definition ContactRow : Type := (option string * option Z)%type.

(** Lines 321-334: the latest contact date of each phone number. *)
Definition contact_step (contact_map : list (string * Z)) (row : ContactRow)
    : list (string * Z) :=
  match row with
  | (phone, contact_date) =>
      if negb (truthy phone) then contact_map
      else match phone, contact_date with
           | Some ph, Some d =>
               match dict_get ph contact_map with
               | None => dict_set ph d contact_map
               | Some prev =>
                   if prev <? d then dict_set ph d contact_map
                   else contact_map
               end
           | _, _ => contact_map
           end
  end.

Definition load_contact_log (rows : list ContactRow) : list (string * Z) :=
  fold_left contact_step rows [].

Module Sample3.

(** Three customers with net totals of 300, 120 and 50. *)
Definition three_customers : Customers :=
  load_customers
    [Sample.order_row "13700000001" (Sample.run_day - 10) 120;
     Sample.order_row "13700000002" (Sample.run_day - 20) 300;
     Sample.order_row "13700000003" (Sample.run_day - 30) 50].

Definition contact_rows : list ContactRow :=
  [(Some "13700000001", Some (Sample.run_day - 9));
   (Some "13700000001", Some (Sample.run_day - 2));
   (None, Some (Sample.run_day - 1));
   (Some "13700000001", Some (Sample.run_day - 5));
   (Some "13700000002", None)].

(** A header row that names the phone column twice. *)
Definition header : list (option string) :=
  [Some "姓名"; Some " 手机号 "; None; Some "手机号"; Some "  "].

End Sample3.

(** ** Anniversary dates ([shift_months], [build_anniversary_dates]) *)

Record Date : Type := mkDate {
  d_year : Z;
  d_month : Z;
  d_day : Z
}.

(** [date(year, month, day)], which raises [ValueError] for a day that
    does not exist and for a year outside 1..9999. *)
Definition make_date (year month day : Z) : option Date :=
  if (1 <=? year) && (year <=? 9999) && (1 <=? month) && (month <=? 12)
     && (1 <=? day) && (day <=? Calendar.days_in_month year month)
  then Some (mkDate year month day)
  else None.

Definition shift_months (base : Date) (delta : Z) : option Date :=
  let total_months := d_year base * 12 + d_month base - 1 + delta in
  let year := total_months / 12 in
  let month := total_months mod 12 + 1 in
  let last_day := Calendar.days_in_month year month in
  let day := Z.min (d_day base) last_day in
  make_date year month day.

(** A list comprehension over calls that may raise. *)
Fixpoint collect_dates (l : list (option Date)) : option (list Date) :=
  match l with
  | [] => Some []
  | None :: _ => None
  | Some x :: rest =>
      match collect_dates rest with
      | Some xs => Some (x :: xs)
      | None => None
      end
  end.

Definition unique_offsets (offsets : list Z) : list Z :=
  fold_right insert_unique [] (filter (fun offset => 0 <? offset) offsets).

Definition build_anniversary_dates (base : Date) (offsets : list Z)
    : option (list Date) :=
  collect_dates
    (map (fun offset => shift_months base (- offset)) (unique_offsets offsets)).

(** The months of a date counted from the year 0. *)
Definition month_index (x : Date) : Z := d_year x * 12 + d_month x - 1.

(** A date that [date(...)] accepts. *)
Definition valid_date (x : Date) : Prop :=
  make_date (d_year x) (d_month x) (d_day x) = Some x.

(** ** Recommended actions ([build_sop_recommendations]) *)

Definition sop_after_sales : string :=
  "【售后排查】(禁止促单，重点核实退款原因)".

Definition sop_quality_review : string :=
  "【质量复盘】(内部检视退货链路，暂缓促单)".

Definition priority_mapping : list (string * string) :=
  [("退货激增", sop_after_sales); ("退货率", sop_quality_review)].

Definition xianyu_mapping (favorite : string) : list (string * string) :=
  [("高价值流失预警", ("【老用户回访】(话术：生日专属福利+" ++ favorite ++ "独家款)")%string);
   ("长期未复购", "【限时秒杀】(话术：超低折扣+朋友圈超低折扣)");
   ("短期未复购", ("【直接送东西】(话术：无门槛券+" ++ favorite ++ "直送)")%string);
   ("消费骤降", "【独家款式】(话术：新品限量+看完下架)");
   ("节点回访", "【生日惊喜】(话术：生日专属红包+独家福利)");
   ("高价值活跃", ("【VIP专属】(话术：" ++ favorite ++ "独家渠道款+超值组合)")%string)].

Definition wechat_high_mapping (favorite : string) : list (string * string) :=
  [("高价值流失预警", ("【1v1专属私聊】(话术：" ++ favorite ++ "定制复购权益+专属折扣)")%string);
   ("长期未复购", ("【1v1暖场关怀】(话术：询问近期需求+" ++ favorite ++ "新品预览)")%string);
   ("短期未复购", ("【1v1新品推荐】(话术：" ++ favorite ++ "升级款OneOne模仿教程+买拍测评)")%string);
   ("消费骤降", "【1v1回访排查】(话术：询问体验反馈+物流服务改进)");
   ("节点回访", "【1v1纪念日惊喜】(话术：专属纪念日券+定制福利)");
   ("高价值活跃", ("【1v1增购建议】(话术：" ++ favorite ++ "同系列搭配+学习电商外卖平台2)")%string)].

Definition wechat_mid_mapping (favorite : string) : list (string * string) :=
  [("高价值流失预警", ("【小福利唤醒】(话术：" ++ favorite ++ "限时优惠+复购红包)")%string);
   ("长期未复购", "【小福利唤醒】(话术：新品补货通知+限时折扣)");
   ("短期未复购", ("【小福利唤醒】(话术：" ++ favorite ++ "热卖搭配+小红包)")%string);
   ("消费骤降", "【小福利唤醒】(话术：体验改进回馈+补偿券)");
   ("节点回访", "【小福利唤醒】(话术：纪念日红包+专属优惠)");
   ("高价值活跃", ("【小福利唤醒】(话术：" ++ favorite ++ "新品上架+会员福利)")%string)].

Definition wechat_low_mapping (favorite : string) : list (string * string) :=
  [("高价值流失预警", ("【限时秒杀】(话术：" ++ favorite ++ "特价清仓+最后机会)")%string);
   ("长期未复购", "【限时秒杀】(话术：断码清仓+超低价格)");
   ("短期未复购", ("【特价清仓】(话术：" ++ favorite ++ "库存处理+限时抢购)")%string);
   ("消费骤降", "【特价清仓】(话术：品质保证+清仓优惠)");
   ("节点回访", "【限时秒杀】(话术：纪念日特价+仅此一次)");
   ("高价值活跃", ("【特价清仓】(话术：" ++ favorite ++ "组合优惠+批量折扣)")%string)].

(** [for tag in tags: if tag in mapping: seen[tag] = mapping[tag]] *)
Definition collect_seen (mapping : list (string * string)) (tags : list string)
    (seen : list (string * string)) : list (string * string) :=
  fold_left
    (fun seen tag =>
       match dict_get tag mapping with
       | Some action => dict_set tag action seen
       | None => seen
       end)
    tags seen.

(** The local [platform_hint] of the function is set and never read, and
    is left out. *)
Definition build_sop_recommendations (tags : list string)
    (favorite_item platform : option string) (customer_value : string)
    : string :=
  let favorite :=
    match favorite_item with
    | Some (String _ _ as item) => item
    | _ => "重点单品"
    end in
  let is_xianyu :=
    match platform with
    | Some p => nonempty p && contains "闲鱼" p
    | None => false
    end in
  let seen := collect_seen priority_mapping tags [] in
  match seen with
  | _ :: _ => join ", " (map snd seen)
  | [] =>
      if is_xianyu then
        match collect_seen (xianyu_mapping favorite) tags seen with
        | [] => ("【促销策略】(话术：限时秒杀+" ++ favorite ++ "超低折扣+看完下架)")%string
        | seen' => join ", " (map snd seen')
        end
      else if String.eqb customer_value "高价值" then
        match collect_seen (wechat_high_mapping favorite) tags seen with
        | [] => ("【1v1专属服务】(话术：" ++ favorite ++ "复购专享+OneOne模仿教程)")%string
        | seen' => join ", " (map snd seen')
        end
      else if String.eqb customer_value "中价值" then
        match collect_seen (wechat_mid_mapping favorite) tags seen with
        | [] => ("【小福利唤醒】(话术：" ++ favorite ++ "限时活动+小额红包)")%string
        | seen' => join ", " (map snd seen')
        end
      else
        match collect_seen (wechat_low_mapping favorite) tags seen with
        | [] => ("【限时秒杀+特价清仓】(话术：" ++ favorite ++ "断码处理+看完下架)")%string
        | seen' => join ", " (map snd seen')
        end
  end.

(** The action text of a customer in [build_alert_rows] (line 1989). *)
Definition sop_actions (a : Args) (st : CustomerStats) : string :=
  build_sop_recommendations (tags a st) (top_item st) (top_platform st)
    (customer_value st).

(** The tags that [build_alert_rows] gives out. *)
Definition tag_names : list string :=
  ["高价值流失预警"; "长期未复购"; "短期未复购"; "消费骤降"; tag_refund_spike;
   "节点回访"; "高价值活跃"].

(** ** The contact log with its further columns ([load_contact_log_extended]) *)

(** A data row of the contact log: the phone and the two dates after
    [deduplicate_phone] and [parse_excel_date], the text cells as they are
    ([None] for an empty cell and for a column that the sheet does not
    have), the happiness value as [float] reads it ([None] when the cell is
    empty or when [float] raises).  The key [optout] that the loop also
    writes is read nowhere in the program and is left out. *)
Record LogRow : Type := mkLogRow {
  lr_phone : option string;
  lr_date : option Z;
  lr_employee : option string;
  lr_platform : option string;
  lr_status : option string;
  lr_note : option string;
  lr_next_contact : option Z;
  lr_happiness : option Q
}.

(** [str(cell).strip() if cell else info.get(key)] *)
Definition updated_text (cell old : option string) : option string :=
  match Text.strip_opt cell with
  | Some text => Some text
  | None => old
  end.

Definition updated_value {A : Type} (cell old : option A) : option A :=
  match cell with
  | Some v => Some v
  | None => old
  end.

Definition no_info : ContactInfo := mkContact None None None None None None.

(** Lines 380-403. *)
Definition info_step (info_map : list (string * ContactInfo)) (row : LogRow)
    : list (string * ContactInfo) :=
  match lr_phone row with
  | Some (String _ _ as ph) =>
      let info := match dict_get ph info_map with
                  | Some i => i
                  | None => no_info
                  end in
      dict_set ph
        (mkContact (updated_text (lr_employee row) (ci_employee info))
                   (updated_text (lr_platform row) (ci_platform info))
                   (updated_text (lr_status row) (ci_status info))
                   (updated_text (lr_note row) (ci_note info))
                   (updated_value (lr_next_contact row) (ci_next_contact info))
                   (updated_value (lr_happiness row) (ci_happiness info)))
        info_map
  | _ => info_map
  end.

Definition extended_step
    (maps : list (string * Z) * list (string * ContactInfo)) (row : LogRow)
    : list (string * Z) * list (string * ContactInfo) :=
  (contact_step (fst maps) (lr_phone row, lr_date row),
   info_step (snd maps) row).

Definition load_contact_log_extended (rows : list LogRow)
    : list (string * Z) * list (string * ContactInfo) :=
  fold_left extended_step rows ([], []).

Module Sample4.

(** Two rows of one phone: the later row of the sheet has the earlier
    date and the status that counts. *)
Definition log_rows : list LogRow :=
  [mkLogRow (Some "13900000000") (Some (Sample.run_day - 3)) None None
            (Some " 已回复 ") None None None;
   mkLogRow (Some "13900000000") (Some (Sample.run_day - 30)) None None
            (Some "无回复") None None None;
   mkLogRow (Some "13900000000") None None None None (Some "note") None None].

(** The single-order policy switched on, in the mode of the default. *)
Definition config_single_order : ConfigModel :=
  mkConfig Sample.no_defaults [] [] [] true "Previous_Month" 30
           Sample.timing_defaults.

End Sample4.

(** The value tiers in their order. *)
Definition value_rank (tier : string) : Z :=
  if String.eqb tier "高价值" then 2
  else if String.eqb tier "中价值" then 1
  else 0.

(** ** Sample customers for the scenarios *)

Module Sample5.

(** Ten orders of 600, the latest 40 days before [Sample.run_day] and with
    60 paid back: a return rate of 0.1 and no refund spike. *)
Definition vip_rows : list Row :=
  Sample.monthly_orders "13600000000" (Sample.run_day - 70) 600 9
  ++ [Sample.refund_row "13600000000" (Sample.run_day - 40) 600 60 "仅退款"].

Definition vip_stats : CustomerStats :=
  match dict_get "13600000000" (load_customers vip_rows) with
  | Some st => st
  | None => new_stats "13600000000"
  end.

(** Five orders of 600 and no refund, the latest 150 days before
    [Sample.run_day]. *)
Definition five_orders_rows : list Row :=
  Sample.monthly_orders "13500000000" (Sample.run_day - 150) 600 5.

Definition five_orders_stats : CustomerStats :=
  match dict_get "13500000000" (load_customers five_orders_rows) with
  | Some st => st
  | None => new_stats "13500000000"
  end.

(** Two orders, the second one an exchange. *)
Definition exchange_stats : CustomerStats :=
  ingest_row
    (ingest_row (new_stats "13800000000")
       (Sample.order_row "13800000000" 739800 120))
    (Sample.refund_row "13800000000" 739850 80 0 "换货").

(** The customer of [Sample.ten_orders] and the one of [vip_rows]. *)
Definition two_customers : Customers :=
  load_customers (Sample.ten_orders_rows ++ vip_rows).

(** A run with the cooldown of 7 days in the scope "all", in which the
    customer of [Sample.ten_orders] was contacted 3 days ago and answered. *)
Definition args_global_contacted : Args :=
  mkArgs Sample.run_day 1000 90 1.5 0.5 Sample.config [] 0 false
         [("13900000000", Sample.run_day - 3)]
         [("13900000000",
           mkContact None None (Some "已回复") None None None)]
         7 "all" 30 false.

End Sample5.

(** * Theorems *)

(** ** Time windows *)

Section TimeWindows.

Variable now : Z.

Lemma window_step_partitioned (w : Windows) (entry : Z * Q) :
  partitioned w -> partitioned (window_step now w entry).
Proof.
  unfold partitioned, window_step.
  destruct entry as [order_date net], w as [d30 d90 p90 d180 d365].
  cbn. intros H.
  destruct (now - 90 <=? order_date) eqn:E90;
    destruct (now - 180 <=? order_date) eqn:E180; try lra.
  apply Z.leb_le in E90. apply Z.leb_gt in E180. lia.
Qed.

Lemma fold_window_partitioned (entries : list (Z * Q)) :
  forall w, partitioned w ->
    partitioned (fold_left (window_step now) entries w).
Proof.
  induction entries as [|e es IH]; intros w Hw; cbn; [exact Hw|].
  apply IH, window_step_partitioned, Hw.
Qed.

End TimeWindows.

(** C10: for every order history and every reference date, the sums of
    [compute_time_windows] satisfy [days_90 + prev_90 = days_180] in exact
    arithmetic: an order of the last 180 days falls in exactly one of the two
    90-day buckets. *)
Theorem time_windows_partition (entries : list (Z * Q)) (today : Z) :
  let w := compute_time_windows entries today in
  (days_90 w + prev_90 w == days_180 w)%Q.
Proof.
  cbn. apply fold_window_partitioned. unfold partitioned. cbn. lra.
Qed.

(** ** Facts about the Python primitives *)

Section PyFacts.

Lemma Qleb_true (x y : Q) : Qleb x y = true <-> (x <= y)%Q.
Proof. unfold Qleb. apply Qle_bool_iff. Qed.

Lemma Qleb_false (x y : Q) : Qleb x y = false <-> (y < x)%Q.
Proof.
  unfold Qleb. split; intros H.
  - apply Qnot_le_lt. intros Hle. apply Qle_bool_iff in Hle. congruence.
  - destruct (Qle_bool x y) eqn:E; [|reflexivity].
    apply Qle_bool_iff in E. lra.
Qed.

Lemma Qltb_true (x y : Q) : Qltb x y = true <-> (x < y)%Q.
Proof.
  unfold Qltb. rewrite negb_true_iff. apply (Qleb_false y x).
Qed.

Lemma Qltb_false (x y : Q) : Qltb x y = false <-> (y <= x)%Q.
Proof.
  unfold Qltb. rewrite negb_false_iff. apply (Qleb_true y x).
Qed.

Lemma Qeqb_true (x y : Q) : Qeqb x y = true <-> (x == y)%Q.
Proof. unfold Qeqb. apply Qeq_bool_iff. Qed.

Lemma Qeqb_false (x y : Q) : Qeqb x y = false <-> ~ (x == y)%Q.
Proof.
  split; intros H.
  - intros E. apply Qeqb_true in E. congruence.
  - destruct (Qeqb x y) eqn:E; [|reflexivity].
    apply Qeqb_true in E. contradiction.
Qed.

Lemma fmin_le_l (x y : Q) : (fmin x y <= x)%Q.
Proof.
  unfold fmin. destruct (Qltb y x) eqn:E; [|lra].
  apply Qltb_true in E. lra.
Qed.

Lemma fmin_le_r (x y : Q) : (fmin x y <= y)%Q.
Proof.
  unfold fmin. destruct (Qltb y x) eqn:E; [lra|].
  apply Qltb_false in E. lra.
Qed.

Lemma fmin_glb (x y z : Q) : (z <= x)%Q -> (z <= y)%Q -> (z <= fmin x y)%Q.
Proof. unfold fmin. destruct (Qltb y x); auto. Qed.

Lemma fmax_ge_l (x y : Q) : (x <= fmax x y)%Q.
Proof.
  unfold fmax. destruct (Qltb x y) eqn:E; [|lra].
  apply Qltb_true in E. lra.
Qed.

Lemma fmax_ge_r (x y : Q) : (y <= fmax x y)%Q.
Proof.
  unfold fmax. destruct (Qltb x y) eqn:E; [lra|].
  apply Qltb_false in E. lra.
Qed.

Lemma fmax_lub (x y z : Q) : (x <= z)%Q -> (y <= z)%Q -> (fmax x y <= z)%Q.
Proof. unfold fmax. destruct (Qltb x y); auto. Qed.

Lemma fmin_le_fmax (x y : Q) : (fmin x y <= fmax x y)%Q.
Proof. pose proof (fmin_le_l x y). pose proof (fmax_ge_l x y). lra. Qed.

(** [round(x)] is the floor or the floor plus one. *)
Lemma round_half_even_cases (x : Q) :
  (round_half_even x = Qfloor x /\ (x - inject_Z (Qfloor x) <= 1 # 2)%Q)
  \/ (round_half_even x = Qfloor x + 1
      /\ (1 # 2 <= x - inject_Z (Qfloor x))%Q).
Proof.
  unfold round_half_even.
  destruct (Qcompare (x - inject_Z (Qfloor x)) (1 # 2)) eqn:E.
  - apply Qeq_alt in E. destruct (Z.even (Qfloor x)).
    + left. split; [reflexivity|]. rewrite E. lra.
    + right. split; [reflexivity|]. rewrite E. lra.
  - apply Qlt_alt in E. left. split; [reflexivity|]. lra.
  - apply Qgt_alt in E. right. split; [reflexivity|]. lra.
Qed.

Lemma inject_Z_succ (z : Z) : (inject_Z (z + 1) == inject_Z z + 1)%Q.
Proof. rewrite inject_Z_plus. reflexivity. Qed.

(** Rounding moves a number by half a unit at most. *)
Lemma round_half_even_close (x : Q) :
  (x - (1 # 2) <= inject_Z (round_half_even x))%Q
  /\ (inject_Z (round_half_even x) <= x + (1 # 2))%Q.
Proof.
  pose proof (Qfloor_le x) as Hlo.
  pose proof (Qlt_floor x) as Hhi. rewrite inject_Z_succ in Hhi.
  destruct (round_half_even_cases x) as [[-> H]|[-> H]];
    rewrite ?inject_Z_succ; split; lra.
Qed.

(** Rounding does not cross an integer. *)
Lemma round_half_even_le_int (x : Q) (n : Z) :
  (x <= inject_Z n)%Q -> round_half_even x <= n.
Proof.
  intros Hx.
  pose proof (Qfloor_le x) as Hlo.
  assert (Hfl : Qfloor x <= n).
  { rewrite <- (Qfloor_Z n). apply Qfloor_resp_le, Hx. }
  destruct (round_half_even_cases x) as [[-> H]|[-> H]]; [exact Hfl|].
  destruct (Z.eq_dec (Qfloor x) n) as [E|E]; [|lia].
  rewrite E in H. lra.
Qed.

Lemma round_half_even_ge_int (x : Q) (n : Z) :
  (inject_Z n <= x)%Q -> n <= round_half_even x.
Proof.
  intros Hx.
  assert (Hfl : n <= Qfloor x).
  { rewrite <- (Qfloor_Z n). apply Qfloor_resp_le, Hx. }
  destruct (round_half_even_cases x) as [[-> H]|[-> H]]; lia.
Qed.

Lemma round2_close (x : Q) :
  (x - (1 # 200) <= round2 x)%Q /\ (round2 x <= x + (1 # 200))%Q.
Proof.
  unfold round2. destruct (round_half_even_close (x * 100)) as [H1 H2].
  split.
  - apply Qle_shift_div_l; [reflexivity|]. lra.
  - apply Qle_shift_div_r; [reflexivity|]. lra.
Qed.

Lemma round2_le_cents (x c : Q) :
  whole_cents c -> (x <= c)%Q -> (round2 x <= c)%Q.
Proof.
  intros [n Hn] Hx. unfold round2. rewrite Hn.
  apply Qle_shift_div_r; [reflexivity|].
  assert (E : (inject_Z n / 100 * 100 == inject_Z n)%Q) by (field).
  rewrite E. rewrite <- Zle_Qle. apply round_half_even_le_int.
  rewrite Hn in Hx. lra.
Qed.

Lemma round2_ge_cents (x c : Q) :
  whole_cents c -> (c <= x)%Q -> (c <= round2 x)%Q.
Proof.
  intros [n Hn] Hx. unfold round2. rewrite Hn.
  apply Qle_shift_div_l; [reflexivity|].
  assert (E : (inject_Z n / 100 * 100 == inject_Z n)%Q) by (field).
  rewrite E. rewrite <- Zle_Qle. apply round_half_even_ge_int.
  rewrite Hn in Hx. lra.
Qed.

End PyFacts.

(** ** Churn thresholds *)

Section Thresholds.

Lemma ceil_half_below (n : Z) : 2 <= n -> ceil (zdiv n 2) <= n - 1.
Proof.
  intros Hn. unfold ceil, zdiv.
  rewrite <- (Qceiling_Z (n - 1)). apply Qceiling_resp_le.
  apply Qle_shift_div_r; [reflexivity|].
  rewrite <- inject_Z_mult. rewrite <- Zle_Qle. lia.
Qed.

Lemma short_term_below (n : Z) :
  1 < n ->
  short_term_threshold_of n < n
  /\ short_term_threshold_of n = short_term_threshold_spec n.
Proof.
  intros Hn. unfold short_term_threshold_of, short_term_threshold_spec.
  pose proof (ceil_half_below n ltac:(lia)) as Hc.
  set (half := Z.max 1 (ceil (zdiv n 2))) in *.
  assert (Hhalf : half < n) by (unfold half; lia).
  assert (E : (n <=? half) = false) by (apply Z.leb_gt; lia).
  rewrite E. cbn. split; [exact Hhalf|reflexivity].
Qed.

End Thresholds.

(** C8: for every customer, a long-term threshold above 1 has the short-term
    threshold strictly below it, and the short-term threshold is half the
    long-term one, rounded up and at least 1, less 1 when that would reach
    the long-term value. *)
Theorem threshold_ordering (a : Args) (st : CustomerStats) :
  1 < long_term_threshold a st ->
  short_term_threshold a st < long_term_threshold a st
  /\ short_term_threshold a st
     = short_term_threshold_spec (long_term_threshold a st).
Proof.
  intros H. unfold short_term_threshold. apply short_term_below, H.
Qed.

Lemma threshold_ordering_witness :
  1 < long_term_threshold Sample.args (new_stats "13800000000")
  /\ (short_term_threshold Sample.args (new_stats "13800000000")
      < long_term_threshold Sample.args (new_stats "13800000000")
      /\ short_term_threshold Sample.args (new_stats "13800000000")
         = short_term_threshold_spec
             (long_term_threshold Sample.args (new_stats "13800000000"))).
Proof.
  split; [vm_compute; reflexivity|].
  apply threshold_ordering. vm_compute. reflexivity.
Defined.

(** ** The VIP test of the uplift estimate *)

Section Vip.

Variables (n : Z) (aov : Q).
Hypothesis Hn : 3 <= n.
Hypothesis Haov : (500 < aov)%Q.

Lemma is_vip_unknown_rate :
  is_vip (Some n) None aov = negb ((5 <=? n) && (n <? 7)).
Proof.
  unfold is_vip.
  destruct (7 <=? n) eqn:E7.
  - apply Z.leb_le in E7.
    replace (n <? 7) with false by (symmetry; apply Z.ltb_ge; lia).
    now rewrite andb_false_r.
  - apply Z.leb_gt in E7.
    replace (n <? 7) with true by (symmetry; apply Z.ltb_lt; lia).
    destruct (5 <=? n) eqn:E5; [reflexivity|].
    replace (3 <=? n) with true by (symmetry; apply Z.leb_le; lia).
    replace (Qltb 500 aov) with true by (symmetry; apply Qltb_true; exact Haov).
    reflexivity.
Qed.

Lemma is_vip_known_rate (r : Q) :
  (r < 0.15)%Q ->
  is_vip (Some n) (Some r) aov
  = negb ((5 <=? n) && (n <? 7)) || Qltb r 0.1.
Proof.
  intros Hr. unfold is_vip.
  assert (H400 : Qltb 400 aov = true) by (apply Qltb_true; lra).
  assert (H500 : Qltb 500 aov = true) by (apply Qltb_true; lra).
  destruct (7 <=? n) eqn:E7.
  - apply Z.leb_le in E7.
    replace (n <? 7) with false by (symmetry; apply Z.ltb_ge; lia).
    rewrite andb_false_r. cbn. apply Qltb_true. lra.
  - apply Z.leb_gt in E7.
    replace (n <? 7) with true by (symmetry; apply Z.ltb_lt; lia).
    destruct (5 <=? n) eqn:E5.
    + rewrite H400. cbn. now rewrite andb_true_r.
    + replace (3 <=? n) with true by (symmetry; apply Z.leb_le; lia).
      rewrite H500. cbn. apply Qltb_true. lra.
Qed.

End Vip.

(** Through [build_alert_rows] the return rate is a number of refunds over
    the number of orders, which leaves no room between 0.1 and 0.15 with 5
    or 6 orders: there the three conditions of C5 do flag the customer. *)
Lemma vip_flag_for_customers (st : CustomerStats) (r : Q) :
  3 <= orders st ->
  (500 < avg_order_value st)%Q ->
  return_rate st = Some r ->
  (r < 0.15)%Q ->
  is_vip (Some (orders st)) (return_rate st) (avg_order_value st) = true.
Proof.
  intros Hn Ha Hr Hlt. rewrite Hr.
  rewrite (is_vip_known_rate (orders st) (avg_order_value st) Hn Ha r Hlt).
  destruct ((5 <=? orders st) && (orders st <? 7)) eqn:E; [|reflexivity].
  cbn [negb orb]. apply Qltb_true.
  apply andb_true_iff in E. destruct E as [E5 E7].
  apply Z.leb_le in E5. apply Z.ltb_lt in E7.
  unfold return_rate in Hr.
  replace (0 <? orders st) with true in Hr by (symmetry; apply Z.ltb_lt; lia).
  inversion Hr as [Hr']. clear Hr. subst r.
  replace (Z.max (orders st) 1) with (orders st) in * by lia.
  assert (Hpos : (0 < inject_Z (orders st))%Q)
    by (change 0%Q with (inject_Z 0); rewrite <- Zlt_Qlt; lia).
  assert (Hmax : (inject_Z (orders st) <= 6)%Q)
    by (change 6%Q with (inject_Z 6); rewrite <- Zle_Qle; lia).
  unfold fmin in *. unfold zdiv in *.
  destruct (Z_le_gt_dec (refund_count st) 0) as [Hrc|Hrc].
  - assert (Hx : (inject_Z (refund_count st) / inject_Z (orders st) <= 0)%Q).
    { apply Qle_shift_div_r; [exact Hpos|].
      assert (H0 : (inject_Z (refund_count st) <= 0)%Q)
        by (change 0%Q with (inject_Z 0); rewrite <- Zle_Qle; lia).
      lra. }
    destruct (Qltb 1 _) eqn:E1; [apply Qltb_true in E1|]; lra.
  - assert (Hx : ((1 # 6) <= inject_Z (refund_count st) / inject_Z (orders st))%Q).
    { apply Qle_shift_div_l; [exact Hpos|].
      assert (H1 : (1 <= inject_Z (refund_count st))%Q)
        by (change 1%Q with (inject_Z 1); rewrite <- Zle_Qle; lia).
      lra. }
    destruct (Qltb 1 _) eqn:E1; lra.
Qed.

Lemma long_term_threshold_positive (a : Args) (st : CustomerStats) :
  1 <= long_term_threshold a st.
Proof.
  unfold long_term_threshold, long_term_threshold_of. cbv zeta.
  destruct (personalized_threshold a st) as [t|];
    cbn [app zmax_list fold_left]; lia.
Qed.

Lemma return_rate_known (st : CustomerStats) :
  0 < orders st -> exists r, return_rate st = Some r.
Proof.
  intros H. unfold return_rate.
  replace (0 <? orders st) with true by (symmetry; apply Z.ltb_lt; exact H).
  eauto.
Qed.

(** C5: every customer with at least 3 orders, an average order value above
    500 and a return rate below 0.15 or unknown is flagged as VIP by
    [estimate_uplift], with 5 or 6 orders and with 7 or more as well, and
    the uplift that [build_alert_rows] estimates for the customer is the
    base uplift times the VIP multiplier of the days since the last order
    (0.9 up to 30 days, 1.1 up to 90, 0.95 up to 180, 0.8 beyond), kept
    between the floor and the ceiling, not the golden-window curve. *)
Theorem vip_uplift_for_customers (a : Args) (st : CustomerStats) :
  3 <= orders st ->
  (500 < avg_order_value st)%Q ->
  match return_rate st with
  | Some r => (r < 0.15)%Q
  | None => True
  end ->
  is_vip (Some (orders st)) (return_rate st) (avg_order_value st) = true
  /\ forall ds,
       days_since a st = Some ds ->
       let params := uplift_params (cfg a) in
       let floor := fmax (up_floor params) 1 in
       let cap := fmin (up_ceiling params) (effective_uplift_cap a st) in
       let ceiling := if Qltb cap floor then floor else cap in
       let ratio := zdiv ds (long_term_threshold a st) in
       let multiplier :=
         if ds <=? 30 then 0.9%Q
         else if ds <=? 90 then 1.1%Q
         else if ds <=? 180 then 0.95%Q
         else 0.8%Q in
       estimated_uplift a st
       = fmax floor
           (fmin ceiling
              ((up_base params + fmax 0 (ratio - 1)) * multiplier)%Q).
Proof.
  intros Hn Haov Hrate.
  destruct (return_rate_known st ltac:(lia)) as [r Hr].
  rewrite Hr in Hrate.
  pose proof (vip_flag_for_customers st r Hn Haov Hr Hrate) as Hvip.
  split; [exact Hvip|].
  intros ds Hds. cbv zeta.
  pose proof (long_term_threshold_positive a st) as Hth.
  unfold estimated_uplift, estimate_uplift. cbv zeta.
  rewrite Hds, Hvip.
  replace (3 <=? orders st) with true by (symmetry; apply Z.leb_le; exact Hn).
  replace (long_term_threshold a st <=? 0) with false
    by (symmetry; apply Z.leb_gt; lia).
  rewrite Z.max_l by lia. reflexivity.
Qed.

Lemma vip_uplift_for_customers_witness :
  let st := Sample5.five_orders_stats in
  orders st = 5
  /\ return_rate st = Some (zdiv 0 5)
  /\ days_since Sample.args st = Some 150
  /\ is_vip (Some (orders st)) (return_rate st) (avg_order_value st) = true
  /\ Qeq (estimated_uplift Sample.args st)
         ((0.5 + (zdiv 150 90 - 1)) * 0.95).
Proof.
  cbv zeta.
  assert (Hds : days_since Sample.args Sample5.five_orders_stats = Some 150)
    by (vm_compute; reflexivity).
  destruct (vip_uplift_for_customers Sample.args Sample5.five_orders_stats)
    as [Hvip Huplift].
  - vm_compute. discriminate.
  - vm_compute. reflexivity.
  - vm_compute. reflexivity.
  - split; [vm_compute; reflexivity|]. split; [vm_compute; reflexivity|].
    split; [exact Hds|]. split; [exact Hvip|].
    rewrite (Huplift 150 Hds). vm_compute. reflexivity.
Defined.

(** A direct call of [estimate_uplift] with 5 orders, an average order
    value of 600 and a return rate that is unknown, or known and in
    [0.1, 0.15), takes the branch for 5 and 6 orders only and does not flag
    the customer; no customer of [build_alert_rows] has such a rate, as
    [vip_flag_for_customers] shows. *)
Remark direct_call_with_five_orders :
  is_vip (Some 5) None 600 = false
  /\ is_vip (Some 5) (Some 0.12%Q) 600 = false
  /\ is_vip (Some 3) None 600 = true
  /\ is_vip (Some 3) (Some 0.12%Q) 600 = true
  /\ Qeq (estimate_uplift (Some 150) (Some 75) Sample.config (Some 5%Q)
             (Some 5) None 600) 1.55
  /\ Qeq (estimate_uplift (Some 150) (Some 75) Sample.config (Some 5%Q)
             (Some 3) None 600) 1.425.
Proof.
  repeat split; vm_compute; reflexivity.
Qed.

(** ** Cancellations in [load_customers] *)

Section Cancellation.

Lemma nonpositive_gross_cancels (r : Row) :
  (gross_cell r <= 0)%Q -> row_is_cancellation r = true.
Proof.
  intros H. unfold row_is_cancellation. cbv zeta.
  apply orb_true_iff. right. apply Qleb_true, H.
Qed.

Lemma record_refund_frame (st : CustomerStats) (r : Row) :
  same_valid_orders st (record_refund st r)
  /\ cancel_count (record_refund st r) = cancel_count st
  /\ order_details (record_refund st r) = order_details st.
Proof.
  unfold record_refund, register_refund, same_valid_orders.
  destruct (row_is_refund r); [|repeat split].
  destruct (Qltb 0 (refund_cell r)); cbn; repeat split.
Qed.

Lemma dict_get_set_same {A : Type} (k : string) (v : A) (d : list (string * A)) :
  dict_get k (dict_set k v d) = Some v.
Proof.
  induction d as [|[k' v'] d IH]; cbn.
  - now rewrite String.eqb_refl.
  - destruct (String.eqb k' k) eqn:E; cbn; rewrite E; [reflexivity|exact IH].
Qed.

Lemma dict_get_set_other {A : Type} (k k0 : string) (v : A)
    (d : list (string * A)) :
  k0 <> k -> dict_get k0 (dict_set k v d) = dict_get k0 d.
Proof.
  intros Hne. induction d as [|[k' v'] d IH]; cbn.
  - destruct (String.eqb k k0) eqn:E; [|reflexivity].
    apply String.eqb_eq in E. congruence.
  - destruct (String.eqb k' k) eqn:E; cbn.
    + apply String.eqb_eq in E. subst k'.
      destruct (String.eqb k k0) eqn:E0; [|reflexivity].
      apply String.eqb_eq in E0. congruence.
    + destruct (String.eqb k' k0); [reflexivity|exact IH].
Qed.

End Cancellation.

(** C7: a row whose gross amount is at most 0, whatever its markers, is
    counted as a cancellation and not as a valid order.  The step of
    [load_customers] that counts the row changes the cancellation count, by
    one, and the detail list, by one record, and nothing else; over the whole
    processing of the row the valid-order count, the gross, net, cost and
    profit totals, the order history and the first and last order dates are
    unchanged, in the customer's entry of the dictionary too; the other
    customers are not touched. *)
Theorem nonpositive_gross_is_cancellation (cs : Customers) (r : Row) :
  (gross_cell r <= 0)%Q ->
  let k := build_customer_key (name_raw r) (phone_cell r) (address_raw r) in
  let st := match dict_get k cs with Some st => st | None => new_stats k end in
  row_is_cancellation r = true
  /\ (exists d, cancellation_recorded (fill_identity st r)
                  (record_order (fill_identity st r) r) d)
  /\ dict_get k (load_row cs r) = Some (ingest_row st r)
  /\ cancel_count (ingest_row st r) = cancel_count st + 1
  /\ (exists d, order_details (ingest_row st r) = order_details st ++ [d])
  /\ same_valid_orders st (ingest_row st r)
  /\ (forall k0, k0 <> k -> dict_get k0 (load_row cs r) = dict_get k0 cs).
Proof.
  intros Hg k st.
  pose proof (nonpositive_gross_cancels r Hg) as Hc.
  assert (Hrec : exists d, cancellation_recorded (fill_identity st r)
                             (record_order (fill_identity st r) r) d).
  { unfold record_order, cancellation_recorded. cbv zeta. rewrite Hc.
    unfold register_cancellation, append_order_detail, with_details. cbn.
    eexists. reflexivity. }
  split; [exact Hc|]. split; [exact Hrec|].
  split.
  { unfold load_row. fold k. fold st. apply dict_get_set_same. }
  destruct Hrec as [d Hd]. unfold cancellation_recorded in Hd.
  destruct (record_refund_frame (record_order (fill_identity st r) r) r)
    as (Hf & Hcc & Hdd).
  unfold ingest_row. rewrite Hcc, Hdd.
  unfold same_valid_orders in *.
  destruct Hf as (H1 & H2 & H3 & H4 & H5 & H6 & H7 & H8 & H9 & H10 & H11).
  rewrite H1, H2, H3, H4, H5, H6, H7, H8, H9, H10, H11.
  rewrite Hd. cbn.
  split; [reflexivity|]. split; [eexists; reflexivity|].
  split; [repeat split|].
  intros k0 Hk0. unfold load_row. fold k. apply dict_get_set_other, Hk0.
Qed.

Lemma nonpositive_gross_is_cancellation_witness :
  let r := Sample.refund_row "13800000000" 739900 0 0 "" in
  let cs := load_customers [Sample.order_row "13800000000" 739800 120] in
  (gross_cell r <= 0)%Q
  /\ cancel_count (ingest_row
       (match dict_get "13800000000" cs with
        | Some st => st
        | None => new_stats "13800000000"
        end) r) = 1.
Proof.
  cbv zeta. split; [vm_compute; discriminate|].
  pose proof (nonpositive_gross_is_cancellation
                (load_customers [Sample.order_row "13800000000" 739800 120])
                (Sample.refund_row "13800000000" 739900 0 0 "")) as H.
  cbv zeta in H.
  assert (Hg : (gross_cell (Sample.refund_row "13800000000" 739900 0 0 "") <= 0)%Q)
    by (vm_compute; discriminate).
  destruct (H Hg) as (_ & _ & _ & Hc & _).
  vm_compute in Hc |- *. exact Hc.
Defined.

(** ** Rounding to cents is compatible with equality and order *)

Section Rounding.

Lemma round_half_even_comp (x y : Q) :
  (x == y)%Q -> round_half_even x = round_half_even y.
Proof.
  intros E. unfold round_half_even.
  rewrite (Qfloor_comp x y E).
  assert (E' : (x - inject_Z (Qfloor y) == y - inject_Z (Qfloor y))%Q)
    by (rewrite E; reflexivity).
  rewrite (Qcompare_comp _ _ E' (1 # 2) (1 # 2) (Qeq_refl _)).
  reflexivity.
Qed.

Lemma round2_comp (x y : Q) : (x == y)%Q -> (round2 x == round2 y)%Q.
Proof.
  intros E. unfold round2.
  rewrite (round_half_even_comp (x * 100) (y * 100)); [reflexivity|].
  rewrite E. reflexivity.
Qed.

Lemma round_half_even_mono (x y : Q) :
  (x <= y)%Q -> round_half_even x <= round_half_even y.
Proof.
  intros Hxy.
  pose proof (Qfloor_resp_le x y Hxy) as Hfl.
  destruct (Z.eq_dec (Qfloor x) (Qfloor y)) as [E|E].
  - unfold round_half_even. rewrite E.
    destruct (Qcompare (x - inject_Z (Qfloor y)) (1 # 2)) eqn:Cx;
      destruct (Qcompare (y - inject_Z (Qfloor y)) (1 # 2)) eqn:Cy;
      try (destruct (Z.even (Qfloor y))); try lia;
      repeat match goal with
             | H : Qcompare _ _ = Eq |- _ => apply Qeq_alt in H
             | H : Qcompare _ _ = Lt |- _ => apply Qlt_alt in H
             | H : Qcompare _ _ = Gt |- _ => apply Qgt_alt in H
             end;
      exfalso; lra.
  - destruct (round_half_even_cases x) as [[-> _]|[-> _]];
      destruct (round_half_even_cases y) as [[-> _]|[-> _]]; lia.
Qed.

Lemma round2_mono (x y : Q) : (x <= y)%Q -> (round2 x <= round2 y)%Q.
Proof.
  intros Hxy. unfold round2.
  apply Qmult_le_compat_r; [|discriminate].
  rewrite <- Zle_Qle. apply round_half_even_mono. lra.
Qed.

Lemma whole_cents_0 : whole_cents 0.
Proof. exists 0. reflexivity. Qed.

End Rounding.

(** ** The timing-window boost *)

Section TimingBoost.

Variable math_exp : Q -> Q.
Variables (cfg : ConfigModel) (st : CustomerStats) (rate : option Q).
Variables (ds : Z) (pc : Q).

Let tp := timing_boost_params cfg.
Let boost := calculate_timing_boost math_exp (Some ds) (Some pc) st rate cfg.

Lemma timing_boost_outside :
  (of_int ds < pc * (1 - window_percentage tp))%Q
  \/ (pc * (1 + window_percentage tp) < of_int ds)%Q ->
  boost = 0%Q.
Proof.
  intros Hout. unfold boost, calculate_timing_boost. fold tp. cbv zeta.
  destruct (negb (enabled tp)); [reflexivity|].
  destruct (orders st <? min_orders tp); [reflexivity|].
  destruct (effective_orders st <? min_orders tp); [reflexivity|].
  destruct (0 <? exchange_count st); [reflexivity|].
  destruct (match rate with
            | Some r => Qltb (max_return_rate tp) r
            | None => false
            end); [reflexivity|].
  replace (Qltb (of_int ds) (pc - pc * window_percentage tp)
           || Qltb (pc + pc * window_percentage tp) (of_int ds)) with true;
    [reflexivity|].
  symmetry. apply orb_true_iff.
  destruct Hout as [H|H]; [left|right]; apply Qltb_true; lra.
Qed.

Lemma timing_boost_value :
  boost = 0%Q
  \/ exists nd : Q,
       boost = round2 (peak_boost tp * math_exp (- gaussian_k tp * (nd * nd))).
Proof.
  unfold boost, calculate_timing_boost. fold tp. cbv zeta.
  destruct (negb (enabled tp)); [now left|].
  destruct (orders st <? min_orders tp); [now left|].
  destruct (effective_orders st <? min_orders tp); [now left|].
  destruct (0 <? exchange_count st); [now left|].
  destruct (match rate with
            | Some r => Qltb (max_return_rate tp) r
            | None => false
            end); [now left|].
  destruct (Qltb (of_int ds) (pc - pc * window_percentage tp)
            || Qltb (pc + pc * window_percentage tp) (of_int ds));
    [now left|].
  right. eexists. reflexivity.
Qed.

Lemma timing_boost_le_peak :
  exp_unit_below_zero math_exp ->
  (0 <= peak_boost tp)%Q -> (0 <= gaussian_k tp)%Q ->
  (boost <= round2 (peak_boost tp))%Q.
Proof.
  intros Hexp Hp Hk.
  destruct timing_boost_value as [->|[nd ->]].
  - apply round2_ge_cents; [apply whole_cents_0|exact Hp].
  - apply round2_mono.
    assert (Hsq : (0 <= nd * nd)%Q).
    { destruct (Qlt_le_dec nd 0) as [Hneg|Hpos].
      - assert (E : (nd * nd == (- nd) * (- nd))%Q) by ring.
        rewrite E. apply Qmult_le_0_compat; lra.
      - apply Qmult_le_0_compat; lra. }
    assert (Harg : (- gaussian_k tp * (nd * nd) <= 0)%Q).
    { assert (H0 : (0 <= gaussian_k tp * (nd * nd))%Q)
        by (apply Qmult_le_0_compat; assumption).
      lra. }
    destruct (Hexp _ Harg) as [He0 He1].
    assert (H1 : (peak_boost tp * math_exp (- gaussian_k tp * (nd * nd))
                  <= peak_boost tp * 1)%Q).
    { rewrite (Qmult_comm (peak_boost tp) (math_exp _)).
      rewrite (Qmult_comm (peak_boost tp) 1).
      apply Qmult_le_compat_r; assumption. }
    lra.
Qed.

Lemma timing_boost_centre :
  exp_one_at_zero math_exp ->
  timing_eligible cfg st rate ->
  (0 <= pc * window_percentage tp)%Q ->
  (of_int ds == pc)%Q ->
  (boost == round2 (peak_boost tp))%Q.
Proof.
  intros Hexp (Hen & Hmin & Hex & Hrate) Hw Hds.
  unfold boost, calculate_timing_boost. fold tp. cbv zeta.
  fold tp in Hen, Hmin, Hrate.
  rewrite Hen. cbn [negb].
  replace (orders st <? min_orders tp) with false
    by (symmetry; apply Z.ltb_ge; lia).
  unfold effective_orders. rewrite Hex.
  replace (orders st - 0 <? min_orders tp) with false
    by (symmetry; apply Z.ltb_ge; lia).
  cbn [Z.ltb Z.compare].
  replace (match rate with
           | Some r => Qltb (max_return_rate tp) r
           | None => false
           end) with false
    by (symmetry; destruct rate; [apply Qltb_false; exact Hrate|reflexivity]).
  replace (Qltb (of_int ds) (pc - pc * window_percentage tp)
           || Qltb (pc + pc * window_percentage tp) (of_int ds)) with false.
  2:{ symmetry. apply orb_false_iff. split; apply Qltb_false; lra. }
  apply round2_comp.
  assert (Habs : (Qabs (of_int ds - pc) == 0)%Q).
  { assert (E : (of_int ds - pc == 0)%Q) by lra.
    rewrite E. reflexivity. }
  set (nd := if Qltb 0 (pc * window_percentage tp)
             then (Qabs (of_int ds - pc) / (pc * window_percentage tp))%Q
             else 0%Q).
  assert (Hnd : (nd == 0)%Q).
  { unfold nd. destruct (Qltb 0 (pc * window_percentage tp)).
    - rewrite Habs. unfold Qdiv. ring.
    - reflexivity. }
  assert (He : (math_exp (- gaussian_k tp * (nd * nd)) == 1)%Q).
  { apply Hexp. rewrite Hnd. ring. }
  rewrite He. ring.
Qed.

End TimingBoost.

(** C4, amended: the boost is exactly 0 whenever [days_since] lies strictly
    outside [personal_cycle * (1 - w), personal_cycle * (1 + w)]; for an
    eligible customer whose window is not empty ([personal_cycle * w >= 0])
    it equals [peak_boost] rounded to two decimals when [days_since] equals
    the personal cycle; and that is the largest value the boost takes when
    [peak_boost] and the sharpness constant are not negative. *)
Theorem timing_boost_boundary (math_exp : Q -> Q) (cfg : ConfigModel)
    (st : CustomerStats) (rate : option Q) (ds : Z) (pc : Q) :
  let tp := timing_boost_params cfg in
  let boost := calculate_timing_boost math_exp (Some ds) (Some pc) st rate cfg in
  ((of_int ds < pc * (1 - window_percentage tp))%Q
   \/ (pc * (1 + window_percentage tp) < of_int ds)%Q ->
   boost = 0%Q)
  /\ (exp_one_at_zero math_exp ->
      timing_eligible cfg st rate ->
      (0 <= pc * window_percentage tp)%Q ->
      (of_int ds == pc)%Q ->
      (boost == round2 (peak_boost tp))%Q)
  /\ (exp_unit_below_zero math_exp ->
      (0 <= peak_boost tp)%Q -> (0 <= gaussian_k tp)%Q ->
      (boost <= round2 (peak_boost tp))%Q).
Proof.
  cbv zeta. split; [|split].
  - apply timing_boost_outside.
  - apply timing_boost_centre.
  - apply timing_boost_le_peak.
Qed.

Lemma exp_stand_in_one_at_zero : exp_one_at_zero Sample.exp_stand_in.
Proof.
  intros x Hx. unfold Sample.exp_stand_in. rewrite Hx. reflexivity.
Qed.

Lemma exp_stand_in_unit_below_zero : exp_unit_below_zero Sample.exp_stand_in.
Proof.
  intros x Hx. unfold Sample.exp_stand_in. split.
  - apply Qle_shift_div_l; lra.
  - apply Qle_shift_div_r; lra.
Qed.

Lemma two_orders_timing_eligible :
  timing_eligible Sample.config Sample.two_orders (return_rate Sample.two_orders).
Proof.
  repeat split; vm_compute; try reflexivity; discriminate.
Qed.

Lemma timing_boost_boundary_witness :
  let boost_at ds :=
    calculate_timing_boost Sample.exp_stand_in (Some ds) (Some 40%Q)
      Sample.two_orders (return_rate Sample.two_orders) Sample.config in
  boost_at 100 = 0%Q
  /\ Qeq (boost_at 40) (round2 30)
  /\ Qle (boost_at 45) (round2 30).
Proof.
  cbv zeta. split; [|split].
  - apply (timing_boost_boundary Sample.exp_stand_in Sample.config
             Sample.two_orders (return_rate Sample.two_orders) 100 40).
    right. vm_compute. reflexivity.
  - apply (timing_boost_boundary Sample.exp_stand_in Sample.config
             Sample.two_orders (return_rate Sample.two_orders) 40 40).
    + exact exp_stand_in_one_at_zero.
    + exact two_orders_timing_eligible.
    + vm_compute. discriminate.
    + vm_compute. reflexivity.
  - apply (timing_boost_boundary Sample.exp_stand_in Sample.config
             Sample.two_orders (return_rate Sample.two_orders) 45 40).
    + exact exp_stand_in_unit_below_zero.
    + vm_compute. discriminate.
    + vm_compute. discriminate.
Defined.

(** The claim C4 as it is worded fails on the rounding: with a peak of
    0.125 the boost at the centre of the window is 0.12. *)
Lemma timing_boost_peak_is_rounded :
  ~ (forall (math_exp : Q -> Q) (cfg : ConfigModel) (st : CustomerStats)
            (rate : option Q) (ds : Z) (pc : Q),
        exp_one_at_zero math_exp ->
        timing_eligible cfg st rate ->
        (of_int ds == pc)%Q ->
        (calculate_timing_boost math_exp (Some ds) (Some pc) st rate cfg
         == peak_boost (timing_boost_params cfg))%Q).
Proof.
  intros H.
  specialize (H Sample.exp_stand_in (Sample.config_with_peak 0.125)
                Sample.two_orders (return_rate Sample.two_orders) 40 40%Q
                exp_stand_in_one_at_zero).
  assert (He : timing_eligible (Sample.config_with_peak 0.125) Sample.two_orders
                 (return_rate Sample.two_orders))
    by (repeat split; vm_compute; try reflexivity; discriminate).
  specialize (H He ltac:(vm_compute; reflexivity)).
  vm_compute in H. discriminate H.
Qed.

(** ** The rows of [build_alert_rows] *)

Section Rows.

Variable math_exp : Q -> Q.
Variable a : Args.

Lemma worklist_step_row (st : CustomerStats) (row : ActionRow) :
  fst (worklist_step math_exp a st) = Some row ->
  row = action_row math_exp a st
          (if in_cooldown a st then list_cooldown
           else customer_list_of math_exp a st).
Proof.
  unfold worklist_step. cbv zeta.
  destruct (in_cooldown a st);
    repeat match goal with
           | |- context [match ?x with _ => _ end] => destruct x
           end;
    cbn [fst]; intros H; inversion H; reflexivity.
Qed.

Lemma dict_set_Forall {A : Type} (P : string * A -> Prop)
    (k : string) (v : A) (d : list (string * A)) :
  (forall k', P (k', v)) -> Forall P d -> Forall P (dict_set k v d).
Proof.
  intros Hv Hd. induction Hd as [|[k' v'] d Hx Hd IH]; cbn.
  - constructor; [apply Hv|constructor].
  - destruct (String.eqb k' k); constructor; auto.
Qed.

Let rows_from := rows_from math_exp a.

Lemma alert_step_rows_from (out : Output) (st : CustomerStats) :
  rows_from out -> rows_from (alert_step math_exp a out st).
Proof.
  intros (Hov & Hac & Hmt). unfold alert_step.
  destruct (orders st =? 0) eqn:E; [repeat split; assumption|].
  apply Z.eqb_neq in E.
  destruct (worklist_step math_exp a st) as [row snoozed] eqn:Ew.
  repeat split; cbn.
  - apply Forall_app. split; [exact Hov|].
    constructor; [|constructor]. exists st. split; [exact E|reflexivity].
  - destruct row as [r|]; [|exact Hac].
    apply Forall_app. split; [exact Hac|].
    constructor; [|constructor].
    assert (Hr : fst (worklist_step math_exp a st) = Some r)
      by (rewrite Ew; reflexivity).
    rewrite (worklist_step_row st r Hr).
    eexists. eexists. split; [exact E|reflexivity].
  - apply dict_set_Forall; [|exact Hmt].
    intros k'. exists st. split; [exact E|reflexivity].
Qed.

Lemma fold_alert_step_rows_from (sts : list CustomerStats) :
  forall out, rows_from out ->
    rows_from (fold_left (alert_step math_exp a) sts out).
Proof.
  induction sts as [|st sts IH]; intros out H; cbn; [exact H|].
  apply IH, alert_step_rows_from, H.
Qed.

Lemma sort_insert_perm (x : ActionRow) (l : list ActionRow) :
  Permutation (x :: l) (sort_insert x l).
Proof.
  induction l as [|y l IH]; cbn [sort_insert]; [reflexivity|].
  destruct (key_ltb (action_sort_key x) (action_sort_key y)); [reflexivity|].
  rewrite perm_swap. constructor. exact IH.
Qed.

Lemma sort_fold_perm (l : list ActionRow) :
  forall acc,
    Permutation (acc ++ l) (fold_left (fun sorted x => sort_insert x sorted) l acc).
Proof.
  induction l as [|x l IH]; intros acc; cbn.
  - rewrite app_nil_r. reflexivity.
  - rewrite <- IH. rewrite <- sort_insert_perm.
    symmetry. apply Permutation_middle.
Qed.

Lemma sort_action_rows_perm (l : list ActionRow) :
  Permutation l (sort_action_rows l).
Proof. apply (sort_fold_perm l []). Qed.

Lemma build_alert_rows_from (customers : Customers) :
  rows_from (build_alert_rows math_exp a customers).
Proof.
  unfold build_alert_rows. cbv zeta.
  destruct (fold_alert_step_rows_from (map snd customers) (mkOutput [] [] 0 [] []))
    as (Hov & Hac & Hmt).
  { repeat split; constructor. }
  repeat split; cbn; [exact Hov| |exact Hmt].
  eapply Permutation_Forall; [apply sort_action_rows_perm|exact Hac].
Qed.

Lemma priority_score_clamped_in_range (st : CustomerStats) :
  score_in_range (config_model a) (priority_score_clamped math_exp a st).
Proof.
  unfold score_in_range, priority_score_clamped, priority_bounds, cfg.
  cbn [fst snd].
  set (lo := fmin _ _). set (hi := fmax _ _).
  assert (Hlh : (lo <= hi)%Q) by apply fmin_le_fmax.
  split.
  - apply fmin_glb; [exact Hlh|apply fmax_ge_l].
  - apply fmin_le_l.
Qed.

Lemma priority_score_in_rounded_range (st : CustomerStats) :
  score_in_rounded_range (config_model a) (priority_score math_exp a st).
Proof.
  pose proof (priority_score_clamped_in_range st) as Hc.
  unfold score_in_rounded_range, priority_score. cbv zeta.
  destruct Hc as [Hlo Hhi].
  destruct (round2_close (priority_score_clamped math_exp a st)) as [H1 H2].
  split; [|repeat split].
  - eexists. split; [split; eassumption|reflexivity].
  - lra.
  - lra.
  - intros Hw. apply round2_ge_cents; assumption.
  - intros Hw. apply round2_le_cents; assumption.
Qed.

End Rows.

(** C1, amended: for every customer with at least one valid order, the
    priority score of [overview_rows], [action_rows] and [meta_map] is a
    value of the range [min(priority_min, priority_max),
    max(priority_min, priority_max)] rounded to two decimals: it lies within
    0.005 of the range, and inside the range on the side of every bound that
    is a number of whole cents. *)
Theorem priority_score_clamped_then_rounded (math_exp : Q -> Q) (a : Args)
    (customers : Customers) :
  let out := build_alert_rows math_exp a customers in
  Forall (score_in_rounded_range (config_model a))
         (map ov_priority_score (overview_rows out))
  /\ Forall (score_in_rounded_range (config_model a))
            (map ar_priority_score (action_rows out))
  /\ Forall (score_in_rounded_range (config_model a))
            (map (fun e => mt_priority_score (snd e)) (meta_map out)).
Proof.
  cbv zeta.
  destruct (build_alert_rows_from math_exp a customers) as (Hov & Hac & Hmt).
  repeat split; apply Forall_map.
  - eapply Forall_impl; [|exact Hov].
    intros row (st & _ & ->). apply priority_score_in_rounded_range.
  - eapply Forall_impl; [|exact Hac].
    intros row (st & l & _ & ->). apply priority_score_in_rounded_range.
  - eapply Forall_impl; [|exact Hmt].
    intros e (st & _ & ->). apply priority_score_in_rounded_range.
Qed.

(** The claim C1 as it is worded fails when a bound is not a number of
    whole cents: with [max_priority_score = 99.996] the customer of
    [Sample.ten_orders], whose unbounded total is 194.77, is given the score
    100.00. *)
Lemma priority_score_leaves_range :
  ~ (forall (math_exp : Q -> Q) (a : Args) (customers : Customers),
        Forall (score_in_range (config_model a))
               (map ov_priority_score
                    (overview_rows (build_alert_rows math_exp a customers)))).
Proof.
  intros H.
  specialize (H Sample.exp_stand_in
                (Sample.args_with (Sample.config_with_max 99.996))
                Sample.ten_orders).
  vm_compute in H.
  inversion H as [|s rest [_ Hhi] _]. apply Hhi. reflexivity.
Qed.

(** ** The order of the work list *)

Section SortOrder.

Ltac bools :=
  repeat match goal with
         | H : Qeqb _ _ = true |- _ => apply Qeqb_true in H
         | H : Qeqb _ _ = false |- _ => apply Qeqb_false in H
         | H : Qltb _ _ = true |- _ => apply Qltb_true in H
         | H : Qltb _ _ = false |- _ => apply Qltb_false in H
         | H : (_ =? _) = true |- _ => apply Z.eqb_eq in H
         | H : (_ =? _) = false |- _ => apply Z.eqb_neq in H
         | H : (_ <? _) = true |- _ => apply Z.ltb_lt in H
         | H : (_ <? _) = false |- _ => apply Z.ltb_ge in H
         end.

Lemma Qlt_or_eq_or_gt (x y : Q) : (x < y)%Q \/ (x == y)%Q \/ (y < x)%Q.
Proof.
  destruct (Q_dec x y) as [[H|H]|H]; auto.
Qed.

Lemma key_ltb_false (k1 k2 : Q * Z * Q * Q) :
  key_ltb k1 k2 = false -> key_le k2 k1.
Proof.
  destruct k1 as [[[s1 o1] r1] a1], k2 as [[[s2 o2] r2] a2].
  unfold key_ltb, key_le.
  destruct (Qeqb s1 s2) eqn:Es; cbn [negb].
  - destruct (o1 =? o2) eqn:Eo; cbn [negb].
    + destruct (Qeqb r1 r2) eqn:Er; cbn [negb]; intros H; bools.
      * right. split; [lra|]. right. split; [lia|]. right. split; lra.
      * right. split; [lra|]. right. split; [lia|]. left.
        destruct (Qlt_or_eq_or_gt r2 r1) as [?|[?|?]];
          [assumption|exfalso; apply Er; lra|exfalso; lra].
    + intros H; bools. right. split; [lra|]. left. lia.
  - intros H; bools. left.
    destruct (Qlt_or_eq_or_gt s2 s1) as [?|[?|?]];
      [assumption|exfalso; apply Es; lra|exfalso; lra].
Qed.

Lemma key_ltb_true (k1 k2 : Q * Z * Q * Q) :
  key_ltb k1 k2 = true -> key_le k1 k2.
Proof.
  destruct k1 as [[[s1 o1] r1] a1], k2 as [[[s2 o2] r2] a2].
  unfold key_ltb, key_le.
  destruct (Qeqb s1 s2) eqn:Es; cbn [negb].
  - destruct (o1 =? o2) eqn:Eo; cbn [negb].
    + destruct (Qeqb r1 r2) eqn:Er; cbn [negb]; intros H; bools.
      * right. split; [lra|]. right. split; [lia|]. right. split; lra.
      * right. split; [lra|]. right. split; [lia|]. left. lra.
    + intros H; bools. right. split; [lra|]. left. lia.
  - intros H; bools. left. lra.
Qed.

Lemma key_le_trans (k1 k2 k3 : Q * Z * Q * Q) :
  key_le k1 k2 -> key_le k2 k3 -> key_le k1 k3.
Proof.
  destruct k1 as [[[s1 o1] r1] a1], k2 as [[[s2 o2] r2] a2],
           k3 as [[[s3 o3] r3] a3].
  unfold key_le.
  intros [H1|[E1 H1]] [H2|[E2 H2]];
    try (left; lra).
  right. split; [lra|].
  destruct H1 as [H1|[F1 H1]], H2 as [H2|[F2 H2]];
    try (left; lia).
  right. split; [lia|].
  destruct H1 as [H1|[G1 H1]], H2 as [H2|[G2 H2]];
    try (left; lra).
  right. split; lra.
Qed.

Lemma sort_insert_Forall (P : ActionRow -> Prop) (x : ActionRow)
    (l : list ActionRow) :
  P x -> Forall P l -> Forall P (sort_insert x l).
Proof.
  intros Hx Hl. eapply Permutation_Forall; [apply sort_insert_perm|].
  constructor; assumption.
Qed.

Lemma sort_insert_sorted (x : ActionRow) (l : list ActionRow) :
  StronglySorted not_after l -> StronglySorted not_after (sort_insert x l).
Proof.
  intros Hl. induction Hl as [|y l Hl IH Hy]; cbn [sort_insert].
  - constructor; constructor.
  - destruct (key_ltb (action_sort_key x) (action_sort_key y)) eqn:E.
    + apply key_ltb_true in E.
      constructor; [constructor; assumption|].
      constructor; [exact E|].
      eapply Forall_impl; [|exact Hy].
      intros z Hz. unfold not_after in *. eapply key_le_trans; eassumption.
    + apply key_ltb_false in E.
      constructor; [exact IH|].
      apply sort_insert_Forall; assumption.
Qed.

Lemma sort_action_rows_sorted (l : list ActionRow) :
  StronglySorted not_after (sort_action_rows l).
Proof.
  unfold sort_action_rows.
  assert (H : forall acc, StronglySorted not_after acc ->
            StronglySorted not_after
              (fold_left (fun sorted x => sort_insert x sorted) l acc)).
  { induction l as [|x l IH]; intros acc Hacc; cbn; [exact Hacc|].
    apply IH, sort_insert_sorted, Hacc. }
  apply H. constructor.
Qed.

(** On rows of [build_alert_rows] the order of the keys is the order of
    the specification. *)
Lemma not_after_spec (x y : ActionRow) :
  sortable x -> sortable y -> not_after x y -> spec_before_or_tied x y.
Proof.
  intros (Rx & Hrx & [vx Hax]) (Ry & Hry & [vy Hay]).
  unfold not_after, action_sort_key, key_le, spec_before_or_tied.
  cbv zeta. rewrite Rx, Ry, Hax, Hay.
  intros [H|[E H]]; [left; lra|].
  right. split; [lra|].
  destruct H as [H|[F H]]; [left; lia|].
  right. split; [lia|].
  destruct (ar_return_rate x) as [rx|] eqn:Erx;
    destruct (ar_return_rate y) as [ry|] eqn:Ery; cbn.
  - destruct H as [H|[G H]]; [left; exact H|right; split; [exact G|lra]].
  - left. exact I.
  - pose proof (Hry ry eq_refl). exfalso. lra.
  - right. split; [exact I|]. destruct H as [H|[G H]]; lra.
Qed.

Lemma sorted_as_specified (l : list ActionRow) :
  Forall sortable l -> StronglySorted not_after l ->
  StronglySorted spec_before_or_tied l.
Proof.
  intros Hs Hl. induction Hl as [|x l Hl IH Hx]; [constructor|].
  inversion Hs as [|? ? Hsx Hsl]; subst.
  constructor; [apply IH, Hsl|].
  rewrite Forall_forall in *. intros y Hy.
  apply not_after_spec; auto.
Qed.

Lemma action_row_sortable (math_exp : Q -> Q) (a : Args)
    (st : CustomerStats) (l : string) :
  orders st <> 0 -> sortable (action_row math_exp a st l).
Proof.
  intros Ho. unfold sortable, action_row. cbn. split; [reflexivity|]. split.
  - intros r. unfold return_rate.
    destruct (0 <? orders st); [|destruct (0 <? refund_count st)];
      intros H; inversion H; subst; [apply fmin_le_r|lra].
  - unfold aov_value. apply Z.eqb_neq in Ho. rewrite Ho. eexists. reflexivity.
Qed.

End SortOrder.

(** C9: the work list returned by [build_alert_rows] is ordered by score
    descending, ties broken by order count descending, then by return rate
    ascending with an undefined rate after every defined one, then by average
    order value descending: a row and any row after it are in that order or
    tied; and the sort loses and adds no row. *)
Theorem action_rows_ordered (math_exp : Q -> Q) (a : Args)
    (customers : Customers) :
  StronglySorted spec_before_or_tied
    (action_rows (build_alert_rows math_exp a customers))
  /\ Permutation
       (action_rows
          (fold_left (alert_step math_exp a) (map snd customers)
                     (mkOutput [] [] 0 [] [])))
       (action_rows (build_alert_rows math_exp a customers)).
Proof.
  split.
  - apply sorted_as_specified.
    + destruct (build_alert_rows_from math_exp a customers) as (_ & Hac & _).
      eapply Forall_impl; [|exact Hac].
      intros row (st & l & Ho & ->). apply action_row_sortable, Ho.
    + unfold build_alert_rows. cbn [action_rows].
      apply sort_action_rows_sorted.
  - unfold build_alert_rows. cbn [action_rows]. apply sort_action_rows_perm.
Qed.

(** ** Scenario A: the super-VIP customer *)

Section SuperVip.

Variable math_exp : Q -> Q.
Variable a : Args.
Variable st : CustomerStats.

Hypothesis Horders : orders st = 10.
Hypothesis Hrate : return_rate_is st 0.1.

Lemma super_vip_boost_applied :
  super_vip_boost (orders st) (return_rate st) = 80.
Proof.
  unfold super_vip_boost, return_rate_is in *. rewrite Horders.
  destruct (return_rate st) as [r|]; [|contradiction].
  cbn. replace (Qltb r 0.2) with true; [reflexivity|].
  symmetry. apply Qltb_true. lra.
Qed.

Lemma super_vip_return_rate_boost :
  return_rate_boost (return_rate st) = 10.
Proof.
  unfold return_rate_boost, return_rate_is in *.
  destruct (return_rate st) as [r|]; [|contradiction].
  replace (Qleb 0.49 r) with false by (symmetry; apply Qleb_false; lra).
  replace (Qleb r 0) with false by (symmetry; apply Qleb_false; lra).
  replace (Qltb r 0.1) with false by (symmetry; apply Qltb_false; lra).
  replace (Qltb r 0.2) with true by (symmetry; apply Qltb_true; lra).
  reflexivity.
Qed.

Lemma super_vip_not_dormant :
  long_dormant_penalty (days_since a st) (orders st) = 0.
Proof.
  unfold long_dormant_penalty. rewrite Horders.
  destruct (days_since a st) as [ds|]; [|reflexivity].
  destruct (180 <=? ds); reflexivity.
Qed.

Lemma super_vip_list :
  customer_list_of math_exp a st
  = if contains tag_refund_spike (tags_text a st) then list_audit
    else list_super_vip.
Proof.
  unfold customer_list_of, classify_customer_list, return_rate_is in *.
  rewrite Horders.
  destruct (contains tag_refund_spike (tags_text a st)); [reflexivity|].
  destruct (return_rate st) as [r|]; [|contradiction].
  replace (Qltb 0.4 r) with false by (symmetry; apply Qltb_false; lra).
  cbn. replace (Qltb r 0.2) with true; [reflexivity|].
  symmetry. apply Qltb_true. lra.
Qed.

End SuperVip.

(** C2, amended: for a customer with exactly 10 valid orders, return rate
    0.1 and no exchange-type detail line the scorer applies
    [super_vip_boost = 80]: the boost is 80 and is added to the score, the
    sum of the boosts being 80 more than the other boosts of the customer
    (of which the return-rate boost is 10, the exchange and the
    long-dormant penalty 0), and the score before the clamp, which the
    action row shows rounded, the weighted base plus that sum.  The
    customer's action row, when there is one, carries the list "超级VIP"
    unless the customer is inside the contact cooldown (the list is then
    "冷却期") or carries the refund-spike tag (the list is then
    "高风险待排查"). *)
Theorem scenario_super_vip (math_exp : Q -> Q) (a : Args) (st : CustomerStats) :
  orders st = 10 ->
  return_rate_is st 0.1 ->
  exchange_count st = 0 ->
  let others :=
    (of_int (clv_boost (potential_label a st) 10)
     + 10
     + of_int (aov_boost (avg_order_value st))
     + of_int (activity_boost (days_since a st) 10 (return_rate st))
     + of_int (platform_boost (top_platform st))
     + of_int (high_freq_boost (personal_cycle_days st) (top_platform st)
                               (avg_order_value st))
     + timing_window_boost math_exp a st)%Q in
  let base :=
    (priority_score_pre_weight a st * orders_weight (cfg a) 10)%Q in
  super_vip_boost (orders st) (return_rate st) = 80
  /\ Qeq (total_boost math_exp a st) (others + 80)
  /\ Qeq (priority_score_unbounded math_exp a st) (base + others + 80)
  /\ forall row,
       fst (worklist_step math_exp a st) = Some row ->
       Qeq (ar_priority_score_unbounded row) (round2 (base + others + 80))
       /\ ar_customer_list row
          = if in_cooldown a st then list_cooldown
            else if contains tag_refund_spike (tags_text a st) then list_audit
            else list_super_vip.
Proof.
  intros Ho Hr He. cbv zeta.
  assert (Htotal :
            Qeq (total_boost math_exp a st)
              (of_int (clv_boost (potential_label a st) 10)
               + 10
               + of_int (aov_boost (avg_order_value st))
               + of_int (activity_boost (days_since a st) 10 (return_rate st))
               + of_int (platform_boost (top_platform st))
               + of_int (high_freq_boost (personal_cycle_days st)
                                         (top_platform st)
                                         (avg_order_value st))
               + timing_window_boost math_exp a st + 80)).
  { unfold total_boost.
    rewrite (super_vip_boost_applied st Ho Hr).
    rewrite (super_vip_return_rate_boost st Hr).
    rewrite (super_vip_not_dormant a st Ho).
    unfold exchange_penalty. rewrite He, Ho.
    change (0 <? 0) with false. cbv iota.
    change (of_int 80) with 80%Q. change (of_int 10) with 10%Q.
    change (of_int 0) with 0%Q. lra. }
  assert (Hscore :
            Qeq (priority_score_unbounded math_exp a st)
              (priority_score_pre_weight a st * orders_weight (cfg a) 10
               + (of_int (clv_boost (potential_label a st) 10)
                  + 10
                  + of_int (aov_boost (avg_order_value st))
                  + of_int (activity_boost (days_since a st) 10
                                           (return_rate st))
                  + of_int (platform_boost (top_platform st))
                  + of_int (high_freq_boost (personal_cycle_days st)
                                            (top_platform st)
                                            (avg_order_value st))
                  + timing_window_boost math_exp a st) + 80)).
  { unfold priority_score_unbounded. rewrite Htotal, Ho. lra. }
  split; [apply super_vip_boost_applied; assumption|].
  split; [exact Htotal|]. split; [exact Hscore|].
  intros row Hrow. rewrite (worklist_step_row math_exp a st row Hrow).
  cbn [ar_customer_list ar_priority_score_unbounded action_row].
  split; [apply round2_comp, Hscore|].
  destruct (in_cooldown a st); [reflexivity|].
  apply super_vip_list; assumption.
Qed.

Lemma scenario_super_vip_witness :
  let st := Sample5.vip_stats in
  let row := action_row Sample.exp_stand_in Sample.args st list_super_vip in
  orders st = 10
  /\ return_rate_is st 0.1
  /\ exchange_count st = 0
  /\ super_vip_boost (orders st) (return_rate st) = 80
  /\ Qeq (total_boost Sample.exp_stand_in Sample.args st) 185
  /\ fst (worklist_step Sample.exp_stand_in Sample.args st) = Some row
  /\ ar_customer_list row = list_super_vip.
Proof.
  cbv zeta.
  assert (H1 : orders Sample5.vip_stats = 10) by (vm_compute; reflexivity).
  assert (H2 : return_rate_is Sample5.vip_stats 0.1)
    by (vm_compute; reflexivity).
  assert (H3 : exchange_count Sample5.vip_stats = 0)
    by (vm_compute; reflexivity).
  assert (H4 : fst (worklist_step Sample.exp_stand_in Sample.args
                      Sample5.vip_stats)
               = Some (action_row Sample.exp_stand_in Sample.args
                         Sample5.vip_stats list_super_vip))
    by (vm_compute; reflexivity).
  destruct (scenario_super_vip Sample.exp_stand_in Sample.args
              Sample5.vip_stats H1 H2 H3) as (Hb & Ht & _ & Hrow).
  destruct (Hrow _ H4) as [_ Hl].
  split; [exact H1|]. split; [exact H2|]. split; [exact H3|].
  split; [exact Hb|]. split; [rewrite Ht; vm_compute; reflexivity|].
  split; [exact H4|]. rewrite Hl. vm_compute. reflexivity.
Defined.

(** The claim C2 as it is worded fails on a customer with the refund-spike
    tag: the customer of [Sample.ten_orders] has 10 valid orders, one of
    them paid back (return rate 0.1, the refund being 40% of the net total),
    and no exchange; the action row carries the list "高风险待排查". *)
Lemma super_vip_scenario_refund_spike :
  ~ (forall (math_exp : Q -> Q) (a : Args) (st : CustomerStats) (row : ActionRow),
        orders st = 10 ->
        return_rate_is st 0.1 ->
        exchange_count st = 0 ->
        fst (worklist_step math_exp a st) = Some row ->
        ar_customer_list row = list_super_vip).
Proof.
  intros H.
  specialize (H Sample.exp_stand_in Sample.args Sample.ten_orders_stats
                (action_row Sample.exp_stand_in Sample.args
                            Sample.ten_orders_stats list_audit)).
  assert (E : list_audit = list_super_vip).
  { apply H; vm_compute; reflexivity. }
  vm_compute in E. discriminate E.
Qed.

(** ** Scenario B: the exchange penalty *)

Lemma timing_boost_with_exchange (math_exp : Q -> Q) (days : option Z)
    (cycle : option Q) (st : CustomerStats) (rate : option Q)
    (cfg : ConfigModel) :
  0 < exchange_count st ->
  calculate_timing_boost math_exp days cycle st rate cfg = 0%Q.
Proof.
  intros H. unfold calculate_timing_boost. cbv zeta.
  destruct (negb _), days, cycle; try reflexivity.
  destruct (orders st <? _); [reflexivity|].
  destruct (effective_orders st <? _); [reflexivity|].
  replace (0 <? exchange_count st) with true
    by (symmetry; apply Z.ltb_lt; exact H).
  reflexivity.
Qed.

(** C3: a customer with exactly 2 valid orders and exactly 1 detail line
    whose refund type contains the exchange marker has 1 effective order,
    and the scorer applies the exchange penalty of -200: the penalty is
    -200 and is added to the score, the sum of the boosts being the other
    boosts of the customer less 200 (the VIP boost and the timing-window
    boost being 0 for this customer), and the score before the clamp, which
    the action row shows rounded, the weighted base plus that sum. *)
Theorem scenario_exchange_penalty (math_exp : Q -> Q) (a : Args)
    (st : CustomerStats) :
  orders st = 2 ->
  exchange_count st = 1 ->
  let others :=
    (of_int (clv_boost (potential_label a st) 2)
     + of_int (return_rate_boost (return_rate st))
     + of_int (aov_boost (avg_order_value st))
     + of_int (activity_boost (days_since a st) 2 (return_rate st))
     + of_int (platform_boost (top_platform st))
     + of_int (high_freq_boost (personal_cycle_days st) (top_platform st)
                               (avg_order_value st))
     + of_int (long_dormant_penalty (days_since a st) 2))%Q in
  let base :=
    (priority_score_pre_weight a st * orders_weight (cfg a) 2)%Q in
  effective_orders st = 1
  /\ exchange_penalty st = -200
  /\ Qeq (total_boost math_exp a st) (others - 200)
  /\ Qeq (priority_score_unbounded math_exp a st) (base + others - 200)
  /\ forall row,
       fst (worklist_step math_exp a st) = Some row ->
       Qeq (ar_priority_score_unbounded row) (round2 (base + others - 200)).
Proof.
  intros Ho He. cbv zeta.
  assert (Hpenalty : exchange_penalty st = -200).
  { unfold exchange_penalty, effective_orders. rewrite Ho, He. reflexivity. }
  assert (Htotal :
            Qeq (total_boost math_exp a st)
              (of_int (clv_boost (potential_label a st) 2)
               + of_int (return_rate_boost (return_rate st))
               + of_int (aov_boost (avg_order_value st))
               + of_int (activity_boost (days_since a st) 2 (return_rate st))
               + of_int (platform_boost (top_platform st))
               + of_int (high_freq_boost (personal_cycle_days st)
                                         (top_platform st)
                                         (avg_order_value st))
               + of_int (long_dormant_penalty (days_since a st) 2) - 200)).
  { unfold total_boost, timing_window_boost.
    rewrite (timing_boost_with_exchange math_exp _ _ st _ _ ltac:(lia)).
    rewrite Hpenalty, Ho.
    replace (super_vip_boost 2 (return_rate st)) with 0
      by (unfold super_vip_boost; reflexivity).
    change (of_int (-200)) with (-200)%Q. change (of_int 0) with 0%Q. lra. }
  assert (Hscore :
            Qeq (priority_score_unbounded math_exp a st)
              (priority_score_pre_weight a st * orders_weight (cfg a) 2
               + (of_int (clv_boost (potential_label a st) 2)
                  + of_int (return_rate_boost (return_rate st))
                  + of_int (aov_boost (avg_order_value st))
                  + of_int (activity_boost (days_since a st) 2
                                           (return_rate st))
                  + of_int (platform_boost (top_platform st))
                  + of_int (high_freq_boost (personal_cycle_days st)
                                            (top_platform st)
                                            (avg_order_value st))
                  + of_int (long_dormant_penalty (days_since a st) 2))
               - 200)).
  { unfold priority_score_unbounded. rewrite Htotal, Ho. lra. }
  split; [unfold effective_orders; lia|].
  split; [exact Hpenalty|]. split; [exact Htotal|]. split; [exact Hscore|].
  intros row Hrow. rewrite (worklist_step_row math_exp a st row Hrow).
  cbn [ar_priority_score_unbounded action_row].
  apply round2_comp, Hscore.
Qed.

Lemma scenario_exchange_penalty_witness :
  let st := Sample5.exchange_stats in
  orders st = 2
  /\ exchange_count st = 1
  /\ effective_orders st = 1
  /\ exchange_penalty st = -200
  /\ Qeq (total_boost Sample.exp_stand_in Sample.args st) (-175).
Proof.
  cbv zeta.
  assert (H1 : orders Sample5.exchange_stats = 2) by (vm_compute; reflexivity).
  assert (H2 : exchange_count Sample5.exchange_stats = 1)
    by (vm_compute; reflexivity).
  destruct (scenario_exchange_penalty Sample.exp_stand_in Sample.args
              Sample5.exchange_stats H1 H2) as (He & Hp & Ht & _).
  split; [exact H1|]. split; [exact H2|]. split; [exact He|].
  split; [exact Hp|]. rewrite Ht. vm_compute. reflexivity.
Defined.

(** ** Scenario C: the contact cooldown *)

Section Cooldown.

Variable math_exp : Q -> Q.
Variable a : Args.

Lemma cooldown_row (st : CustomerStats) (c : Z) :
  String.eqb (cooldown_scope a) "all" = false ->
  last_contact_date a st = Some c ->
  in_cooldown a st = true ->
  include_in_action math_exp a st = true ->
  reply_flag a st <> Some false ->
  worklist_step math_exp a st
  = (Some (action_row math_exp a st list_cooldown), Some c).
Proof.
  intros Hscope Hc Hin Hinc Hreply.
  unfold worklist_step. cbv zeta.
  rewrite Hc, Hscope, Hinc, Hin. cbn [andb].
  destruct (reply_flag a st) as [[|]|]; try reflexivity.
  exfalso. apply Hreply. reflexivity.
Qed.

Lemma alert_step_keeps (out : Output) (st : CustomerStats) (row : ActionRow) :
  In row (action_rows out) -> In row (action_rows (alert_step math_exp a out st)).
Proof.
  intros H. unfold alert_step.
  destruct (orders st =? 0); [exact H|].
  destruct (worklist_step math_exp a st) as [[r|] snoozed]; cbn; [|exact H].
  apply in_or_app. left. exact H.
Qed.

Lemma fold_alert_step_keeps (sts : list CustomerStats) (row : ActionRow) :
  forall out, In row (action_rows out) ->
    In row (action_rows (fold_left (alert_step math_exp a) sts out)).
Proof.
  induction sts as [|st sts IH]; intros out H; cbn; [exact H|].
  apply IH, alert_step_keeps, H.
Qed.

Lemma alert_step_adds (out : Output) (st : CustomerStats) (row : ActionRow) :
  orders st <> 0 ->
  fst (worklist_step math_exp a st) = Some row ->
  In row (action_rows (alert_step math_exp a out st)).
Proof.
  intros Ho Hrow. unfold alert_step.
  apply Z.eqb_neq in Ho. rewrite Ho.
  destruct (worklist_step math_exp a st) as [r snoozed].
  cbn [fst] in Hrow. subst r. cbn.
  apply in_or_app. right. left. reflexivity.
Qed.

Lemma listed_customer_in_action_rows (customers : Customers)
    (st : CustomerStats) (row : ActionRow) :
  In st (map snd customers) ->
  orders st <> 0 ->
  fst (worklist_step math_exp a st) = Some row ->
  In row (action_rows (build_alert_rows math_exp a customers)).
Proof.
  intros Hin Ho Hrow. unfold build_alert_rows. cbn [action_rows].
  eapply Permutation_in; [apply sort_action_rows_perm|].
  generalize (mkOutput [] [] 0 [] []).
  induction (map snd customers) as [|st' sts IH]; [contradiction|].
  intros out. cbn [fold_left]. destruct Hin as [->|Hin].
  - apply fold_alert_step_keeps, alert_step_adds; assumption.
  - apply IH, Hin.
Qed.

End Cooldown.

(** C6, amended: with [cooldown_days = 7], the cooldown scope "action" and
    a contact-log entry 3 days before today, a customer who meets one of the
    inclusion triggers and whose contact status is not read as a refusal or
    an absence of reply is in [action_rows] with the list "冷却期", whatever
    the recent-buyer, high-return, single-order and presumed-lost filters
    would have decided. *)
Theorem scenario_cooldown (math_exp : Q -> Q) (a : Args) (st : CustomerStats)
    (customers : Customers) :
  cooldown_days a = 7 ->
  cooldown_scope a = "action" ->
  last_contact_date a st = Some (today a - 3) ->
  In st (map snd customers) ->
  orders st <> 0 ->
  include_in_action math_exp a st = true ->
  reply_flag a st <> Some false ->
  let row := action_row math_exp a st list_cooldown in
  worklist_step math_exp a st = (Some row, Some (today a - 3))
  /\ ar_customer_list row = list_cooldown
  /\ In row (action_rows (build_alert_rows math_exp a customers)).
Proof.
  intros Hcd Hscope Hc Hin Ho Hinc Hreply row.
  assert (Hstep : worklist_step math_exp a st = (Some row, Some (today a - 3))).
  { apply cooldown_row; try assumption.
    - rewrite Hscope. reflexivity.
    - unfold in_cooldown, within_cooldown, effective_cooldown_days.
      rewrite Hc, Hcd.
      replace (today a - (today a - 3)) with 3 by lia. reflexivity. }
  split; [exact Hstep|]. split; [reflexivity|].
  apply (listed_customer_in_action_rows math_exp a customers st row Hin Ho).
  rewrite Hstep. reflexivity.
Qed.

Lemma scenario_cooldown_witness :
  let a := Sample.args_contacted (Some "已回复") in
  let st := Sample.ten_orders_stats in
  include_in_action Sample.exp_stand_in a st = true
  /\ recent_buyer a st = true
  /\ In (action_row Sample.exp_stand_in a st list_cooldown)
        (action_rows (build_alert_rows Sample.exp_stand_in a Sample.ten_orders)).
Proof.
  cbv zeta.
  assert (Hinc : include_in_action Sample.exp_stand_in
                   (Sample.args_contacted (Some "已回复"))
                   Sample.ten_orders_stats = true)
    by (vm_compute; reflexivity).
  split; [exact Hinc|]. split; [vm_compute; reflexivity|].
  apply (scenario_cooldown Sample.exp_stand_in
           (Sample.args_contacted (Some "已回复")) Sample.ten_orders_stats
           Sample.ten_orders).
  - reflexivity.
  - reflexivity.
  - vm_compute. reflexivity.
  - left. vm_compute. reflexivity.
  - vm_compute. discriminate.
  - exact Hinc.
  - vm_compute. discriminate.
Defined.

(** The claim C6 as it is worded fails on a customer whose last contact is
    marked as unanswered: the customer of [Sample.ten_orders], contacted 3
    days ago with the status "无回复", meets an inclusion trigger (10 orders)
    and is left out of the work list. *)
Lemma cooldown_scenario_no_reply :
  ~ (forall (math_exp : Q -> Q) (a : Args) (st : CustomerStats),
        cooldown_days a = 7 ->
        cooldown_scope a = "action" ->
        last_contact_date a st = Some (today a - 3) ->
        orders st <> 0 ->
        include_in_action math_exp a st = true ->
        exists row,
          fst (worklist_step math_exp a st) = Some row
          /\ ar_customer_list row = list_cooldown).
Proof.
  intros H.
  destruct (H Sample.exp_stand_in (Sample.args_contacted (Some "无回复"))
              Sample.ten_orders_stats) as (row & Hrow & _).
  - reflexivity.
  - reflexivity.
  - vm_compute. reflexivity.
  - vm_compute. discriminate.
  - vm_compute. reflexivity.
  - vm_compute in Hrow. discriminate Hrow.
Qed.

(** * Further properties of the code *)

(** ** What one row does to a customer *)

Section RowEffect.

Variables (st : CustomerStats) (r : Row).

Lemma ingest_row_key : key (ingest_row st r) = key st.
Proof.
  unfold ingest_row, record_refund, record_order, register_refund.
  destruct (row_is_refund r), (row_is_cancellation r);
    try destruct (Qltb 0 (refund_cell r)); reflexivity.
Qed.

Lemma ingest_row_orders :
  orders (ingest_row st r)
  = orders st + (if row_is_cancellation r then 0 else 1).
Proof.
  unfold ingest_row, record_refund, record_order, register_refund.
  destruct (row_is_refund r), (row_is_cancellation r);
    try destruct (Qltb 0 (refund_cell r)); cbn; lia.
Qed.

Lemma ingest_row_cancel_count :
  cancel_count (ingest_row st r)
  = cancel_count st + (if row_is_cancellation r then 1 else 0).
Proof.
  unfold ingest_row, record_refund, record_order, register_refund.
  destruct (row_is_refund r), (row_is_cancellation r);
    try destruct (Qltb 0 (refund_cell r)); cbn; lia.
Qed.

Lemma ingest_row_refund_count :
  refund_count (ingest_row st r)
  = refund_count st + (if row_is_refund r then 1 else 0).
Proof.
  unfold ingest_row, record_refund, record_order, register_refund.
  destruct (row_is_refund r), (row_is_cancellation r);
    try destruct (Qltb 0 (refund_cell r)); cbn; lia.
Qed.

Lemma ingest_row_refund_amount :
  refund_amount (ingest_row st r)
  = if row_is_refund r && Qltb 0 (refund_cell r)
    then (refund_amount st + refund_cell r)%Q
    else refund_amount st.
Proof.
  unfold ingest_row, record_refund, record_order, register_refund.
  destruct (row_is_refund r), (row_is_cancellation r);
    try destruct (Qltb 0 (refund_cell r)); reflexivity.
Qed.

Lemma ingest_row_details :
  exists d, order_details (ingest_row st r) = order_details st ++ [d].
Proof.
  unfold ingest_row, record_refund, record_order, register_refund.
  destruct (row_is_refund r), (row_is_cancellation r);
    try destruct (Qltb 0 (refund_cell r)); cbn; eexists; reflexivity.
Qed.

Lemma ingest_row_history :
  order_history (ingest_row st r)
  = if row_is_cancellation r then order_history st
    else match pay_date r with
         | Some d => order_history st ++ [(d, row_net r)]
         | None => order_history st
         end.
Proof.
  unfold ingest_row, record_refund, record_order, register_refund.
  destruct (row_is_refund r), (row_is_cancellation r);
    try destruct (Qltb 0 (refund_cell r)); cbn; destruct (pay_date r);
    reflexivity.
Qed.

Lemma ingest_row_counts :
  counts_consistent st -> counts_consistent (ingest_row st r).
Proof.
  unfold counts_consistent.
  intros (Ho & Hc & Hr & Hd & Hh & Hrd & Ha).
  rewrite ingest_row_orders, ingest_row_cancel_count, ingest_row_refund_count,
    ingest_row_refund_amount, ingest_row_history.
  destruct ingest_row_details as [d ->].
  rewrite length_app. cbn [List.length].
  destruct (row_is_cancellation r), (row_is_refund r);
    cbn [andb]; try destruct (Qltb 0 (refund_cell r)) eqn:E;
    try apply Qltb_true in E;
    try destruct (pay_date r); try rewrite length_app; cbn [List.length];
    repeat split; try lia; try lra.
Qed.

Lemma ingest_row_has_detail :
  (1 <= List.length (order_details (ingest_row st r)))%nat.
Proof.
  destruct ingest_row_details as [d ->]. rewrite length_app. cbn. lia.
Qed.

End RowEffect.

Section RowDates.

Variables (st : CustomerStats) (r : Row).

Lemma ingest_row_first_order :
  first_order (ingest_row st r)
  = if row_is_cancellation r then first_order st
    else match pay_date r with
         | Some d =>
             match first_order st with
             | None => Some d
             | Some f => if d <? f then Some d else Some f
             end
         | None => first_order st
         end.
Proof.
  unfold ingest_row, record_refund, record_order, register_refund.
  destruct (row_is_refund r), (row_is_cancellation r);
    try destruct (Qltb 0 (refund_cell r)); cbn; destruct (pay_date r);
    reflexivity.
Qed.

Lemma ingest_row_last_order :
  last_order (ingest_row st r)
  = if row_is_cancellation r then last_order st
    else match pay_date r with
         | Some d =>
             match last_order st with
             | None => Some d
             | Some l => if l <? d then Some d else Some l
             end
         | None => last_order st
         end.
Proof.
  unfold ingest_row, record_refund, record_order, register_refund.
  destruct (row_is_refund r), (row_is_cancellation r);
    try destruct (Qltb 0 (refund_cell r)); cbn; destruct (pay_date r);
    reflexivity.
Qed.

Lemma ingest_row_dates :
  order_dates_consistent st -> order_dates_consistent (ingest_row st r).
Proof.
  unfold order_dates_consistent.
  rewrite ingest_row_first_order, ingest_row_last_order, ingest_row_history.
  destruct (row_is_cancellation r); [auto|].
  destruct (pay_date r) as [d|]; [|auto].
  destruct (first_order st) as [f|], (last_order st) as [l|];
    try contradiction.
  - intros (Hf & Hl & Hall).
    assert (Hfl : f <= l).
    { rewrite Forall_forall in Hall. apply in_map_iff in Hf.
      destruct Hf as (e & <- & He). apply Hall in He. lia. }
    destruct (d <? f) eqn:Edf; destruct (l <? d) eqn:Eld;
      try apply Z.ltb_lt in Edf; try apply Z.ltb_ge in Edf;
      try apply Z.ltb_lt in Eld; try apply Z.ltb_ge in Eld;
      rewrite map_app; cbn [map fst];
      (split; [apply in_or_app; first [right; left; reflexivity | left; assumption]|]);
      (split; [apply in_or_app; first [right; left; reflexivity | left; assumption]|]);
      apply Forall_app; (split; [|constructor; [cbn; lia|constructor]]);
      (eapply Forall_impl; [|exact Hall]); cbn; intros; lia.
  - intros ->. cbn. repeat split; auto.
    constructor; [cbn; lia|constructor].
Qed.

End RowDates.

(** ** The customers dictionary built by [load_customers] *)

Section Loading.

Lemma dict_get_In {A : Type} (k : string) (v : A) (d : list (string * A)) :
  dict_get k d = Some v -> In (k, v) d.
Proof.
  induction d as [|[k' v'] d IH]; cbn; [discriminate|].
  destruct (String.eqb k' k) eqn:E.
  - apply String.eqb_eq in E. subst k'. intros H. inversion H. now left.
  - intros H. right. apply IH, H.
Qed.

Lemma dict_get_None_keys {A : Type} (k : string) (d : list (string * A)) :
  dict_get k d = None -> ~ In k (map fst d).
Proof.
  induction d as [|[k' v'] d IH]; cbn; [tauto|].
  destruct (String.eqb k' k) eqn:E; [discriminate|].
  apply String.eqb_neq in E. intros H [Hk|Hk]; [contradiction|].
  apply IH in H. contradiction.
Qed.

Lemma dict_set_keys {A : Type} (k : string) (v : A) (d : list (string * A)) :
  map fst (dict_set k v d)
  = match dict_get k d with
    | Some _ => map fst d
    | None => map fst d ++ [k]
    end.
Proof.
  induction d as [|[k' v'] d IH]; cbn; [reflexivity|].
  destruct (String.eqb k' k) eqn:E; cbn; [reflexivity|].
  rewrite IH. destruct (dict_get k d); reflexivity.
Qed.

Lemma dict_set_values {A : Type} (P : A -> Prop) (k : string) (v : A)
    (d : list (string * A)) :
  P v -> Forall (fun e => P (snd e)) d ->
  Forall (fun e => P (snd e)) (dict_set k v d).
Proof.
  intros Hv Hd. induction Hd as [|[k' v'] d Hx Hd IH]; cbn.
  - constructor; [exact Hv|constructor].
  - destruct (String.eqb k' k); constructor; auto.
Qed.

(** What holds of a new customer and is kept by every row holds of every
    customer of the dictionary. *)
Lemma load_customers_invariant (P : CustomerStats -> Prop) :
  (forall k, P (new_stats k)) ->
  (forall st r, P st -> P (ingest_row st r)) ->
  forall rows, Forall (fun e => P (snd e)) (load_customers rows).
Proof.
  intros Hnew Hstep rows. unfold load_customers.
  assert (H : forall cs, Forall (fun e => P (snd e)) cs ->
            Forall (fun e => P (snd e)) (fold_left load_row rows cs)).
  { induction rows as [|r rows IH]; intros cs Hcs; cbn; [exact Hcs|].
    apply IH. unfold load_row. cbv zeta.
    apply dict_set_values; [|exact Hcs].
    apply Hstep.
    destruct (dict_get _ cs) as [st|] eqn:E; [|apply Hnew].
    apply dict_get_In in E. rewrite Forall_forall in Hcs.
    apply (Hcs _ E). }
  apply H. constructor.
Qed.

(** After its first row a customer has a detail record. *)
Lemma load_customers_after_row (P : CustomerStats -> Prop) :
  (forall st r, P (ingest_row st r)) ->
  forall rows, Forall (fun e => P (snd e)) (load_customers rows).
Proof.
  intros Hstep rows. unfold load_customers.
  assert (H : forall cs, Forall (fun e => P (snd e)) cs ->
            Forall (fun e => P (snd e)) (fold_left load_row rows cs)).
  { induction rows as [|r rows IH]; intros cs Hcs; cbn; [exact Hcs|].
    apply IH. unfold load_row. cbv zeta.
    apply dict_set_values; [apply Hstep|exact Hcs]. }
  apply H. constructor.
Qed.

Lemma load_row_keys (cs : Customers) (r : Row) :
  NoDup (map fst cs) /\ Forall (fun e => key (snd e) = fst e) cs ->
  NoDup (map fst (load_row cs r))
  /\ Forall (fun e => key (snd e) = fst e) (load_row cs r).
Proof.
  intros [Hnd Hkey]. unfold load_row. cbv zeta.
  set (k := build_customer_key _ _ _).
  split.
  - rewrite dict_set_keys.
    destruct (dict_get k cs) eqn:E; [exact Hnd|].
    apply dict_get_None_keys in E.
    apply NoDup_app; [exact Hnd|constructor; [tauto|constructor]|].
    intros x Hx [<-|[]]. contradiction.
  - assert (Hk : key (ingest_row
                        match dict_get k cs with
                        | Some st => st
                        | None => new_stats k
                        end r) = k).
    { rewrite ingest_row_key.
      destruct (dict_get k cs) as [st|] eqn:E; [|reflexivity].
      apply dict_get_In in E. rewrite Forall_forall in Hkey.
      apply (Hkey _ E). }
    revert Hk. generalize (ingest_row
                             match dict_get k cs with
                             | Some st => st
                             | None => new_stats k
                             end r).
    intros v Hv. clear Hnd.
    induction Hkey as [|[k' v'] d Hx Hd IH]; cbn.
    + constructor; [exact Hv|constructor].
    + destruct (String.eqb k' k) eqn:E.
      * apply String.eqb_eq in E. subst k'. constructor; [exact Hv|exact Hd].
      * constructor; [exact Hx|exact IH].
Qed.

Lemma total_details_set (cs : Customers) (k : string) (v : CustomerStats) :
  (total_details (dict_set k v cs)
   + match dict_get k cs with
     | Some old => List.length (order_details old)
     | None => 0
     end
   = total_details cs + List.length (order_details v))%nat.
Proof.
  induction cs as [|[k' v'] cs IH]; cbn [dict_set dict_get]; [cbn; lia|].
  destruct (String.eqb k' k).
  - change (total_details ((k', v) :: cs))
      with (List.length (order_details v) + total_details cs)%nat.
    change (total_details ((k', v') :: cs))
      with (List.length (order_details v') + total_details cs)%nat.
    lia.
  - change (total_details ((k', v') :: dict_set k v cs))
      with (List.length (order_details v') + total_details (dict_set k v cs))%nat.
    change (total_details ((k', v') :: cs))
      with (List.length (order_details v') + total_details cs)%nat.
    lia.
Qed.

End Loading.

(** X1: [load_customers] keeps one entry per customer key: the keys of the
    dictionary are pairwise distinct and every entry carries its own key. *)
Theorem load_customers_one_entry_per_key (rows : list Row) :
  NoDup (map fst (load_customers rows))
  /\ Forall (fun e => key (snd e) = fst e) (load_customers rows).
Proof.
  unfold load_customers.
  assert (H : forall cs,
            NoDup (map fst cs) /\ Forall (fun e => key (snd e) = fst e) cs ->
            NoDup (map fst (fold_left load_row rows cs))
            /\ Forall (fun e => key (snd e) = fst e) (fold_left load_row rows cs)).
  { induction rows as [|r rows IH]; intros cs Hcs; cbn; [exact Hcs|].
    apply IH, load_row_keys, Hcs. }
  apply H. split; constructor.
Qed.

(** X2: every row is kept once and counted once.  For every customer of
    [load_customers] the valid orders and the cancellations add up to the
    detail records, of which there is at least one; the dated orders of the
    history are not more than the valid orders, the refunds not more than
    the rows, no counter and no refund amount is negative; and over all the
    customers there are as many detail records as rows. *)
Theorem load_customers_counts (rows : list Row) :
  Forall (fun e => counts_consistent (snd e)
                   /\ (1 <= List.length (order_details (snd e)))%nat)
         (load_customers rows)
  /\ total_details (load_customers rows) = List.length rows.
Proof.
  split.
  - pose proof (load_customers_invariant counts_consistent) as H1.
    pose proof (load_customers_after_row
                  (fun st => (1 <= List.length (order_details st))%nat)) as H2.
    specialize (H1 ltac:(intros k; unfold counts_consistent; cbn;
                         repeat split; try lia; lra)
                   ingest_row_counts rows).
    specialize (H2 ingest_row_has_detail rows).
    rewrite Forall_forall in *. intros e He. split; auto.
  - unfold load_customers.
    assert (H : forall cs,
              total_details (fold_left load_row rows cs)
              = (total_details cs + List.length rows)%nat).
    { induction rows as [|r rows IH]; intros cs;
        cbn [fold_left List.length]; [lia|].
      rewrite IH. unfold load_row. cbv zeta.
      set (k := build_customer_key _ _ _).
      pose proof (total_details_set cs k
                    (ingest_row match dict_get k cs with
                                | Some st => st
                                | None => new_stats k
                                end r)) as Hs.
      destruct (ingest_row_details
                  match dict_get k cs with
                  | Some st => st
                  | None => new_stats k
                  end r) as [d Hd].
      rewrite Hd, length_app in Hs. cbn [List.length] in Hs.
      destruct (dict_get k cs); cbn in Hs; lia. }
    rewrite H. reflexivity.
Qed.

(** X3: for every customer of [load_customers] the first and the last order
    date are the earliest and the latest date of the order history, and they
    are unset exactly when no dated valid order was seen. *)
Theorem load_customers_order_dates (rows : list Row) :
  Forall (fun e => order_dates_consistent (snd e)) (load_customers rows).
Proof.
  apply load_customers_invariant.
  - intros k. reflexivity.
  - intros st r. apply ingest_row_dates.
Qed.

(** X4: the return rate of every customer of [load_customers], when it is
    defined, lies between 0 and 1. *)
Theorem return_rate_in_unit_interval (rows : list Row) :
  Forall (fun e => forall q, return_rate (snd e) = Some q ->
                             (0 <= q)%Q /\ (q <= 1)%Q)
         (load_customers rows).
Proof.
  pose proof (load_customers_invariant counts_consistent) as H.
  specialize (H ltac:(intros k; unfold counts_consistent; cbn;
                      repeat split; try lia; lra)
                ingest_row_counts rows).
  eapply Forall_impl; [|exact H].
  intros [k st] (Ho & _ & Hr & _) q. cbn [snd] in *.
  unfold return_rate.
  destruct (0 <? orders st) eqn:E.
  - apply Z.ltb_lt in E. intros Hq. inversion Hq. subst q. clear Hq.
    split; [|apply fmin_le_r].
    apply fmin_glb; [|lra].
    unfold zdiv. apply Qle_shift_div_l.
    + change 0%Q with (inject_Z 0). rewrite <- Zlt_Qlt. lia.
    + assert (H0 : (0 <= inject_Z (refund_count st))%Q)
        by (change 0%Q with (inject_Z 0); rewrite <- Zle_Qle; exact Hr).
      lra.
  - destruct (0 <? refund_count st); intros Hq; inversion Hq. lra.
Qed.

(** ** The customer lists *)

Section CustomerLists.

Lemma list_names_distinct :
  list_audit <> list_cooldown /\ list_super_vip <> list_cooldown
  /\ list_nurture <> list_cooldown /\ list_at_risk <> list_cooldown
  /\ list_audit <> list_super_vip /\ list_audit <> list_at_risk
  /\ list_nurture <> list_super_vip /\ list_nurture <> list_at_risk
  /\ list_super_vip <> list_at_risk /\ list_audit <> list_nurture.
Proof. repeat split; discriminate. Qed.

Lemma classify_customer_list_not_cooldown
    (cycle : option Q) (aov : Q) (platform : option string) (n : Z)
    (rate : option Q) (label : string) (days : option Z) (net : Q)
    (text : string) (score : Q) (threshold : Z) :
  classify_customer_list cycle aov platform n rate label days net text score
    threshold <> list_cooldown.
Proof.
  unfold classify_customer_list.
  repeat match goal with
         | |- context [if ?c then _ else _] => destruct c
         end; discriminate.
Qed.

End CustomerLists.

(** X5: [classify_customer_list] answers with one of the four lists, and
    each list has a necessary condition: "超级VIP" needs at least 5 orders,
    "濒临流失" needs a last order between 90 days and three long-term
    thresholds ago, "高风险待排查" needs the refund-spike tag or a return
    rate above 0.4 with a score of at least 50. *)
Theorem classify_customer_list_conditions
    (cycle : option Q) (aov : Q) (platform : option string) (n : Z)
    (rate : option Q) (label : string) (days : option Z) (net : Q)
    (text : string) (score : Q) (threshold : Z) :
  let l := classify_customer_list cycle aov platform n rate label days net
             text score threshold in
  (l = list_audit \/ l = list_super_vip \/ l = list_nurture \/ l = list_at_risk)
  /\ (l = list_super_vip -> 5 <= n)
  /\ (l = list_at_risk ->
      exists ds, days = Some ds /\ 90 <= ds /\ ds <= threshold * 3)
  /\ (l = list_audit ->
      contains tag_refund_spike text = true
      \/ exists q, rate = Some q /\ (0.4 < q)%Q /\ (50 <= score)%Q).
Proof.
  cbv zeta. unfold classify_customer_list.
  destruct (contains tag_refund_spike text) eqn:Espike.
  { repeat split; auto; discriminate. }
  destruct (match rate with
            | Some r => Qltb 0.4 r && Qleb 50 score
            | None => false
            end) eqn:Erate.
  { repeat split; auto; try discriminate.
    intros _. right. destruct rate as [q|]; [|discriminate].
    apply andb_true_iff in Erate. destruct Erate as [E1 E2].
    apply Qltb_true in E1. apply Qleb_true in E2. eauto. }
  destruct ((7 <=? n) && rate_below rate 0.2) eqn:E7.
  { apply andb_true_iff in E7. destruct E7 as [E7 _]. apply Z.leb_le in E7.
    repeat split; auto; try discriminate. intros _. lia. }
  destruct (Qleb 2000 net && (5 <=? n) && rate_below rate 0.25) eqn:E5.
  { apply andb_true_iff in E5. destruct E5 as [E5 _].
    apply andb_true_iff in E5. destruct E5 as [_ E5]. apply Z.leb_le in E5.
    repeat split; auto; try discriminate. }
  destruct (Qleb 200 score && (5 <=? n)) eqn:E200.
  { apply andb_true_iff in E200. destruct E200 as [_ E200].
    apply Z.leb_le in E200. repeat split; auto; try discriminate. }
  destruct (String.eqb label label_star && (5 <=? n)) eqn:Estar.
  { apply andb_true_iff in Estar. destruct Estar as [_ Estar].
    apply Z.leb_le in Estar. repeat split; auto; try discriminate. }
  destruct (match days with
            | Some ds => (ds <? 90) && (2 <=? n) && rate_below rate 0.3
            | None => false
            end).
  { repeat split; auto; discriminate. }
  destruct (match days with
            | Some ds =>
                (90 <=? ds) && (ds <=? threshold * 3)
                && ((3 <=? n) || Qleb 1000 net) && rate_below rate 0.5
            | None => false
            end) eqn:Erisk.
  { repeat split; auto; try discriminate.
    intros _. destruct days as [ds|]; [|discriminate].
    repeat (apply andb_true_iff in Erisk; destruct Erisk as [Erisk ?]).
    apply Z.leb_le in Erisk. exists ds. repeat split; auto.
    apply Z.leb_le. assumption. }
  repeat split; auto; discriminate.
Qed.

Lemma classify_customer_list_conditions_witness :
  classify_customer_list None 100 None 10 (Some 0.1%Q) label_ordinary
    (Some 30) 1500 "" 120 90 = list_super_vip
  /\ 5 <= 10.
Proof.
  split; [reflexivity|].
  exact (proj1 (proj2 (classify_customer_list_conditions None 100 None 10
                         (Some 0.1%Q) label_ordinary (Some 30) 1500 "" 120
                         90)) eq_refl).
Defined.

(** ** The work list *)

Section WorkList.

Variable math_exp : Q -> Q.
Variable a : Args.

Lemma customer_list_of_not_cooldown (st : CustomerStats) :
  customer_list_of math_exp a st <> list_cooldown.
Proof. apply classify_customer_list_not_cooldown. Qed.

(** What an action row tells of its customer. *)
Lemma worklist_step_listed (st : CustomerStats) (row : ActionRow) :
  fst (worklist_step math_exp a st) = Some row ->
  include_in_action math_exp a st = true
  /\ ~ (last_contact_date a st <> None /\ reply_flag a st = Some false)
  /\ ((in_cooldown a st = true
       /\ row = action_row math_exp a st list_cooldown)
      \/ (in_cooldown a st = false
          /\ recent_buyer a st = false
          /\ high_return a st = false
          /\ single_order_rejected a st = false
          /\ presumed_lost a st = false
          /\ row = action_row math_exp a st (customer_list_of math_exp a st))).
Proof.
  unfold worklist_step. cbv zeta.
  destruct (include_in_action math_exp a st);
    destruct (in_cooldown a st);
    destruct (recent_buyer a st);
    destruct (high_return a st);
    destruct (single_order_rejected a st);
    destruct (presumed_lost a st);
    destruct (last_contact_date a st) as [c|];
    destruct (reply_flag a st) as [[|]|];
    repeat match goal with
           | |- context [if ?x then _ else _] => destruct x
           end;
    cbn [fst]; intros H; inversion H;
    (split; [reflexivity|]);
    (split; [intros [Hcontact Hflag];
             first [discriminate Hflag | apply Hcontact; reflexivity]|]);
    first [left; split; reflexivity | right; repeat split; reflexivity].
Qed.

Lemma worklist_step_global_scope (st : CustomerStats) (row : ActionRow) :
  cooldown_scope a = "all" ->
  fst (worklist_step math_exp a st) = Some row ->
  in_cooldown a st = false.
Proof.
  intros Hscope. unfold worklist_step, in_cooldown. cbv zeta.
  rewrite Hscope. cbn [String.eqb Ascii.eqb Bool.eqb andb].
  destruct (last_contact_date a st) as [c|]; [|reflexivity].
  destruct (0 <? effective_cooldown_days a); cbn [andb]; [|reflexivity].
  destruct (within_cooldown a c); [|reflexivity].
  destruct (reply_flag a st) as [[|]|]; cbn [fst]; discriminate.
Qed.

(** Every action row comes from a customer of the dictionary. *)
Lemma action_rows_provenance (customers : Customers) (row : ActionRow) :
  In row (action_rows (build_alert_rows math_exp a customers)) ->
  exists st, In st (map snd customers)
             /\ orders st <> 0
             /\ fst (worklist_step math_exp a st) = Some row.
Proof.
  unfold build_alert_rows. cbn [action_rows]. intros Hin.
  apply (Permutation_in _ (Permutation_sym (sort_action_rows_perm _))) in Hin.
  revert Hin.
  assert (H : forall sts out,
            In row (action_rows (fold_left (alert_step math_exp a) sts out)) ->
            In row (action_rows out)
            \/ exists st, In st sts /\ orders st <> 0
                          /\ fst (worklist_step math_exp a st) = Some row).
  { induction sts as [|st sts IH]; intros out Hin; cbn in Hin; [now left|].
    destruct (IH _ Hin) as [Hout|(st' & H1 & H2 & H3)].
    - unfold alert_step in Hout.
      destruct (orders st =? 0) eqn:E; [now left|].
      apply Z.eqb_neq in E.
      destruct (worklist_step math_exp a st) as [[r|] snoozed] eqn:Ew;
        cbn in Hout; [|now left].
      apply in_app_or in Hout. destruct Hout as [Hout|[<-|[]]]; [now left|].
      right. exists st. repeat split; [now left|exact E|].
      rewrite Ew. reflexivity.
    - right. exists st'. repeat split; [now right|assumption|assumption]. }
  intros Hin. destruct (H _ _ Hin) as [[]|Hst]. exact Hst.
Qed.

Lemma overview_rows_fold (sts : list CustomerStats) :
  forall out,
    overview_rows (fold_left (alert_step math_exp a) sts out)
    = overview_rows out
      ++ map (overview_row math_exp a)
           (filter (fun st => negb (orders st =? 0)) sts).
Proof.
  induction sts as [|st sts IH]; intros out; cbn [fold_left filter map].
  - now rewrite app_nil_r.
  - rewrite IH. unfold alert_step.
    destruct (orders st =? 0); cbn [negb]; [reflexivity|].
    destruct (worklist_step math_exp a st) as [row snoozed].
    cbn [overview_rows map]. now rewrite <- app_assoc.
Qed.

End WorkList.

(** X6: customers without a valid order are left out of every output, and
    [overview_rows] holds exactly one row for each of the other customers,
    in the order of the dictionary. *)
Theorem zero_order_customers_excluded (math_exp : Q -> Q) (a : Args)
    (customers : Customers) :
  let out := build_alert_rows math_exp a customers in
  map ov_key (overview_rows out)
  = map key (filter (fun st => negb (orders st =? 0)) (map snd customers))
  /\ Forall (fun row => ov_orders row <> 0) (overview_rows out)
  /\ Forall (fun row => ar_orders row <> 0) (action_rows out)
  /\ Forall (fun e => mt_orders (snd e) <> 0) (meta_map out).
Proof.
  cbv zeta. split.
  - unfold build_alert_rows. cbn [overview_rows].
    rewrite overview_rows_fold. cbn [overview_rows app].
    rewrite map_map. reflexivity.
  - destruct (build_alert_rows_from math_exp a customers) as (Hov & Hac & Hmt).
    repeat split.
    + eapply Forall_impl; [|exact Hov]. intros row (st & Ho & ->). exact Ho.
    + eapply Forall_impl; [|exact Hac]. intros row (st & l & Ho & ->). exact Ho.
    + eapply Forall_impl; [|exact Hmt]. intros e (st & Ho & ->). exact Ho.
Qed.

(** X7: every row of [action_rows] belongs to a customer of the dictionary
    that meets an inclusion trigger and whose last contact is not marked as
    unanswered; the row is tagged "冷却期" when the customer is inside the
    cooldown, and otherwise the customer is no recent buyer, has no high
    return rate (unless these are allowed), passes the single-order policy
    and is not presumed lost. *)
Theorem action_rows_pass_filters (math_exp : Q -> Q) (a : Args)
    (customers : Customers) (row : ActionRow) :
  In row (action_rows (build_alert_rows math_exp a customers)) ->
  exists st,
    In st (map snd customers)
    /\ orders st <> 0
    /\ include_in_action math_exp a st = true
    /\ ~ (last_contact_date a st <> None /\ reply_flag a st = Some false)
    /\ ((in_cooldown a st = true
         /\ row = action_row math_exp a st list_cooldown)
        \/ (in_cooldown a st = false
            /\ recent_buyer a st = false
            /\ high_return a st = false
            /\ single_order_rejected a st = false
            /\ presumed_lost a st = false
            /\ row = action_row math_exp a st (customer_list_of math_exp a st)
            /\ ar_customer_list row <> list_cooldown)).
Proof.
  intros Hin.
  destruct (action_rows_provenance math_exp a customers row Hin)
    as (st & Hst & Ho & Hrow).
  destruct (worklist_step_listed math_exp a st row Hrow)
    as (Hinc & Hreply & Hcase).
  exists st. repeat split; try assumption.
  destruct Hcase as [Hc|(H1 & H2 & H3 & H4 & H5 & H6)]; [left; exact Hc|].
  right. repeat split; try assumption.
  rewrite H6. cbn [ar_customer_list action_row].
  apply customer_list_of_not_cooldown.
Qed.

Lemma action_rows_pass_filters_witness :
  let out :=
    build_alert_rows Sample.exp_stand_in Sample.args Sample.ten_orders in
  In (Sample2.ten_orders_row Sample.args) (action_rows out)
  /\ exists st, In st (map snd Sample.ten_orders) /\ orders st <> 0.
Proof.
  cbv zeta.
  assert (Hin : In (Sample2.ten_orders_row Sample.args)
                   (action_rows (build_alert_rows Sample.exp_stand_in
                                   Sample.args Sample.ten_orders)))
    by (vm_compute; left; reflexivity).
  split; [exact Hin|].
  destruct (action_rows_pass_filters Sample.exp_stand_in Sample.args
              Sample.ten_orders _ Hin) as (st & H1 & H2 & _).
  exists st. split; assumption.
Defined.

(** ** The cooldown and its two scopes *)

Section CooldownScopes.

Variable math_exp : Q -> Q.
Variable a : Args.

Lemma filter_length_perm {A : Type} (f : A -> bool) (l l' : list A) :
  Permutation l l' ->
  List.length (filter f l) = List.length (filter f l').
Proof.
  intros H. induction H as [|x l l' H IH|x y l|l l' l'' H1 IH1 H2 IH2].
  - reflexivity.
  - cbn. destruct (f x); cbn; congruence.
  - cbn. destruct (f x), (f y); reflexivity.
  - congruence.
Qed.

Lemma worklist_step_action_scope (st : CustomerStats) :
  String.eqb (cooldown_scope a) "all" = false ->
  (exists c, worklist_step math_exp a st
             = (Some (action_row math_exp a st list_cooldown), Some c))
  \/ worklist_step math_exp a st = (None, None)
  \/ worklist_step math_exp a st
     = (Some (action_row math_exp a st (customer_list_of math_exp a st)), None).
Proof.
  intros Hscope. unfold worklist_step, in_cooldown. cbv zeta.
  rewrite Hscope. cbn [andb].
  destruct (include_in_action math_exp a st);
    destruct (last_contact_date a st) as [c|];
    try destruct (reply_flag a st) as [[|]|];
    repeat match goal with
           | |- context [if ?x then _ else _] => destruct x
           end;
    first [left; eexists; reflexivity
          | right; left; reflexivity
          | right; right; reflexivity].
Qed.

Lemma is_cooldown_row_classified (st : CustomerStats) :
  is_cooldown_row (action_row math_exp a st (customer_list_of math_exp a st))
  = false.
Proof.
  unfold is_cooldown_row. cbn [ar_customer_list action_row].
  apply String.eqb_neq, customer_list_of_not_cooldown.
Qed.

Lemma snoozed_total_fold (sts : list CustomerStats) :
  String.eqb (cooldown_scope a) "all" = false ->
  forall out,
    snoozed_total out
    = Z.of_nat (List.length (filter is_cooldown_row (action_rows out))) ->
    snoozed_total (fold_left (alert_step math_exp a) sts out)
    = Z.of_nat (List.length
                  (filter is_cooldown_row
                     (action_rows (fold_left (alert_step math_exp a) sts out)))).
Proof.
  intros Hscope. induction sts as [|st sts IH]; intros out Hout;
    cbn [fold_left]; [exact Hout|].
  apply IH. unfold alert_step.
  destruct (orders st =? 0); [exact Hout|].
  destruct (worklist_step_action_scope st Hscope) as [[c ->]|[-> | ->]];
    cbn [snoozed_total action_rows]; [| exact Hout |].
  - rewrite filter_app, length_app. cbn [filter].
    replace (is_cooldown_row (action_row math_exp a st list_cooldown))
      with true by reflexivity.
    cbn [List.length]. lia.
  - rewrite filter_app, length_app. cbn [filter].
    rewrite is_cooldown_row_classified. cbn [List.length]. lia.
Qed.

End CooldownScopes.

(** X8: in the scope "all" no row of [action_rows] is a cooldown row: a
    customer inside the cooldown is not in the work list at all. *)
Theorem global_cooldown_hides_customers (math_exp : Q -> Q) (a : Args)
    (customers : Customers) (row : ActionRow) :
  cooldown_scope a = "all" ->
  In row (action_rows (build_alert_rows math_exp a customers)) ->
  ar_customer_list row <> list_cooldown
  /\ exists st, In st (map snd customers)
                /\ in_cooldown a st = false
                /\ fst (worklist_step math_exp a st) = Some row.
Proof.
  intros Hscope Hin.
  destruct (action_rows_provenance math_exp a customers row Hin)
    as (st & Hst & Ho & Hrow).
  pose proof (worklist_step_global_scope math_exp a st row Hscope Hrow) as Hc.
  split; [|exists st; repeat split; assumption].
  rewrite (worklist_step_row math_exp a st row Hrow), Hc.
  cbn [ar_customer_list action_row]. apply customer_list_of_not_cooldown.
Qed.

Lemma global_cooldown_hides_customers_witness :
  let a := Sample5.args_global_contacted in
  let out := build_alert_rows Sample.exp_stand_in a Sample5.two_customers in
  let row := action_row Sample.exp_stand_in a Sample5.vip_stats
               list_super_vip in
  cooldown_scope a = "all"
  /\ In Sample.ten_orders_stats (map snd Sample5.two_customers)
  /\ in_cooldown a Sample.ten_orders_stats = true
  /\ action_rows out = [row]
  /\ ar_customer_list row <> list_cooldown.
Proof.
  cbv zeta.
  assert (Hrows : action_rows (build_alert_rows Sample.exp_stand_in
                                 Sample5.args_global_contacted
                                 Sample5.two_customers)
                  = [action_row Sample.exp_stand_in
                       Sample5.args_global_contacted Sample5.vip_stats
                       list_super_vip])
    by (vm_compute; reflexivity).
  split; [reflexivity|].
  split; [vm_compute; left; reflexivity|].
  split; [vm_compute; reflexivity|].
  split; [exact Hrows|].
  apply (global_cooldown_hides_customers Sample.exp_stand_in
           Sample5.args_global_contacted Sample5.two_customers).
  - reflexivity.
  - rewrite Hrows. left. reflexivity.
Defined.

(** X9: in the scope "action" [snoozed_total] counts exactly the cooldown
    rows of [action_rows]: every customer held back by the cooldown stays
    visible in the work list. *)
Theorem snoozed_total_counts_cooldown_rows (math_exp : Q -> Q) (a : Args)
    (customers : Customers) :
  String.eqb (cooldown_scope a) "all" = false ->
  let out := build_alert_rows math_exp a customers in
  snoozed_total out
  = Z.of_nat (List.length (filter is_cooldown_row (action_rows out))).
Proof.
  intros Hscope. cbv zeta. unfold build_alert_rows.
  cbn [snoozed_total action_rows].
  rewrite <- (filter_length_perm is_cooldown_row _ _
                (sort_action_rows_perm _)).
  apply snoozed_total_fold; [exact Hscope|reflexivity].
Qed.

Lemma snoozed_total_counts_cooldown_rows_witness :
  String.eqb (cooldown_scope (Sample.args_contacted (Some "已回复"))) "all"
  = false
  /\ snoozed_total
       (build_alert_rows Sample.exp_stand_in
          (Sample.args_contacted (Some "已回复")) Sample.ten_orders)
     = Z.of_nat
         (List.length
            (filter is_cooldown_row
               (action_rows
                  (build_alert_rows Sample.exp_stand_in
                     (Sample.args_contacted (Some "已回复"))
                     Sample.ten_orders)))).
Proof.
  split; [reflexivity|].
  apply (snoozed_total_counts_cooldown_rows Sample.exp_stand_in
           (Sample.args_contacted (Some "已回复")) Sample.ten_orders).
  reflexivity.
Defined.

(** ** Bounds of the uplift estimate *)

Section UpliftBounds.

Lemma clamp_between (lo hi x : Q) :
  (lo <= hi)%Q ->
  (lo <= fmax lo (fmin hi x))%Q /\ (fmax lo (fmin hi x) <= hi)%Q.
Proof.
  intros H. split; [apply fmax_ge_l|].
  apply fmax_lub; [exact H|apply fmin_le_l].
Qed.

End UpliftBounds.

(** X10: [estimate_uplift] never returns less than the configured floor,
    nor less than 1 for a customer with 3 orders or more; and it returns
    more than the configured ceiling, or than the extra ceiling passed in,
    only when the floor in force is itself above that ceiling, in which case
    it returns the floor.  Without the days since the last order or without
    a threshold it returns the base uplift when that lies between the floor
    and the ceiling. *)
Theorem estimate_uplift_bounds (days threshold : option Z) (cfg : ConfigModel)
    (extra_ceiling : option Q) (n : option Z) (rate : option Q) (aov : Q) :
  let u := estimate_uplift days threshold cfg extra_ceiling n rate aov in
  let params := uplift_params cfg in
  let floor := match n with
               | Some k => if 3 <=? k then fmax (up_floor params) 1
                           else up_floor params
               | None => up_floor params
               end in
  let ceiling := match extra_ceiling with
                 | Some c => fmin (up_ceiling params) c
                 | None => up_ceiling params
                 end in
  (up_floor params <= u)%Q
  /\ (forall k, n = Some k -> 3 <= k -> (1 <= u)%Q)
  /\ (floor <= u)%Q
  /\ ((floor <= ceiling)%Q ->
      (u <= up_ceiling params)%Q
      /\ forall c, extra_ceiling = Some c -> (u <= c)%Q)
  /\ ((ceiling < floor)%Q -> (u == floor)%Q)
  /\ (days = None \/ threshold = None ->
      (floor <= up_base params)%Q -> (up_base params <= ceiling)%Q ->
      (u == up_base params)%Q).
Proof.
  cbv zeta. unfold estimate_uplift. cbv zeta.
  set (floor0 := up_floor (uplift_params cfg)).
  set (ceiling0 := up_ceiling (uplift_params cfg)).
  set (base := up_base (uplift_params cfg)).
  set (floor := match n with
                | Some k => if 3 <=? k then fmax floor0 1 else floor0
                | None => floor0
                end).
  set (ceiling1 := match extra_ceiling with
                   | Some c => fmin ceiling0 c
                   | None => ceiling0
                   end).
  set (ceiling := if Qltb ceiling1 floor then floor else ceiling1).
  assert (Hfloor0 : (floor0 <= floor)%Q).
  { unfold floor. destruct n as [k|]; [|lra].
    destruct (3 <=? k); [apply fmax_ge_l|lra]. }
  assert (Hfloor1 : forall k, n = Some k -> 3 <= k -> (1 <= floor)%Q).
  { intros k -> Hk. unfold floor.
    replace (3 <=? k) with true by (symmetry; apply Z.leb_le; exact Hk).
    apply fmax_ge_r. }
  assert (Hfc : (floor <= ceiling)%Q).
  { unfold ceiling. destruct (Qltb ceiling1 floor) eqn:E; [lra|].
    apply Qltb_false in E. exact E. }
  assert (Hc1 : (ceiling1 <= ceiling0)%Q
                /\ forall c, extra_ceiling = Some c -> (ceiling1 <= c)%Q).
  { unfold ceiling1. destruct extra_ceiling as [c|].
    - split; [apply fmin_le_l|]. intros c' H. inversion H. subst.
      apply fmin_le_r.
    - split; [lra|discriminate]. }
  assert (Hall : forall x : Q,
            (floor0 <= fmax floor (fmin ceiling x))%Q
            /\ (forall k, n = Some k -> 3 <= k ->
                          (1 <= fmax floor (fmin ceiling x))%Q)
            /\ (floor <= fmax floor (fmin ceiling x))%Q
            /\ ((floor <= ceiling1)%Q ->
                (fmax floor (fmin ceiling x) <= ceiling0)%Q
                /\ forall c, extra_ceiling = Some c ->
                             (fmax floor (fmin ceiling x) <= c)%Q)
            /\ ((ceiling1 < floor)%Q ->
                (fmax floor (fmin ceiling x) == floor)%Q)).
  { intros x. destruct (clamp_between floor ceiling x Hfc) as [Hlo Hhi].
    set (v := fmax floor (fmin ceiling x)) in *.
    split; [lra|]. split; [|split; [exact Hlo|split]].
    - intros k Hn Hk. specialize (Hfloor1 k Hn Hk). lra.
    - intros Hle. unfold ceiling in Hhi.
      destruct (Qltb ceiling1 floor) eqn:E;
        [apply Qltb_true in E; lra|].
      destruct Hc1 as [Hc0 Hce]. split; [lra|].
      intros c Hc. specialize (Hce c Hc). lra.
    - intros Hlt. unfold ceiling in Hhi.
      replace (Qltb ceiling1 floor) with true in Hhi
        by (symmetry; apply Qltb_true; exact Hlt).
      lra. }
  assert (Hbase : (floor <= base)%Q -> (base <= ceiling1)%Q ->
                  (fmax floor (fmin ceiling base) == base)%Q).
  { intros H1 H2. unfold ceiling.
    replace (Qltb ceiling1 floor) with false
      by (symmetry; apply Qltb_false; lra).
    unfold fmax, fmin.
    destruct (Qltb base ceiling1) eqn:E1;
      [apply Qltb_true in E1|apply Qltb_false in E1].
    - destruct (Qltb floor base) eqn:E2;
        [reflexivity|apply Qltb_false in E2; lra].
    - destruct (Qltb floor ceiling1) eqn:E2;
        [lra|apply Qltb_false in E2; lra]. }
  match goal with
  | |- (floor0 <= ?v)%Q /\ _ => set (u := v)
  end.
  assert (Hu : exists x, u = fmax floor (fmin ceiling x)
                         /\ (days = None \/ threshold = None -> x = base)).
  { unfold u. destruct days as [ds|], threshold as [th|].
    - destruct (th <=? 0); eexists; (split; [reflexivity|]);
        intros [Hd|Hd]; discriminate.
    - exists base. split; [reflexivity|tauto].
    - exists base. split; [reflexivity|tauto].
    - exists base. split; [reflexivity|tauto]. }
  destruct Hu as (x & -> & Hx).
  destruct (Hall x) as (H1 & H2 & H3 & H4 & H5).
  split; [exact H1|]. split; [exact H2|]. split; [exact H3|].
  split; [exact H4|]. split; [exact H5|].
  intros Hd Hlo Hhi. rewrite (Hx Hd). apply Hbase; assumption.
Qed.

Lemma estimate_uplift_bounds_witness :
  Qlt (fmin (up_ceiling (uplift_params Sample.config)) 0.5)
      (fmax (up_floor (uplift_params Sample.config)) 1)
  /\ Qeq (estimate_uplift (Some 150) (Some 75) Sample.config (Some 0.5%Q)
            (Some 5) None 600)
         (fmax (up_floor (uplift_params Sample.config)) 1).
Proof.
  assert (H : Qlt (fmin (up_ceiling (uplift_params Sample.config)) 0.5)
                  (fmax (up_floor (uplift_params Sample.config)) 1))
    by (vm_compute; reflexivity).
  split; [exact H|].
  exact (proj1 (proj2 (proj2 (proj2 (proj2
           (estimate_uplift_bounds (Some 150) (Some 75) Sample.config
              (Some 0.5%Q) (Some 5) None 600))))) H).
Defined.

(** ** Bounds of the churn thresholds *)

(** X11: the long-term threshold of a customer is at least 1, at least the
    global churn days, at least the category cycle times the multiplier
    rounded up and, when the customer has a personal threshold, at least
    that one rounded up; the short-term threshold lies between 1 and the
    long-term threshold. *)
Theorem threshold_bounds (a : Args) (st : CustomerStats) :
  let long := long_term_threshold a st in
  let short := short_term_threshold a st in
  1 <= long
  /\ churn_days a <= long
  /\ ceil (category_cycle a st * churn_multiplier a) <= long
  /\ (forall t, personalized_threshold a st = Some t -> ceil t <= long)
  /\ 1 <= short
  /\ short <= long.
Proof.
  cbv zeta.
  assert (H : 1 <= long_term_threshold a st
              /\ churn_days a <= long_term_threshold a st
              /\ ceil (category_cycle a st * churn_multiplier a)
                 <= long_term_threshold a st
              /\ (forall t, personalized_threshold a st = Some t ->
                            ceil t <= long_term_threshold a st)).
  { unfold long_term_threshold, long_term_threshold_of. cbv zeta.
    destruct (personalized_threshold a st) as [t|];
      cbn [app zmax_list fold_left]; repeat split; try lia.
    - intros t' H. inversion H. subst. lia.
    - discriminate. }
  destruct H as (H1 & H2 & H3 & H4).
  repeat split; try assumption.
  - unfold short_term_threshold, short_term_threshold_of. cbv zeta.
    destruct (_ && _) eqn:E; [|lia].
    apply andb_true_iff in E. destruct E as [_ E]. apply Z.ltb_lt in E. lia.
  - destruct (Z.eq_dec (long_term_threshold a st) 1) as [E|E].
    + unfold short_term_threshold. rewrite E. vm_compute. discriminate.
    + pose proof (short_term_below (long_term_threshold a st) ltac:(lia)) as [Hs _].
      unfold short_term_threshold. lia.
Qed.

Lemma threshold_bounds_witness :
  exists t,
    personalized_threshold Sample.args Sample.ten_orders_stats = Some t
    /\ ceil t <= long_term_threshold Sample.args Sample.ten_orders_stats.
Proof.
  destruct (personalized_threshold Sample.args Sample.ten_orders_stats)
    as [t|] eqn:E; [|vm_compute in E; discriminate].
  exists t. split; [reflexivity|].
  exact (proj1 (proj2 (proj2 (proj2
           (threshold_bounds Sample.args Sample.ten_orders_stats)))) t E).
Defined.

(** ** Nested time windows *)

Section WindowsNested.

Variable now : Z.

Lemma window_step_nested (w : Windows) (entry : Z * Q) :
  (0 <= snd entry)%Q ->
  (0 <= days_30 w)%Q /\ (days_30 w <= days_90 w)%Q
  /\ (days_90 w <= days_180 w)%Q /\ (days_180 w <= days_365 w)%Q
  /\ (0 <= prev_90 w)%Q ->
  let w' := window_step now w entry in
  (0 <= days_30 w')%Q /\ (days_30 w' <= days_90 w')%Q
  /\ (days_90 w' <= days_180 w')%Q /\ (days_180 w' <= days_365 w')%Q
  /\ (0 <= prev_90 w')%Q.
Proof.
  destruct entry as [d net], w as [d30 d90 p90 d180 d365].
  unfold window_step. cbn. intros Hnet (H0 & H1 & H2 & H3 & H4).
  destruct (now - 30 <=? d) eqn:E30; destruct (now - 90 <=? d) eqn:E90;
    destruct (now - 180 <=? d) eqn:E180; destruct (now - 365 <=? d) eqn:E365;
    try apply Z.leb_le in E30; try apply Z.leb_gt in E30;
    try apply Z.leb_le in E90; try apply Z.leb_gt in E90;
    try apply Z.leb_le in E180; try apply Z.leb_gt in E180;
    try apply Z.leb_le in E365; try apply Z.leb_gt in E365;
    try lia; repeat split; lra.
Qed.

End WindowsNested.

(** X12: when no net amount of the history is negative, the sums of
    [compute_time_windows] are nested, [0 <= days_30 <= days_90 <= days_180
    <= days_365], and the sum of the preceding 90 days is not negative. *)
Theorem time_windows_nested (entries : list (Z * Q)) (now : Z) :
  Forall (fun e => (0 <= snd e)%Q) entries ->
  let w := compute_time_windows entries now in
  (0 <= days_30 w)%Q /\ (days_30 w <= days_90 w)%Q
  /\ (days_90 w <= days_180 w)%Q /\ (days_180 w <= days_365 w)%Q
  /\ (0 <= prev_90 w)%Q.
Proof.
  intros Hall. cbv zeta. unfold compute_time_windows.
  assert (H : forall w,
            (0 <= days_30 w)%Q /\ (days_30 w <= days_90 w)%Q
            /\ (days_90 w <= days_180 w)%Q /\ (days_180 w <= days_365 w)%Q
            /\ (0 <= prev_90 w)%Q ->
            let w' := fold_left (window_step now) entries w in
            (0 <= days_30 w')%Q /\ (days_30 w' <= days_90 w')%Q
            /\ (days_90 w' <= days_180 w')%Q /\ (days_180 w' <= days_365 w')%Q
            /\ (0 <= prev_90 w')%Q).
  { induction Hall as [|e es He Hes IH]; intros w Hw; cbn [fold_left];
      [exact Hw|].
    apply IH. apply window_step_nested; assumption. }
  apply H. cbn. repeat split; lra.
Qed.

Lemma time_windows_nested_witness :
  Forall (fun e => (0 <= snd e)%Q) (order_history Sample.ten_orders_stats)
  /\ (days_90 (compute_time_windows (order_history Sample.ten_orders_stats)
                 Sample.run_day)
      <= days_180 (compute_time_windows (order_history Sample.ten_orders_stats)
                     Sample.run_day))%Q.
Proof.
  assert (H : Forall (fun e => (0 <= snd e)%Q)
                (order_history Sample.ten_orders_stats)).
  { vm_compute. repeat constructor; discriminate. }
  split; [exact H|].
  apply (time_windows_nested _ Sample.run_day H).
Defined.

(** ** The personal repurchase cycle *)

Section PersonalCycle.

Lemma intervals_from_positive (l : list Z) :
  forall prev, Forall (fun g => 1 <= g) (intervals_from prev l).
Proof.
  induction l as [|d l IH]; intros prev; cbn; constructor; [|apply IH].
  destruct (0 <? d - prev) eqn:E; [apply Z.ltb_lt in E|]; lia.
Qed.

Lemma fold_add_ge_length (l : list Z) :
  Forall (fun g => 1 <= g) l ->
  forall acc, acc + Z.of_nat (List.length l) <= fold_left Z.add l acc.
Proof.
  induction 1 as [|g l Hg Hl IH]; intros acc; cbn [fold_left List.length];
    [lia|].
  specialize (IH (acc + g)). lia.
Qed.

Lemma zdiv_ge_1 (s n : Z) : 0 < n -> n <= s -> (1 <= zdiv s n)%Q.
Proof.
  intros Hn Hs. unfold zdiv. apply Qle_shift_div_l.
  - change 0%Q with (inject_Z 0). rewrite <- Zlt_Qlt. exact Hn.
  - rewrite Qmult_1_l. rewrite <- Zle_Qle. exact Hs.
Qed.

End PersonalCycle.

(** X13: the personal cycle of a customer, when it is defined, is positive,
    and it is at least one day when the order history holds two distinct
    dates or more. *)
Theorem personal_cycle_positive (st : CustomerStats) (pc : Q) :
  personal_cycle_days st = Some pc ->
  (0 < pc)%Q
  /\ ((2 <= List.length (sorted_dates (order_history st)))%nat -> (1 <= pc)%Q).
Proof.
  unfold personal_cycle_days.
  destruct (first_order st) as [first|]; [|discriminate].
  destruct (last_order st) as [last|]; [|discriminate].
  destruct (2 <=? orders st); [|discriminate].
  destruct (sorted_dates (order_history st)) as [|d0 [|d1 later]] eqn:Edates.
  - cbv zeta. destruct (1 <? orders st); [|discriminate].
    destruct (orders st - 1 =? 0); [discriminate|].
    intros H. inversion H. subst pc. clear H. split; [|cbn; lia].
    destruct (Qleb _ 0) eqn:E; [reflexivity|]. apply Qleb_false in E. exact E.
  - cbv zeta. destruct (1 <? orders st); [|discriminate].
    destruct (orders st - 1 =? 0); [discriminate|].
    intros H. inversion H. subst pc. clear H. split; [|cbn; lia].
    destruct (Qleb _ 0) eqn:E; [reflexivity|]. apply Qleb_false in E. exact E.
  - cbv zeta.
    pose proof (intervals_from_positive (d1 :: later) d0) as Hpos.
    destruct (intervals_from d0 (d1 :: later)) as [|g gs] eqn:Eint;
      [cbn in Eint; discriminate|].
    intros H. inversion H. subst pc. clear H.
    pose proof (fold_add_ge_length (g :: gs) Hpos 0) as Hs.
    change (0 + Z.of_nat (List.length (g :: gs)))
      with (Z.pos (Pos.of_succ_nat (List.length gs))) in Hs.
    split; [apply Qlt_le_trans with 1%Q; [reflexivity|]|intros _];
      (apply zdiv_ge_1; [reflexivity|unfold zsum; exact Hs]).
Qed.

Lemma personal_cycle_positive_witness :
  personal_cycle_days Sample.two_orders = Some (zdiv 40 1)
  /\ (0 < zdiv 40 1)%Q.
Proof.
  assert (H : personal_cycle_days Sample.two_orders = Some (zdiv 40 1))
    by (vm_compute; reflexivity).
  split; [exact H|].
  exact (proj1 (personal_cycle_positive Sample.two_orders (zdiv 40 1) H)).
Defined.

(** ** The most frequent entry of a counter *)

Section Counters.

Lemma first_max_spec (rest : Counter) :
  forall best,
    (first_max best rest = best \/ In (first_max best rest) rest)
    /\ snd best <= snd (first_max best rest)
    /\ Forall (fun e => snd e <= snd (first_max best rest)) rest.
Proof.
  induction rest as [|[k n] rest IH]; intros best; cbn [first_max].
  - repeat split; [now left|lia|constructor].
  - destruct (snd best <? n) eqn:E.
    + apply Z.ltb_lt in E.
      destruct (IH (k, n)) as (H1 & H2 & H3). cbn [snd] in H2.
      repeat split.
      * right. destruct H1 as [->|H1]; [now left|now right].
      * lia.
      * constructor; [exact H2|exact H3].
    + apply Z.ltb_ge in E.
      destruct (IH best) as (H1 & H2 & H3).
      repeat split.
      * destruct H1 as [H1|H1]; [now left|right; now right].
      * exact H2.
      * constructor; [cbn [snd]; lia|exact H3].
Qed.

End Counters.

(** X14: [choose_primary] answers [None] on the empty counter only, and
    otherwise with a key of the counter whose count no other count exceeds. *)
Theorem choose_primary_most_frequent (counter : Counter) :
  (choose_primary counter = None <-> counter = [])
  /\ forall k, choose_primary counter = Some k ->
       exists n, In (k, n) counter /\ Forall (fun e => snd e <= n) counter.
Proof.
  split.
  - destruct counter; cbn; split; intros H; try reflexivity; discriminate.
  - intros k. destruct counter as [|e rest]; cbn [choose_primary];
      [discriminate|].
    intros H. injection H as <-.
    destruct (first_max_spec rest e) as (Hin & Hbest & Hrest).
    exists (snd (first_max e rest)). split.
    + destruct (first_max e rest) as [k' n'] eqn:E. cbn [fst snd].
      destruct Hin as [<-|Hin]; [now left|now right].
    + constructor; assumption.
Qed.

Lemma choose_primary_most_frequent_witness :
  exists n,
    In ("b", n) [("a", 2); ("b", 3); ("c", 3)]
    /\ Forall (fun e => snd e <= n) [("a", 2); ("b", 3); ("c", 3)].
Proof.
  exact (proj2 (choose_primary_most_frequent [("a", 2); ("b", 3); ("c", 3)])
           "b" eq_refl).
Defined.

(** ** Valid orders and refunds in [load_customers] *)

(** X15: a row that is not taken for a cancellation has a positive gross
    amount and is counted as one valid order: the order count rises by one,
    the gross amount and the net amount of the row (the gross amount when
    the net cell is empty) are added to the totals, one detail record is
    kept, and the cancellation count is unchanged. *)
Theorem valid_order_counted_once (st : CustomerStats) (r : Row) :
  row_is_cancellation r = false ->
  (0 < gross_cell r)%Q
  /\ orders (ingest_row st r) = orders st + 1
  /\ cancel_count (ingest_row st r) = cancel_count st
  /\ gross_total (ingest_row st r) = (gross_total st + gross_cell r)%Q
  /\ net_total (ingest_row st r) = (net_total st + row_net r)%Q
  /\ (net_cell r = None \/ net_cell r = Some 0%Q -> row_net r = gross_cell r)
  /\ exists d, order_details (ingest_row st r) = order_details st ++ [d].
Proof.
  intros Hc.
  assert (Hg : (0 < gross_cell r)%Q).
  { unfold row_is_cancellation in Hc. cbv zeta in Hc.
    apply orb_false_iff in Hc. destruct Hc as [_ Hc].
    apply Qleb_false in Hc. exact Hc. }
  split; [exact Hg|].
  rewrite ingest_row_orders, ingest_row_cancel_count, Hc.
  split; [reflexivity|]. split; [lia|].
  split; [|split; [|split; [|apply ingest_row_details]]].
  - unfold ingest_row, record_refund, record_order, register_refund.
    rewrite Hc. destruct (row_is_refund r);
      try destruct (Qltb 0 (refund_cell r)); reflexivity.
  - unfold ingest_row, record_refund, record_order, register_refund.
    rewrite Hc. destruct (row_is_refund r);
      try destruct (Qltb 0 (refund_cell r)); reflexivity.
  - unfold row_net. cbv zeta. intros [-> | ->]; [|cbn].
    + destruct (Qeqb (gross_cell r) 0 && Qltb 0 (gross_cell r)); reflexivity.
    + replace (Qltb 0 (gross_cell r)) with true
        by (symmetry; apply Qltb_true; exact Hg).
      reflexivity.
Qed.

Lemma valid_order_counted_once_witness :
  row_is_cancellation (Sample.order_row "13800000000" 739800 120) = false
  /\ orders (ingest_row (new_stats "13800000000")
               (Sample.order_row "13800000000" 739800 120)) = 0 + 1.
Proof.
  assert (H : row_is_cancellation (Sample.order_row "13800000000" 739800 120)
              = false) by (vm_compute; reflexivity).
  split; [exact H|].
  apply (valid_order_counted_once (new_stats "13800000000") _ H).
Defined.



(** ** Customers that the timing-window boost leaves out *)

(** X17: the timing-window boost is 0 when the feature is switched off, when
    the days since the last order or the personal cycle are unknown, when
    the customer has fewer orders than [min_orders], when a detail line of
    the customer is an exchange, and when the return rate is above
    [max_return_rate]. *)
Theorem timing_boost_disqualified (math_exp : Q -> Q) (days : option Z)
    (cycle : option Q) (st : CustomerStats) (rate : option Q)
    (cfg : ConfigModel) :
  enabled (timing_boost_params cfg) = false
  \/ days = None
  \/ cycle = None
  \/ orders st < min_orders (timing_boost_params cfg)
  \/ 0 < exchange_count st
  \/ (exists q, rate = Some q /\ (max_return_rate (timing_boost_params cfg) < q)%Q) ->
  calculate_timing_boost math_exp days cycle st rate cfg = 0%Q.
Proof.
  unfold calculate_timing_boost. cbv zeta.
  intros [H|[H|[H|[H|[H|(q & Hq & H)]]]]].
  - rewrite H. reflexivity.
  - rewrite H. destruct (negb _); reflexivity.
  - rewrite H. destruct (negb _), days; reflexivity.
  - destruct (negb _), days, cycle; try reflexivity.
    replace (orders st <? min_orders (timing_boost_params cfg)) with true
      by (symmetry; apply Z.ltb_lt; exact H).
    reflexivity.
  - destruct (negb _), days, cycle; try reflexivity.
    destruct (orders st <? _); [reflexivity|].
    destruct (effective_orders st <? _); [reflexivity|].
    replace (0 <? exchange_count st) with true
      by (symmetry; apply Z.ltb_lt; exact H).
    reflexivity.
  - subst rate. destruct (negb _), days, cycle; try reflexivity.
    destruct (orders st <? _); [reflexivity|].
    destruct (effective_orders st <? _); [reflexivity|].
    destruct (0 <? exchange_count st); [reflexivity|].
    replace (Qltb (max_return_rate (timing_boost_params cfg)) q) with true
      by (symmetry; apply Qltb_true; exact H).
    reflexivity.
Qed.

Lemma timing_boost_disqualified_witness :
  0 < exchange_count
        (ingest_row (new_stats "13800000000")
           (Sample.refund_row "13800000000" 739850 80 0 "换货"))
  /\ calculate_timing_boost Sample.exp_stand_in (Some 40) (Some 40%Q)
       (ingest_row (new_stats "13800000000")
          (Sample.refund_row "13800000000" 739850 80 0 "换货"))
       None Sample.config = 0%Q.
Proof.
  assert (H : 0 < exchange_count
                    (ingest_row (new_stats "13800000000")
                       (Sample.refund_row "13800000000" 739850 80 0 "换货")))
    by (vm_compute; reflexivity).
  split; [exact H|].
  apply timing_boost_disqualified. right. right. right. right. left. exact H.
Defined.

(** ** The lifecycle value *)

Section Lifecycle.

Variables (st : CustomerStats) (windows : Windows) (now : Z).

Ltac qbools :=
  repeat match goal with
         | H : Qltb _ _ = true |- _ => apply Qltb_true in H
         | H : Qltb _ _ = false |- _ => apply Qltb_false in H
         | H : Qleb _ _ = true |- _ => apply Qleb_true in H
         | H : Qleb _ _ = false |- _ => apply Qleb_false in H
         end.

Ltac split_ifs :=
  repeat match goal with
         | |- context [if ?c then _ else _] => destruct c eqn:?
         end.

Lemma lifecycle_shape :
  exists h act g gt,
    compute_customer_lifecycle_value st windows now
    = ((h + act + g)%Q, gt,
       if Qleb 70 (h + act + g) then label_star
       else if Qleb 40 (h + act + g) || String.eqb gt growth_growing
               || String.eqb gt growth_high_new then label_potential
       else label_ordinary)
    /\ (h <= 40)%Q
    /\ (0 <= orders st -> (0 <= h)%Q)
    /\ (match last_order st with Some l => l <= now | None => True end ->
        (act <= 30)%Q)
    /\ ((0 <= days_90 windows)%Q -> (0 <= act)%Q)
    /\ (0 <= g)%Q /\ (g <= 24)%Q
    /\ In gt [growth_growing; growth_stable; growth_declining; growth_dormant;
              growth_new; growth_high_new].
Proof.
  unfold compute_customer_lifecycle_value. cbv zeta.
  destruct (if 2 <=? orders st then _ else _) as [g gt] eqn:Eg.
  eexists. eexists. exists g, gt. split; [reflexivity|].
  split; [|split; [|split; [|split]]].
  - unfold fmin. split_ifs; qbools; lra.
  - intros Ho.
    assert (H20 : (0 <= zdiv (orders st) 20)%Q).
    { unfold zdiv. apply Qle_shift_div_l; [reflexivity|].
      rewrite Qmult_0_l. change 0%Q with (inject_Z 0). rewrite <- Zle_Qle.
      exact Ho. }
    destruct (Qltb 0 (net_total st)) eqn:En; [|lra].
    apply Qltb_true in En.
    assert (Hn : (0 <= net_total st / 10000 * 100)%Q).
    { apply Qmult_le_0_compat; [|discriminate].
      apply Qle_shift_div_l; [reflexivity|]. lra. }
    unfold fmin. split_ifs; qbools; lra.
  - destruct (last_order st) as [l|]; [|intros _; lra].
    intros Hl.
    assert (H180 : (0 <= zdiv (now - l) 180)%Q).
    { unfold zdiv. apply Qle_shift_div_l; [reflexivity|].
      rewrite Qmult_0_l. change 0%Q with (inject_Z 0). rewrite <- Zle_Qle.
      lia. }
    unfold fmin, fmax. split_ifs; qbools; lra.
  - intros H90. destruct (last_order st) as [l|]; [|lra].
    assert (Hr : Qltb 0 (net_total st) = true ->
                 (0 <= days_90 windows / fmax (net_total st) 1)%Q).
    { intros Hn. apply Qltb_true in Hn. apply Qle_shift_div_l.
      - pose proof (fmax_ge_r (net_total st) 1). lra.
      - lra. }
    destruct (Qltb 0 (net_total st)) eqn:En.
    + specialize (Hr eq_refl).
      set (ratio := (days_90 windows / fmax (net_total st) 1)%Q) in *.
      unfold fmin. set (rec := fmax 0 _).
      pose proof (fmax_ge_l 0 (100 - zdiv (now - l) 180 * 100)) as Hrec.
      fold rec in Hrec. split_ifs; qbools; lra.
    + pose proof (fmax_ge_l 0 (100 - zdiv (now - l) 180 * 100)). lra.
  - revert Eg. unfold fmin, fmax.
    destruct (2 <=? orders st).
    + destruct (if Qltb 0 (prev_90 windows) then _ else _) as [g1 gt1] eqn:E1.
      intros Eg. inversion Eg. subst gt. clear Eg.
      assert (H1 : (0 <= g1)%Q /\ (g1 <= 22)%Q
                   /\ In gt1 [growth_growing; growth_stable; growth_declining;
                              growth_dormant; growth_new; growth_high_new]).
      { revert E1. split_ifs; intros E1; inversion E1; subst; qbools;
          (split; [lra|split; [lra|cbn; tauto]]). }
      destruct H1 as (H1 & H2 & H3).
      split; [|split; [|exact H3]]; split_ifs; lra.
    + split_ifs; intros Eg; inversion Eg; subst;
        (split; [lra|split; [lra|cbn; tauto]]).
Qed.

End Lifecycle.

(** X18: the lifecycle score of [compute_customer_lifecycle_value] is at
    most 94 for a customer whose last order is not after today, and at
    least 0 when the order count and the net sum of the last 90 days are
    not negative; the label is "明星客户" exactly from a score of 70 on, it is
    "普通客户" only below 40 and for a growth type other than "成长型" and
    "高潜新客", and the growth type and the label are among the six and the
    three names of the code. *)
Theorem lifecycle_value_bounds (st : CustomerStats) (windows : Windows)
    (now : Z) (score : Q) (gt label : string) :
  compute_customer_lifecycle_value st windows now = (score, gt, label) ->
  (match last_order st with Some l => l <= now | None => True end ->
   (score <= 94)%Q)
  /\ (0 <= orders st -> (0 <= days_90 windows)%Q -> (0 <= score)%Q)
  /\ (label = label_star <-> (70 <= score)%Q)
  /\ (label = label_ordinary ->
      (score < 40)%Q /\ gt <> growth_growing /\ gt <> growth_high_new)
  /\ In label [label_star; label_potential; label_ordinary]
  /\ In gt [growth_growing; growth_stable; growth_declining; growth_dormant;
            growth_new; growth_high_new].
Proof.
  destruct (lifecycle_shape st windows now)
    as (h & act & g & gt' & E & Hh & Hh0 & Hact & Hact0 & Hg0 & Hg & Hgt).
  rewrite E. intros H. inversion H. subst gt'. clear H.
  split; [|split; [|split; [|split; [|split]]]].
  - intros Hl. specialize (Hact Hl). lra.
  - intros Ho H90. specialize (Hh0 Ho). specialize (Hact0 H90). lra.
  - destruct (Qleb 70 (h + act + g)) eqn:E70.
    + apply Qleb_true in E70. split; [intros _; exact E70|reflexivity].
    + apply Qleb_false in E70. split.
      * destruct (_ || _ || _); discriminate.
      * intros H. lra.
  - destruct (Qleb 70 (h + act + g)) eqn:E70; [discriminate|].
    destruct (Qleb 40 (h + act + g)) eqn:E40; [discriminate|].
    apply Qleb_false in E40. cbn [orb].
    destruct (String.eqb gt growth_growing) eqn:E1; [discriminate|].
    destruct (String.eqb gt growth_high_new) eqn:E2; [discriminate|].
    apply String.eqb_neq in E1, E2. intros _. repeat split; assumption.
  - destruct (Qleb 70 (h + act + g)); [cbn; tauto|].
    destruct (_ || _ || _); cbn; tauto.
  - exact Hgt.
Qed.

Lemma lifecycle_value_bounds_witness :
  let st := Sample.ten_orders_stats in
  let w := compute_time_windows (order_history st) Sample.run_day in
  exists score gt label,
    compute_customer_lifecycle_value st w Sample.run_day = (score, gt, label)
    /\ (score <= 94)%Q /\ (0 <= score)%Q.
Proof.
  cbv zeta.
  destruct (compute_customer_lifecycle_value Sample.ten_orders_stats
              (compute_time_windows (order_history Sample.ten_orders_stats)
                 Sample.run_day) Sample.run_day) as [[score gt] label] eqn:E.
  exists score, gt, label. split; [reflexivity|].
  pose proof (lifecycle_value_bounds _ _ _ _ _ _ E) as (H1 & H2 & _).
  split.
  - apply H1. vm_compute. discriminate.
  - apply H2; vm_compute; discriminate.
Defined.

(** ** The high-value threshold *)

Section Threshold.

Let desc (x y : Q) : Prop := (y <= x)%Q.

Lemma insert_desc_perm (x : Q) (l : list Q) :
  Permutation (x :: l) (insert_desc x l).
Proof.
  induction l as [|y l IH]; cbn [insert_desc]; [reflexivity|].
  destruct (Qltb y x); [reflexivity|].
  rewrite perm_swap. constructor. exact IH.
Qed.

Lemma sorted_desc_fold_perm (l acc : list Q) :
  Permutation (acc ++ l) (fold_left (fun sorted x => insert_desc x sorted) l acc).
Proof.
  revert acc. induction l as [|x l IH]; intros acc; cbn [fold_left].
  - now rewrite app_nil_r.
  - rewrite <- IH. rewrite <- insert_desc_perm. cbn [app].
    symmetry. apply Permutation_middle.
Qed.

Lemma sorted_desc_perm (l : list Q) : Permutation l (sorted_desc l).
Proof. apply (sorted_desc_fold_perm l []). Qed.

Lemma insert_desc_sorted (x : Q) (l : list Q) :
  StronglySorted desc l -> StronglySorted desc (insert_desc x l).
Proof.
  induction 1 as [|y l Hs IH Hy]; cbn [insert_desc].
  - constructor; constructor.
  - destruct (Qltb y x) eqn:E.
    + apply Qltb_true in E. constructor; [constructor; assumption|].
      constructor; [unfold desc; lra|].
      eapply Forall_impl; [|exact Hy]. unfold desc. intros z Hz. lra.
    + apply Qltb_false in E. constructor; [exact IH|].
      eapply Permutation_Forall; [apply insert_desc_perm|].
      constructor; [exact E|exact Hy].
Qed.

Lemma sorted_desc_fold_sorted (l acc : list Q) :
  StronglySorted desc acc ->
  StronglySorted desc (fold_left (fun sorted x => insert_desc x sorted) l acc).
Proof.
  revert acc. induction l as [|x l IH]; intros acc H; cbn [fold_left].
  - exact H.
  - apply IH, insert_desc_sorted, H.
Qed.

Lemma sorted_desc_sorted (l : list Q) : StronglySorted desc (sorted_desc l).
Proof. apply sorted_desc_fold_sorted. constructor. Qed.

Lemma sorted_split (l1 l2 : list Q) (x : Q) :
  StronglySorted desc (l1 ++ x :: l2) ->
  Forall (fun y => (x <= y)%Q) l1 /\ Forall (fun y => (y <= x)%Q) l2.
Proof.
  induction l1 as [|y l1 IH]; cbn [app]; intros H; inversion H; subst.
  - split; [constructor|assumption].
  - destruct (IH H2) as [H1 H1']. split; [|exact H1'].
    constructor; [|exact H1].
    rewrite Forall_app in H3. destruct H3 as [_ H3]. inversion H3. assumption.
Qed.

Lemma filter_all {A : Type} (f : A -> bool) (l : list A) :
  Forall (fun x => f x = true) l -> filter f l = l.
Proof.
  induction 1 as [|x l Hx Hl IH]; cbn; [reflexivity|]. now rewrite Hx, IH.
Qed.

Lemma filter_none {A : Type} (f : A -> bool) (l : list A) :
  Forall (fun x => f x = false) l -> filter f l = [].
Proof.
  induction 1 as [|x l Hx Hl IH]; cbn; [reflexivity|]. now rewrite Hx, IH.
Qed.

Lemma filter_length_le {A : Type} (f : A -> bool) (l : list A) :
  (List.length (filter f l) <= List.length l)%nat.
Proof.
  induction l as [|x l IH]; cbn; [lia|]. destruct (f x); cbn; lia.
Qed.

(** The entry of a sorted list at position [i] has [i + 1] entries that are
    not smaller, and at most [i] entries that are larger. *)
Lemma sorted_nth_counts (l : list Q) (i : nat) :
  StronglySorted desc l -> (i < List.length l)%nat ->
  let t := nth i l 0%Q in
  In t l
  /\ (i + 1 <= List.length (filter (fun x => Qleb t x) l))%nat
  /\ (List.length (filter (fun x => Qltb t x) l) <= i)%nat.
Proof.
  intros Hs Hi. cbv zeta.
  destruct (nth_split l 0%Q Hi) as (l1 & l2 & El & Hl1).
  set (t := nth i l 0%Q) in *.
  split; [apply nth_In, Hi|].
  rewrite El in Hs. apply sorted_split in Hs. destruct Hs as [H1 H2].
  rewrite El, !filter_app, !length_app. cbn [filter].
  replace (Qleb t t) with true by (symmetry; apply Qleb_true; lra).
  replace (Qltb t t) with false by (symmetry; apply Qltb_false; lra).
  split.
  - rewrite (filter_all (fun x => Qleb t x) l1).
    + cbn [List.length]. lia.
    + eapply Forall_impl; [|exact H1]. intros y Hy. apply Qleb_true, Hy.
  - rewrite (filter_none (fun x => Qltb t x) l2).
    + pose proof (filter_length_le (fun x => Qltb t x) l1). cbn [List.length].
      lia.
    + eapply Forall_impl; [|exact H2]. intros y Hy. apply Qltb_false, Hy.
Qed.

End Threshold.

(** X19: [determine_threshold] answers 0 when there is no customer, and
    otherwise with the net total of a customer such that at least [k]
    customers have a net total that is not smaller, and fewer than [k]
    customers a larger one, where [k] is the whole part of the number of
    customers times the fraction, kept between 1 and the number of
    customers. *)
Theorem determine_threshold_top_fraction (customers : Customers)
    (fraction : Q) :
  let t := determine_threshold customers fraction in
  let nets := map (fun e => net_total (snd e)) customers in
  let n := Z.of_nat (List.length customers) in
  let k := Z.max 1 (Z.min n (trunc (of_int n * fraction))) in
  (customers = [] -> t = 0%Q)
  /\ (customers <> [] ->
      In t nets
      /\ k <= Z.of_nat (List.length (filter (fun x => Qleb t x) nets))
      /\ Z.of_nat (List.length (filter (fun x => Qltb t x) nets)) < k).
Proof.
  cbv zeta. split.
  - intros ->. reflexivity.
  - intros Hne. unfold determine_threshold.
    set (nets := map (fun e => net_total (snd e)) customers).
    pose proof (sorted_desc_perm nets) as Hperm.
    pose proof (sorted_desc_sorted nets) as Hsorted.
    assert (Hlen : List.length (sorted_desc nets) = List.length customers).
    { rewrite <- (Permutation_length Hperm). apply length_map. }
    destruct (sorted_desc nets) as [|x totals] eqn:Et.
    { destruct customers; [congruence|discriminate]. }
    rewrite <- Et in *. cbv zeta. rewrite Hlen.
    set (n := Z.of_nat (List.length customers)).
    set (T := trunc (of_int n * fraction)).
    assert (Hn : 1 <= n).
    { unfold n. destruct customers; [congruence|cbn [List.length]; lia]. }
    set (i := Z.to_nat (Z.max 0 (Z.min (n - 1) (T - 1)))).
    assert (Hi : (i < List.length (sorted_desc nets))%nat).
    { rewrite Hlen. unfold i. fold n. lia. }
    destruct (sorted_nth_counts (sorted_desc nets) i Hsorted Hi)
      as (H1 & H2 & H3).
    split; [|split].
    + eapply Permutation_in; [symmetry; exact Hperm|exact H1].
    + rewrite (filter_length_perm _ _ _ Hperm). unfold i in H2 |- *. lia.
    + rewrite (filter_length_perm _ _ _ Hperm). unfold i in H3 |- *. lia.
Qed.

Lemma determine_threshold_top_fraction_witness :
  let t := determine_threshold Sample3.three_customers 0.5 in
  In t (map (fun e => net_total (snd e)) Sample3.three_customers)
  /\ Qeq t 300.
Proof.
  cbv zeta. split; [|vm_compute; reflexivity].
  apply (proj2 (determine_threshold_top_fraction Sample3.three_customers 0.5)).
  vm_compute. discriminate.
Defined.

(** ** Columns found by their header *)

Lemma last_position_spec (name : string) (names : list string) (idx : nat) :
  match last_position name names idx with
  | Some j =>
      (idx <= j)%nat
      /\ nth_error names (j - idx) = Some name
      /\ forall j', (j < j')%nat -> nth_error names (j' - idx) <> Some name
  | None => ~ In name names
  end.
Proof.
  revert idx. induction names as [|x names IH]; intros idx;
    cbn [last_position]; [tauto|].
  specialize (IH (S idx)).
  destruct (last_position name names (S idx)) as [j|].
  - destruct IH as (H1 & H2 & H3). split; [lia|]. split.
    + replace (j - idx)%nat with (S (j - S idx)) by lia. exact H2.
    + intros j' Hj. replace (j' - idx)%nat with (S (j' - S idx)) by lia.
      apply H3, Hj.
  - destruct (String.eqb x name) eqn:E.
    + apply String.eqb_eq in E. subst x. split; [lia|]. split.
      * now rewrite Nat.sub_diag.
      * intros j' Hj. replace (j' - idx)%nat with (S (j' - S idx)) by lia.
        cbn [nth_error]. intros H. apply nth_error_In in H. contradiction.
    + apply String.eqb_neq in E. cbn [In]. tauto.
Qed.

Lemma nonempty_true (s : string) : nonempty s = true <-> s <> "".
Proof. destruct s; cbn; split; intros H; congruence. Qed.

Lemma header_fold_get (name : string) (cells : list (option string))
    (idx : nat) (mapping : list (string * nat)) :
  name <> "" ->
  dict_get name (header_fold cells idx mapping)
  = match last_position name (map Text.strip_some cells) idx with
    | Some j => Some j
    | None => dict_get name mapping
    end.
Proof.
  intros Hname. revert idx mapping.
  induction cells as [|cell cells IH]; intros idx mapping;
    cbn [header_fold map last_position]; [reflexivity|].
  cbv zeta. rewrite IH.
  destruct (last_position name (map Text.strip_some cells) (S idx));
    [reflexivity|].
  destruct (String.eqb (Text.strip_some cell) name) eqn:E.
  - apply String.eqb_eq in E. rewrite E.
    replace (nonempty name) with true
      by (symmetry; apply nonempty_true, Hname).
    apply dict_get_set_same.
  - apply String.eqb_neq in E.
    destruct (nonempty (Text.strip_some cell)); [|reflexivity].
    apply dict_get_set_other. congruence.
Qed.

Lemma header_fold_get_empty (cells : list (option string)) (idx : nat)
    (mapping : list (string * nat)) :
  dict_get "" (header_fold cells idx mapping) = dict_get "" mapping.
Proof.
  revert idx mapping. induction cells as [|cell cells IH]; intros idx mapping;
    cbn [header_fold]; [reflexivity|].
  cbv zeta. rewrite IH.
  destruct (nonempty (Text.strip_some cell)) eqn:E; [|reflexivity].
  apply dict_get_set_other. apply nonempty_true in E. congruence.
Qed.

Lemma build_header_index_get (header : list (option string)) (name : string) :
  match dict_get name (build_header_index header) with
  | Some i =>
      name <> ""
      /\ nth_error (map Text.strip_some header) i = Some name
      /\ forall j, (i < j)%nat ->
           nth_error (map Text.strip_some header) j <> Some name
  | None => name = "" \/ ~ In name (map Text.strip_some header)
  end.
Proof.
  unfold build_header_index.
  destruct (string_dec name "") as [->|Hname].
  { rewrite header_fold_get_empty. cbn. now left. }
  rewrite (header_fold_get _ _ _ _ Hname).
  pose proof (last_position_spec name (map Text.strip_some header) 0) as H.
  destruct (last_position name (map Text.strip_some header) 0) as [j|].
  - destruct H as (_ & H2 & H3). rewrite Nat.sub_0_r in H2.
    split; [exact Hname|]. split; [exact H2|].
    intros j' Hj. specialize (H3 j' Hj). now rewrite Nat.sub_0_r in H3.
  - cbn [dict_get]. now right.
Qed.

(** X20: [lookup_index] on the index of [build_header_index] answers with
    the last column whose name, stripped of blanks, is the first candidate
    that names a column at all; columns without a name are never found, and
    the answer is [None] exactly when no candidate names a column. *)
Theorem lookup_index_last_column (header : list (option string))
    (candidates : list string) :
  let names := map Text.strip_some header in
  match lookup_index (build_header_index header) candidates with
  | Some i =>
      exists before c after,
        candidates = before ++ c :: after
        /\ c <> ""
        /\ nth_error names i = Some c
        /\ (forall j, (i < j)%nat -> nth_error names j <> Some c)
        /\ Forall (fun b => b = "" \/ ~ In b names) before
  | None => Forall (fun c => c = "" \/ ~ In c names) candidates
  end.
Proof.
  cbv zeta. induction candidates as [|c rest IH]; cbn [lookup_index].
  - constructor.
  - pose proof (build_header_index_get header c) as Hc.
    destruct (dict_get c (build_header_index header)) as [i|].
    + destruct Hc as (H1 & H2 & H3).
      exists [], c, rest. repeat split; auto.
    + destruct (lookup_index (build_header_index header) rest) as [i|].
      * destruct IH as (before & c' & after & -> & H1 & H2 & H3 & H4).
        exists (c :: before), c', after. repeat split; auto.
      * constructor; assumption.
Qed.

Lemma lookup_index_last_column_witness :
  lookup_index (build_header_index Sample3.header) ["电话"; "手机号"]
  = Some 3%nat
  /\ forall j, (3 < j)%nat ->
       nth_error (map Text.strip_some Sample3.header) j <> Some "手机号".
Proof.
  assert (E : lookup_index (build_header_index Sample3.header)
                ["电话"; "手机号"] = Some 3%nat) by (vm_compute; reflexivity).
  split; [exact E|].
  pose proof (lookup_index_last_column Sample3.header ["电话"; "手机号"]) as H.
  cbv zeta in H. rewrite E in H.
  destruct H as (before & c & after & _ & _ & H1 & H2 & _).
  assert (Hc : c = "手机号") by (vm_compute in H1; congruence).
  rewrite <- Hc. exact H2.
Defined.

(** ** The contact log *)

Lemma contact_step_get (contact_map : list (string * Z)) (row : ContactRow)
    (phone : string) :
  dict_get phone (contact_step contact_map row)
  = match row with
    | (Some ph, Some d) =>
        if String.eqb ph phone && nonempty ph then
          match dict_get phone contact_map with
          | Some prev => Some (if prev <? d then d else prev)
          | None => Some d
          end
        else dict_get phone contact_map
    | _ => dict_get phone contact_map
    end.
Proof.
  destruct row as [[ph|] [d|]]; cbn [contact_step truthy negb];
    try reflexivity; try (destruct ph; reflexivity).
  destruct ph as [|c ph]; [now rewrite andb_false_r|].
  cbn [truthy negb nonempty]. rewrite andb_true_r.
  destruct (String.eqb (String c ph) phone) eqn:E.
  - apply String.eqb_eq in E. subst phone.
    destruct (dict_get (String c ph) contact_map) as [prev|] eqn:Eg.
    + destruct (prev <? d); [apply dict_get_set_same|exact Eg].
    + apply dict_get_set_same.
  - apply String.eqb_neq in E.
    destruct (dict_get (String c ph) contact_map) as [prev|].
    + destruct (prev <? d); [|reflexivity].
      apply dict_get_set_other. congruence.
    + apply dict_get_set_other. congruence.
Qed.

(** X21: the contact log keeps, for every phone number, the latest of the
    dates of its rows: a number is in the log exactly when it is not empty
    and a row holds it together with a date, and its date is then the
    date of such a row that no other such row exceeds. *)
Theorem load_contact_log_latest (rows : list ContactRow) (phone : string) :
  match dict_get phone (load_contact_log rows) with
  | Some d =>
      phone <> ""
      /\ In (Some phone, Some d) rows
      /\ forall d', In (Some phone, Some d') rows -> d' <= d
  | None => phone = "" \/ forall d', ~ In (Some phone, Some d') rows
  end.
Proof.
  unfold load_contact_log.
  induction rows as [|row rows IH] using rev_ind; [cbn; now right|].
  rewrite fold_left_app. cbn [fold_left]. rewrite contact_step_get.
  set (log := fold_left contact_step rows []) in *.
  assert (Hold : forall d', In (Some phone, Some d') (rows ++ [row]) ->
                 In (Some phone, Some d') rows \/ row = (Some phone, Some d')).
  { intros d' H. apply in_app_or in H. destruct H as [H|[H|[]]]; auto. }
  destruct row as [[ph|] [d|]].
  2-4: destruct (dict_get phone log) as [d0|];
       [destruct IH as (H1 & H2 & H3); split; [exact H1|]; split;
          [apply in_or_app; now left|];
          intros d' H; apply Hold in H; destruct H as [H|H];
          [apply H3, H|discriminate]
       |destruct IH as [IH|IH]; [now left|right];
          intros d' H; apply Hold in H; destruct H as [H|H];
          [apply (IH d'), H|discriminate]].
  destruct (String.eqb ph phone && nonempty ph) eqn:E.
  - apply andb_true_iff in E. destruct E as [E1 E2].
    apply String.eqb_eq in E1. subst ph. apply nonempty_true in E2.
    destruct (dict_get phone log) as [prev|].
    + destruct IH as (H1 & H2 & H3). split; [exact H1|].
      destruct (prev <? d) eqn:Ed.
      * apply Z.ltb_lt in Ed. split; [apply in_or_app; right; now left|].
        intros d' H. apply Hold in H. destruct H as [H|H].
        -- specialize (H3 d' H). lia.
        -- inversion H. lia.
      * apply Z.ltb_ge in Ed. split; [apply in_or_app; now left|].
        intros d' H. apply Hold in H. destruct H as [H|H].
        -- apply H3, H.
        -- inversion H. lia.
    + split; [exact E2|]. split; [apply in_or_app; right; now left|].
      intros d' H. apply Hold in H. destruct H as [H|H].
      * destruct IH as [IH|IH]; [contradiction|]. now apply IH in H.
      * inversion H. lia.
  - assert (Hrow : forall d', (Some ph, Some d) = (Some phone, Some d') ->
                              phone = "").
    { intros d' H. inversion H. subst ph.
      rewrite String.eqb_refl in E. cbn in E.
      destruct phone; [reflexivity|discriminate]. }
    destruct (dict_get phone log) as [d0|].
    + destruct IH as (H1 & H2 & H3). split; [exact H1|].
      split; [apply in_or_app; now left|].
      intros d' H. apply Hold in H. destruct H as [H|H]; [apply H3, H|].
      apply Hrow in H. contradiction.
    + destruct IH as [IH|IH]; [now left|].
      destruct (string_dec phone "") as [Hp|Hp]; [now left|right].
      intros d' H. apply Hold in H. destruct H as [H|H]; [apply (IH d'), H|].
      apply Hrow in H. contradiction.
Qed.

Lemma load_contact_log_latest_witness :
  dict_get "13700000001" (load_contact_log Sample3.contact_rows)
  = Some (Sample.run_day - 2)
  /\ Sample.run_day - 9 <= Sample.run_day - 2.
Proof.
  assert (E : dict_get "13700000001" (load_contact_log Sample3.contact_rows)
              = Some (Sample.run_day - 2)) by (vm_compute; reflexivity).
  split; [exact E|].
  pose proof (load_contact_log_latest Sample3.contact_rows "13700000001") as H.
  rewrite E in H. destruct H as (_ & _ & H).
  apply H. left. reflexivity.
Defined.

(** ** The personal cycle as an average gap *)

Lemma insert_unique_In (d x : Z) (l : list Z) :
  In x (insert_unique d l) <-> x = d \/ In x l.
Proof.
  induction l as [|y l IH]; cbn [insert_unique].
  - cbn. intuition.
  - destruct (d <? y); [cbn; intuition|].
    destruct (d =? y) eqn:E.
    + apply Z.eqb_eq in E. subst y. cbn. intuition.
    + cbn [In]. rewrite IH. intuition.
Qed.

Lemma insert_unique_sorted (d : Z) (l : list Z) :
  StronglySorted Z.lt l -> StronglySorted Z.lt (insert_unique d l).
Proof.
  induction 1 as [|y l Hs IH Hy]; cbn [insert_unique].
  - constructor; constructor.
  - destruct (d <? y) eqn:E1.
    + apply Z.ltb_lt in E1. constructor; [constructor; assumption|].
      constructor; [exact E1|].
      eapply Forall_impl; [|exact Hy]. cbn. intros z Hz. lia.
    + destruct (d =? y) eqn:E2; [constructor; assumption|].
      apply Z.ltb_ge in E1. apply Z.eqb_neq in E2.
      constructor; [exact IH|].
      apply Forall_forall. intros z Hz. apply insert_unique_In in Hz.
      destruct Hz as [->|Hz]; [lia|].
      rewrite Forall_forall in Hy. apply Hy, Hz.
Qed.

Lemma sorted_dates_In (history : list (Z * Q)) (d : Z) :
  In d (sorted_dates history) <-> In d (map fst history).
Proof.
  induction history as [|e history IH]; cbn [sorted_dates fold_right map].
  - tauto.
  - fold (sorted_dates history). rewrite insert_unique_In, IH. cbn [In].
    intuition.
Qed.

Lemma sorted_dates_sorted (history : list (Z * Q)) :
  StronglySorted Z.lt (sorted_dates history).
Proof.
  induction history as [|e history IH]; cbn [sorted_dates fold_right].
  - constructor.
  - apply insert_unique_sorted, IH.
Qed.

Lemma last_default {A : Type} (x : A) (l : list A) (d d' : A) :
  last (x :: l) d = last (x :: l) d'.
Proof.
  revert x. induction l as [|y l IH]; intros x; [reflexivity|].
  change (last (y :: l) d = last (y :: l) d'). apply IH.
Qed.

Lemma last_cons {A : Type} (x : A) (l : list A) (d : A) :
  last (x :: l) d = last l x.
Proof.
  destruct l as [|y l]; [reflexivity|].
  change (last (y :: l) d = last (y :: l) x). apply last_default.
Qed.

(** Over dates in increasing order the gaps add up to the span. *)
Lemma intervals_from_span (d0 : Z) (later : list Z) :
  StronglySorted Z.lt (d0 :: later) ->
  forall acc,
    fold_left Z.add (intervals_from d0 later) acc = acc + (last later d0 - d0)
    /\ List.length (intervals_from d0 later) = List.length later.
Proof.
  revert d0. induction later as [|d1 later IH]; intros d0 Hs acc.
  - cbn. split; [lia|reflexivity].
  - inversion Hs as [|? ? Hs' Hall]. subst.
    inversion Hall as [|? ? Hd1 _]. subst.
    cbn [intervals_from]. cbv zeta.
    replace (0 <? d1 - d0) with true by (symmetry; apply Z.ltb_lt; lia).
    cbn [fold_left List.length].
    destruct (IH d1 Hs' (acc + (d1 - d0))) as [H1 H2].
    rewrite H1, H2. split; [|reflexivity].
    rewrite last_cons. lia.
Qed.

Lemma sorted_head_least (d0 : Z) (later : list Z) (x : Z) :
  StronglySorted Z.lt (d0 :: later) -> In x (d0 :: later) -> d0 <= x.
Proof.
  intros Hs [->|Hx]; [lia|].
  inversion Hs as [|? ? _ Hall]. subst. rewrite Forall_forall in Hall.
  specialize (Hall x Hx). lia.
Qed.

Lemma sorted_last_greatest (d0 : Z) (later : list Z) (x : Z) :
  StronglySorted Z.lt (d0 :: later) -> In x (d0 :: later) ->
  x <= last later d0 /\ In (last later d0) (d0 :: later).
Proof.
  revert d0 x. induction later as [|d1 later IH]; intros d0 x Hs Hx.
  - destruct Hx as [->|[]]. cbn. split; [lia|now left].
  - inversion Hs as [|? ? Hs' Hall]. subst.
    rewrite last_cons.
    destruct Hx as [->|Hx].
    + destruct (IH d1 d1 Hs' (or_introl eq_refl)) as [H1 H2].
      inversion Hall. subst. split; [lia|now right].
    + destruct (IH d1 x Hs' Hx) as [H1 H2]. split; [exact H1|now right].
Qed.

(** X22: for a customer of [load_customers] with two valid orders or more,
    the personal cycle is the span from the first to the last order date
    divided by the number of distinct order dates less one; it is one day
    when all the dated orders fall on one date. *)
Theorem personal_cycle_average_span (rows : list Row) (key : string)
    (st : CustomerStats) (f l : Z) :
  In (key, st) (load_customers rows) ->
  2 <= orders st ->
  first_order st = Some f ->
  last_order st = Some l ->
  let dates := sorted_dates (order_history st) in
  (1 <= List.length dates)%nat
  /\ ((2 <= List.length dates)%nat ->
      personal_cycle_days st
      = Some (zdiv (l - f) (Z.of_nat (List.length dates) - 1)))
  /\ (List.length dates = 1%nat ->
      f = l /\ personal_cycle_days st = Some 1%Q).
Proof.
  intros Hin Ho Hf Hl. cbv zeta.
  assert (Hdates : Forall (fun e => order_dates_consistent (snd e))
                          (load_customers rows)).
  { apply load_customers_invariant.
    - intros k. reflexivity.
    - intros st0 r. apply ingest_row_dates. }
  rewrite Forall_forall in Hdates. specialize (Hdates _ Hin).
  cbn [snd] in Hdates. unfold order_dates_consistent in Hdates.
  rewrite Hf, Hl in Hdates. destruct Hdates as (Hfin & Hlin & Hall).
  pose proof (sorted_dates_sorted (order_history st)) as Hs.
  apply sorted_dates_In in Hfin, Hlin.
  assert (Hbound : forall x, In x (sorted_dates (order_history st)) ->
                             f <= x <= l).
  { intros x Hx. apply sorted_dates_In in Hx. apply in_map_iff in Hx.
    destruct Hx as (e & <- & He). rewrite Forall_forall in Hall.
    apply Hall, He. }
  unfold personal_cycle_days. rewrite Hf, Hl.
  replace (2 <=? orders st) with true by (symmetry; apply Z.leb_le, Ho).
  destruct (sorted_dates (order_history st)) as [|d0 [|d1 later]] eqn:Ed.
  - destruct Hfin.
  - destruct Hfin as [<-|[]]. destruct Hlin as [<-|[]].
    split; [cbn; lia|]. split; [cbn; lia|]. intros _. split; [reflexivity|].
    cbv zeta.
    replace (1 <? orders st) with true by (symmetry; apply Z.ltb_lt; lia).
    rewrite Z.sub_diag. change (0 <? 0) with false. cbv iota.
    replace (orders st - 1 =? 0) with false
      by (symmetry; apply Z.eqb_neq; lia).
    replace (Qleb (zdiv 0 (orders st - 1)) 0) with true; [reflexivity|].
    symmetry. apply Qleb_true. unfold zdiv. cbn. unfold Qdiv.
    rewrite Qmult_0_l. lra.
  - split; [cbn; lia|]. split; [|cbn; lia]. intros _. cbv zeta.
    destruct (intervals_from_span d0 (d1 :: later) Hs 0) as [Hsum Hlen].
    destruct (intervals_from d0 (d1 :: later)) as [|g gs] eqn:Eint;
      [cbn in Hlen; lia|].
    unfold zsum. rewrite Hsum, Hlen.
    assert (Hd0 : d0 = f).
    { pose proof (sorted_head_least d0 (d1 :: later) f Hs Hfin).
      pose proof (Hbound d0 (or_introl eq_refl)). lia. }
    destruct (sorted_last_greatest d0 (d1 :: later) l Hs Hlin) as [H1 H2].
    pose proof (Hbound _ H2) as H3.
    assert (Hlast : last (d1 :: later) d0 = l) by lia.
    rewrite Hlast, Hd0. f_equal. f_equal.
    cbn [List.length]. lia.
Qed.

Lemma personal_cycle_average_span_witness :
  personal_cycle_days Sample.ten_orders_stats
  = Some (zdiv (Sample.run_day - 40 - (Sample.run_day - 310))
               (Z.of_nat (List.length (sorted_dates (order_history
                                          Sample.ten_orders_stats))) - 1)).
Proof.
  refine (proj1 (proj2 (personal_cycle_average_span Sample.ten_orders_rows
                          "13900000000" Sample.ten_orders_stats
                          (Sample.run_day - 310) (Sample.run_day - 40)
                          _ _ _ _)) _).
  - vm_compute. left. reflexivity.
  - vm_compute. discriminate.
  - vm_compute. reflexivity.
  - vm_compute. reflexivity.
  - vm_compute. lia.
Defined.

(** ** Anniversary dates *)

Lemma days_in_month_bounds (y m : Z) :
  28 <= Calendar.days_in_month y m <= 31.
Proof.
  unfold Calendar.days_in_month.
  destruct (m =? 2); [destruct (Calendar.is_leap y); lia|].
  destruct ((m =? 4) || (m =? 6) || (m =? 9) || (m =? 11)); lia.
Qed.

Lemma make_date_some (y m d : Z) (x : Date) :
  make_date y m d = Some x ->
  x = mkDate y m d
  /\ 1 <= y <= 9999 /\ 1 <= m <= 12
  /\ 1 <= d <= Calendar.days_in_month y m.
Proof.
  unfold make_date.
  destruct ((1 <=? y) && (y <=? 9999) && (1 <=? m) && (m <=? 12)
            && (1 <=? d) && (d <=? Calendar.days_in_month y m)) eqn:E;
    [|discriminate].
  intros H. inversion H. split; [reflexivity|].
  repeat (apply andb_true_iff in E; destruct E as [E ?]).
  repeat match goal with
         | H : (_ <=? _) = true |- _ => apply Z.leb_le in H
         end.
  lia.
Qed.

Lemma make_date_none (y m d : Z) :
  make_date y m d = None ->
  1 <= m <= 12 -> 1 <= d <= Calendar.days_in_month y m ->
  y < 1 \/ 9999 < y.
Proof.
  unfold make_date. intros H Hm Hd.
  destruct (1 <=? y) eqn:E1; [|apply Z.leb_gt in E1; lia].
  destruct (y <=? 9999) eqn:E2; [|apply Z.leb_gt in E2; lia].
  replace (1 <=? m) with true in H by (symmetry; apply Z.leb_le; lia).
  replace (m <=? 12) with true in H by (symmetry; apply Z.leb_le; lia).
  replace (1 <=? d) with true in H by (symmetry; apply Z.leb_le; lia).
  replace (d <=? Calendar.days_in_month y m) with true in H
    by (symmetry; apply Z.leb_le; lia).
  discriminate.
Qed.

Lemma shift_months_some (base r : Date) (delta : Z) :
  1 <= d_day base ->
  shift_months base delta = Some r ->
  month_index r = month_index base + delta
  /\ 1 <= d_year r <= 9999
  /\ 1 <= d_month r <= 12
  /\ d_day r
     = Z.min (d_day base) (Calendar.days_in_month (d_year r) (d_month r))
  /\ 1 <= d_day r.
Proof.
  intros Hd. unfold shift_months. cbv zeta. intros H.
  apply make_date_some in H. destruct H as (-> & Hy & Hm & Hday).
  unfold month_index. cbn [d_year d_month d_day].
  set (t := d_year base * 12 + d_month base - 1 + delta) in *.
  pose proof (Z.div_mod t 12 ltac:(lia)).
  repeat split; lia.
Qed.

Lemma shift_months_none (base : Date) (delta : Z) :
  1 <= d_day base ->
  shift_months base delta = None ->
  month_index base + delta < 12 \/ 120000 <= month_index base + delta.
Proof.
  intros Hd. unfold shift_months, month_index. cbv zeta.
  set (t := d_year base * 12 + d_month base - 1 + delta).
  intros H.
  pose proof (Z.mod_pos_bound t 12 ltac:(lia)) as Hmod.
  pose proof (days_in_month_bounds (t / 12) (t mod 12 + 1)) as Hdim.
  apply make_date_none in H; [|lia|lia].
  pose proof (Z.div_mod t 12 ltac:(lia)). lia.
Qed.

Lemma shift_months_valid (base r : Date) (delta : Z) :
  valid_date base ->
  shift_months base delta = Some r ->
  month_index r = month_index base + delta /\ valid_date r.
Proof.
  intros Hv E. unfold valid_date in Hv.
  pose proof (make_date_some _ _ _ _ Hv) as (_ & Hy & Hm & Hd).
  split; [apply shift_months_some; [lia|exact E]|].
  unfold shift_months in E. cbv zeta in E.
  pose proof (make_date_some _ _ _ _ E) as (Er & _).
  unfold valid_date. rewrite Er at 1 2 3. cbn [d_year d_month d_day].
  rewrite E. reflexivity.
Qed.

(** X23: [shift_months] moves a date by exactly [delta] calendar months and
    keeps the day of the month, cut down to the last day of the month it
    lands in (so a day up to the 28th is always kept); it raises an error
    exactly when the month it lands in is outside the years 1 to 9999, and
    a shift by no month gives the date back. *)
Theorem shift_months_by_calendar_months (base : Date) (delta : Z) :
  valid_date base ->
  match shift_months base delta with
  | Some r =>
      valid_date r
      /\ month_index r = month_index base + delta
      /\ d_day r
         = Z.min (d_day base) (Calendar.days_in_month (d_year r) (d_month r))
      /\ (d_day base <= 28 -> d_day r = d_day base)
  | None => month_index base + delta < 12 \/ 120000 <= month_index base + delta
  end
  /\ (12 <= month_index base + delta < 120000 ->
      shift_months base delta <> None)
  /\ shift_months base 0 = Some base.
Proof.
  intros Hv. unfold valid_date in Hv.
  pose proof (make_date_some _ _ _ _ Hv) as (_ & Hy & Hm & Hd).
  split; [|split].
  - destruct (shift_months base delta) as [r|] eqn:E.
    + pose proof E as E'. apply shift_months_some in E'; [|lia].
      destruct E' as (H1 & H2 & H3 & H4 & H5).
      pose proof (days_in_month_bounds (d_year r) (d_month r)).
      split; [|repeat split; try assumption; lia].
      apply (shift_months_valid base r delta Hv E).
    + apply shift_months_none in E; [exact E|lia].
  - intros Hrange H.
    unfold shift_months in H. cbv zeta in H. fold (month_index base) in H.
    set (t := month_index base + delta) in *.
    pose proof (Z.mod_pos_bound t 12 ltac:(lia)) as Hmod.
    pose proof (days_in_month_bounds (t / 12) (t mod 12 + 1)) as Hdim.
    apply make_date_none in H; [|lia|lia].
    pose proof (Z.div_mod t 12 ltac:(lia)). lia.
  - unfold shift_months. cbv zeta. rewrite Z.add_0_r.
    replace (d_year base * 12 + d_month base - 1)
      with ((d_month base - 1) + d_year base * 12) by lia.
    rewrite Z.div_add, Z.mod_add by lia.
    rewrite Z.div_small, Z.mod_small by lia.
    replace (0 + d_year base) with (d_year base) by lia.
    replace (d_month base - 1 + 1) with (d_month base) by lia.
    rewrite Z.min_l by lia. exact Hv.
Qed.

Lemma shift_months_by_calendar_months_witness :
  shift_months (mkDate 2026 3 31) (-1) = Some (mkDate 2026 2 28)
  /\ shift_months (mkDate 2026 3 31) 0 = Some (mkDate 2026 3 31).
Proof.
  split; [reflexivity|].
  apply (shift_months_by_calendar_months (mkDate 2026 3 31) 0). reflexivity.
Defined.

Lemma collect_dates_some (l : list (option Date)) (xs : list Date) :
  collect_dates l = Some xs <-> l = map Some xs.
Proof.
  revert xs. induction l as [|[x|] l IH]; intros xs; cbn [collect_dates].
  - split; intros H.
    + injection H as <-. reflexivity.
    + destruct xs; [reflexivity|discriminate].
  - destruct (collect_dates l) as [ys|] eqn:E.
    + split; intros H.
      * injection H as <-. cbn. f_equal. now apply IH.
      * destruct xs as [|x' xs]; [discriminate|]. cbn in H.
        injection H as -> H. apply IH in H. injection H as ->. reflexivity.
    + split; intros H; [discriminate|].
      destruct xs as [|x' xs]; [discriminate|]. cbn in H.
      injection H as _ H. apply IH in H. discriminate.
  - split; intros H; [discriminate|]. destruct xs; discriminate.
Qed.

Lemma collect_dates_none (l : list (option Date)) :
  collect_dates l = None <-> In None l.
Proof.
  induction l as [|[x|] l IH]; cbn [collect_dates In].
  - split; [discriminate|tauto].
  - destruct (collect_dates l); split; intros H.
    + discriminate.
    + destruct H as [H|H]; [discriminate|]. apply IH in H. discriminate.
    + right. now apply IH.
    + reflexivity.
  - split; [now left|reflexivity].
Qed.

Lemma unique_offsets_In (offsets : list Z) (o : Z) :
  In o (unique_offsets offsets) <-> In o offsets /\ 0 < o.
Proof.
  unfold unique_offsets. induction offsets as [|x offsets IH]; cbn [filter].
  - cbn. tauto.
  - destruct (0 <? x) eqn:E.
    + apply Z.ltb_lt in E. cbn [fold_right]. rewrite insert_unique_In, IH.
      cbn [In]. split.
      * intros [->|[H1 H2]]; auto.
      * intros [[->|H1] H2]; auto.
    + apply Z.ltb_ge in E. rewrite IH. cbn [In]. split.
      * intros [H1 H2]. auto.
      * intros [[->|H1] H2]; [lia|auto].
Qed.

Lemma unique_offsets_sorted (offsets : list Z) :
  StronglySorted Z.lt (unique_offsets offsets).
Proof.
  unfold unique_offsets.
  induction (filter (fun offset => 0 <? offset) offsets) as [|x l IH];
    cbn [fold_right]; [constructor|].
  apply insert_unique_sorted, IH.
Qed.

(** X24: [build_anniversary_dates] gives one date for every distinct
    positive offset and none for the others, each the given number of
    calendar months before the base date, the dates going back in time
    month by month without a repeat; it raises an error exactly when a
    positive offset leads before the year 1. *)
Theorem build_anniversary_dates_months (base : Date) (offsets : list Z) :
  valid_date base ->
  match build_anniversary_dates base offsets with
  | Some dates =>
      StronglySorted (fun x y => month_index y < month_index x) dates
      /\ Forall (fun r => valid_date r /\ month_index r < month_index base)
                dates
      /\ (forall i,
            In i (map month_index dates)
            <-> exists o, In o offsets /\ 0 < o /\ i = month_index base - o)
  | None => exists o, In o offsets /\ 0 < o /\ month_index base - o < 12
  end.
Proof.
  intros Hv. unfold build_anniversary_dates.
  pose proof (make_date_some _ _ _ _ Hv) as (_ & Hy & Hm & Hd).
  pose proof (unique_offsets_sorted offsets) as Hs.
  pose proof (unique_offsets_In offsets) as Hin.
  destruct (collect_dates _) as [dates|] eqn:E.
  - apply collect_dates_some in E.
    assert (Hall : Forall2 (fun o r => shift_months base (- o) = Some r)
                     (unique_offsets offsets) dates).
    { clear Hs Hin. revert dates E.
      induction (unique_offsets offsets) as [|o l IH]; intros dates E;
        destruct dates as [|r dates]; try discriminate; constructor.
      - cbn in E. now inversion E.
      - apply IH. cbn in E. now inversion E. }
    clear E.
    assert (Hidx : Forall2 (fun o r => month_index r = month_index base - o
                                       /\ valid_date r)
                     (unique_offsets offsets) dates).
    { eapply Forall2_impl; [|exact Hall]. cbv beta. intros o r H.
      destruct (shift_months_valid base r (- o) Hv H) as [H1 H2].
      split; [lia|assumption]. }
    clear Hall.
    split; [|split].
    + revert Hs Hidx. generalize (unique_offsets offsets). intros l Hs Hidx.
      induction Hidx as [|o r l dates [H1 H2] Hrest IH]; [constructor|].
      inversion Hs as [|? ? Hs' Hlt]. subst.
      constructor; [apply IH, Hs'|].
      clear IH Hs Hs'. induction Hrest as [|o' r' l dates [H3 H4] Hrest IH];
        [constructor|].
      inversion Hlt. subst. constructor; [lia|apply IH; assumption].
    + assert (Hpos : Forall (fun o => 0 < o) (unique_offsets offsets)).
      { apply Forall_forall. intros o Ho. now apply Hin in Ho. }
      revert Hpos Hidx. generalize (unique_offsets offsets). intros l Hpos Hidx.
      induction Hidx as [|o r l dates [H1 H2] Hrest IH]; [constructor|].
      inversion Hpos. subst. constructor; [split; [assumption|lia]|].
      apply IH. assumption.
    + intros i. split.
      * intros Hi. apply in_map_iff in Hi. destruct Hi as (r & <- & Hr).
        assert (Ho : exists o, In o (unique_offsets offsets)
                               /\ month_index r = month_index base - o).
        { clear Hs Hin. induction Hidx as [|o r' l dates [H1 H2] Hrest IH];
            [destruct Hr|].
          destruct Hr as [->|Hr].
          - exists o. split; [now left|exact H1].
          - destruct (IH Hr) as (o' & Ho' & H'). exists o'.
            split; [now right|exact H']. }
        destruct Ho as (o & Ho & H'). apply Hin in Ho.
        exists o. tauto.
      * intros (o & Ho & Hpos & ->).
        assert (Ho' : In o (unique_offsets offsets)) by (apply Hin; tauto).
        clear Hs Hin. induction Hidx as [|o' r l dates [H1 H2] Hrest IH];
          [destruct Ho'|].
        destruct Ho' as [->|Ho'].
        -- left. exact H1.
        -- right. apply IH, Ho'.
  - apply collect_dates_none in E. apply in_map_iff in E.
    destruct E as (o & E & Ho). apply Hin in Ho.
    exists o. split; [tauto|]. split; [tauto|].
    apply shift_months_none in E; [|lia].
    unfold month_index in *. lia.
Qed.

Lemma build_anniversary_dates_months_witness :
  build_anniversary_dates (mkDate 2026 11 4) [12; 6; 12; 0; -3]
  = Some [mkDate 2026 5 4; mkDate 2025 11 4]
  /\ StronglySorted (fun x y => month_index y < month_index x)
       [mkDate 2026 5 4; mkDate 2025 11 4].
Proof.
  split; [reflexivity|].
  exact (proj1 (build_anniversary_dates_months (mkDate 2026 11 4)
                  [12; 6; 12; 0; -3] eq_refl)).
Defined.

(** ** Recommended actions *)

Section Recommendations.

Let spike : string * string := ("退货激增", sop_after_sales).
Let review : string * string := ("退货率", sop_quality_review).

Let settled (seen : list (string * string)) : Prop :=
  seen = [] \/ seen = [spike] \/ seen = [review]
  \/ seen = [spike; review] \/ seen = [review; spike].

Lemma priority_step (seen : list (string * string)) (tag : string) :
  settled seen ->
  let seen' := match dict_get tag priority_mapping with
               | Some action => dict_set tag action seen
               | None => seen
               end in
  settled seen'
  /\ (forall k, In k (map fst seen') <-> In k (map fst seen)
                \/ (k = tag /\ (tag = "退货激增" \/ tag = "退货率"))).
Proof.
  intros Hs. cbv zeta. unfold priority_mapping. cbn [dict_get].
  destruct (String.eqb "退货激增" tag) eqn:E1.
  { apply String.eqb_eq in E1. subst tag. unfold settled, spike, review in *.
    destruct Hs as [-> | [-> | [-> | [-> | ->]]]]; cbn; split; auto 10;
      intros k; intuition. }
  destruct (String.eqb "退货率" tag) eqn:E2.
  { apply String.eqb_eq in E2. subst tag. unfold settled, spike, review in *.
    destruct Hs as [-> | [-> | [-> | [-> | ->]]]]; cbn; split; auto 10;
      intros k; intuition. }
  apply String.eqb_neq in E1, E2. split; [exact Hs|].
  intros k. split; [now left|]. intros [H|(_ & [H|H])]; congruence.
Qed.

Lemma priority_seen (tags : list string) (seen : list (string * string)) :
  settled seen ->
  settled (collect_seen priority_mapping tags seen)
  /\ (forall k, In k (map fst (collect_seen priority_mapping tags seen))
                <-> In k (map fst seen)
                    \/ (In k tags /\ (k = "退货激增" \/ k = "退货率"))).
Proof.
  revert seen. induction tags as [|tag tags IH]; intros seen Hs;
    cbn [collect_seen fold_left].
  - split; [exact Hs|]. intros k. cbn. tauto.
  - destruct (priority_step seen tag Hs) as [H1 H2]. cbv zeta in H1, H2.
    destruct (IH _ H1) as [H3 H4]. split; [exact H3|].
    intros k. unfold collect_seen in H4. rewrite H4, H2. cbn [In].
    split.
    + intros [[H | (-> & H)] | (H & H')]; auto.
    + intros [H | ([-> | H] & H')]; auto.
Qed.

Lemma collect_seen_values (P : string -> Prop)
    (mapping : list (string * string)) (tags : list string)
    (seen : list (string * string)) :
  Forall (fun e => P (snd e)) mapping ->
  Forall (fun e => P (snd e)) seen ->
  Forall (fun e => P (snd e)) (collect_seen mapping tags seen).
Proof.
  intros Hm. revert seen. induction tags as [|tag tags IH]; intros seen Hs;
    cbn [collect_seen fold_left]; [exact Hs|].
  apply IH. destruct (dict_get tag mapping) as [action|] eqn:E; [|exact Hs].
  apply dict_set_values; [|exact Hs].
  apply dict_get_In in E. rewrite Forall_forall in Hm. apply (Hm _ E).
Qed.

Lemma prefix_append (p s tail : string) :
  String.prefix p s = true -> String.prefix p (s ++ tail) = true.
Proof.
  revert s. induction p as [|c p IH]; intros s Hs.
  - destruct (s ++ tail)%string; reflexivity.
  - destruct s as [|c' s]; [discriminate|].
    cbn [append String.prefix] in Hs |- *.
    destruct (ascii_dec c c'); [|discriminate]. apply IH, Hs.
Qed.

Lemma join_prefix (p sep : string) (parts : list string) :
  parts <> [] ->
  Forall (fun s => String.prefix p s = true) parts ->
  String.prefix p (join sep parts) = true.
Proof.
  intros Hne Hall. destruct Hall as [|s parts Hs Hall]; [congruence|].
  cbn [join]. destruct parts as [|s' parts]; [exact Hs|].
  apply prefix_append, Hs.
Qed.

Lemma seen_join_prefix (seen : list (string * string)) :
  seen <> [] ->
  Forall (fun e => String.prefix "【" (snd e) = true) seen ->
  String.prefix "【" (join ", " (map snd seen)) = true.
Proof.
  intros Hne Hall. apply join_prefix.
  - destruct seen; [congruence|discriminate].
  - apply Forall_map. exact Hall.
Qed.

Lemma sop_after_sales_case (tags : list string)
    (favorite_item platform : option string) (customer_value : string) :
  In "退货激增" tags -> ~ In "退货率" tags ->
  build_sop_recommendations tags favorite_item platform customer_value
  = sop_after_sales.
Proof.
  intros H1 H2. unfold build_sop_recommendations. cbv zeta.
  destruct (priority_seen tags [] (or_introl eq_refl)) as [Hs Hk].
  assert (Hspike : In "退货激增"
                      (map fst (collect_seen priority_mapping tags []))).
  { apply Hk. right. split; [exact H1|now left]. }
  assert (Hreview : ~ In "退货率"
                        (map fst (collect_seen priority_mapping tags []))).
  { rewrite Hk. cbn [map In]. tauto. }
  unfold settled, spike, review in Hs.
  destruct Hs as [Hs|[Hs|[Hs|[Hs|Hs]]]]; rewrite Hs in *;
    cbn [map fst snd In join] in *; try reflexivity; exfalso; tauto.
Qed.

(** X25: a refund tag overrides every promotion: when the tags hold
    "退货激增" or "退货率", [build_sop_recommendations] answers with the
    after-sales check, the quality review, or both, whatever the favourite
    item, the platform and the value tier are; and every answer of the
    function opens with a bracketed heading, so that none is empty. *)
Theorem sop_refund_tags_override (tags : list string)
    (favorite_item platform : option string) (customer_value : string) :
  let r := build_sop_recommendations tags favorite_item platform
             customer_value in
  (In "退货激增" tags -> ~ In "退货率" tags -> r = sop_after_sales)
  /\ (In "退货率" tags -> ~ In "退货激增" tags -> r = sop_quality_review)
  /\ (In "退货激增" tags -> In "退货率" tags ->
      r = (sop_after_sales ++ ", " ++ sop_quality_review)%string
      \/ r = (sop_quality_review ++ ", " ++ sop_after_sales)%string)
  /\ String.prefix "【" r = true.
Proof.
  cbv zeta. unfold build_sop_recommendations. cbv zeta.
  destruct (priority_seen tags [] (or_introl eq_refl)) as [Hs Hk].
  assert (Hspike : In "退货激增" tags
                   <-> In "退货激增"
                         (map fst (collect_seen priority_mapping tags []))).
  { rewrite Hk. cbn [map In]. intuition. }
  assert (Hreview : In "退货率" tags
                    <-> In "退货率"
                          (map fst (collect_seen priority_mapping tags []))).
  { rewrite Hk. cbn [map In]. intuition. }
  unfold settled, spike, review in Hs.
  destruct Hs as [Hs|[Hs|[Hs|[Hs|Hs]]]]; rewrite Hs in *;
    cbn [map fst snd In join] in *.
  2-5: repeat split; try tauto; try reflexivity;
       try (intros H1 H2; exfalso; rewrite Hspike, Hreview in *;
            intuition discriminate);
       try (intros H1 H2; exfalso; rewrite Hspike, Hreview in *;
            intuition congruence).
  split; [tauto|]. split; [tauto|]. split; [tauto|].
  set (favorite := match favorite_item with
                   | Some (String _ _ as item) => item
                   | _ => "重点单品"
                   end).
  assert (Hvalues : forall mapping fallback,
            Forall (fun e => String.prefix "【" (snd e) = true) mapping ->
            String.prefix "【" fallback = true ->
            String.prefix "【"
              match collect_seen mapping tags [] with
              | [] => fallback
              | e :: seen => join ", " (map snd (e :: seen))
              end = true).
  { intros mapping fallback Hm Hf.
    pose proof (collect_seen_values
                  (fun s => String.prefix "【" s = true) mapping tags []
                  Hm (Forall_nil _)) as H.
    destruct (collect_seen mapping tags []) as [|e seen] eqn:E; [exact Hf|].
    apply seen_join_prefix; [discriminate|exact H]. }
  destruct (match platform with
            | Some p => nonempty p && contains "闲鱼" p
            | None => false
            end).
  { apply Hvalues; [repeat constructor|reflexivity]. }
  destruct (String.eqb customer_value "高价值").
  { apply Hvalues; [repeat constructor|reflexivity]. }
  destruct (String.eqb customer_value "中价值").
  { apply Hvalues; [repeat constructor|reflexivity]. }
  apply Hvalues; [repeat constructor|reflexivity].
Qed.

Lemma sop_refund_tags_override_witness :
  build_sop_recommendations ["长期未复购"; "退货激增"] (Some "tea")
    (Some "闲鱼") "高价值" = sop_after_sales.
Proof.
  apply (sop_refund_tags_override ["长期未复购"; "退货激增"] (Some "tea")
           (Some "闲鱼") "高价值").
  - right. left. reflexivity.
  - intros [H|[H|[]]]; discriminate.
Defined.

End Recommendations.

(** ** The tags of a customer *)

Lemma tags_shape (a : Args) (st : CustomerStats) :
  NoDup (tags a st)
  /\ Forall (fun t => In t tag_names) (tags a st)
  /\ (In "高价值活跃" (tags a st) -> tags a st = ["高价值活跃"])
  /\ (List.length (filter (fun t => existsb (String.eqb t)
                              ["高价值流失预警"; "长期未复购"; "短期未复购"])
                     (tags a st)) <= 1)%nat.
Proof.
  unfold tags. cbv zeta.
  destruct (days_since a st) as [ds|];
    repeat match goal with
           | |- context [if ?c then _ else _] =>
               match type of c with
               | bool =>
                   destruct c;
                   cbn [app existsb orb String.eqb Ascii.eqb Bool.eqb]
               end
           end;
    (split; [repeat constructor; cbn; intuition discriminate|]);
    (split; [repeat constructor; cbn; tauto|]);
    (split; [cbn; intuition discriminate|cbn; lia]).
Qed.

(** X26: the tags that [build_alert_rows] gives a customer are distinct
    names out of seven, at most one of them a recency tag, and "高价值活跃"
    only stands alone; the tag "退货率" is never given, so the action text of
    a customer with the tag "退货激增" is the after-sales check and nothing
    else. *)
Theorem refund_spike_customers_get_after_sales (a : Args)
    (st : CustomerStats) :
  NoDup (tags a st)
  /\ Forall (fun t => In t tag_names) (tags a st)
  /\ ~ In "退货率" (tags a st)
  /\ (List.length (filter (fun t => existsb (String.eqb t)
                              ["高价值流失预警"; "长期未复购"; "短期未复购"])
                     (tags a st)) <= 1)%nat
  /\ (In "高价值活跃" (tags a st) -> tags a st = ["高价值活跃"])
  /\ (In tag_refund_spike (tags a st) -> sop_actions a st = sop_after_sales).
Proof.
  destruct (tags_shape a st) as (H1 & H2 & H3 & H4).
  assert (Hno : ~ In "退货率" (tags a st)).
  { intros H. rewrite Forall_forall in H2. apply H2 in H.
    cbn in H. intuition discriminate. }
  repeat split; try assumption.
  intros Hspike. unfold sop_actions.
  apply sop_after_sales_case; assumption.
Qed.

Lemma refund_spike_customers_get_after_sales_witness :
  sop_actions Sample.args Sample.ten_orders_stats = sop_after_sales.
Proof.
  apply (refund_spike_customers_get_after_sales Sample.args
           Sample.ten_orders_stats).
  vm_compute. tauto.
Defined.

(** ** The single-order policy and the calendar *)

Lemma year_of_bounds (t : Z) :
  1 <= t ->
  let y := Calendar.year_of t in
  1 <= y
  /\ Calendar.days_before_year y < t
  /\ t <= Calendar.days_before_year y
          + (if Calendar.is_leap y then 366 else 365).
Proof.
  intros Ht. cbv zeta. unfold Calendar.year_of, Calendar.days_before_year,
    Calendar.is_leap. cbv zeta.
  destruct ((_ =? 4) || (_ =? 4)) eqn:E.
  - apply orb_true_iff in E.
    match goal with
    | |- context [if ?c then 366 else 365] => destruct c eqn:El
    end.
    + rewrite ?Z.eqb_eq in E. Z.div_mod_to_equations. lia.
    + exfalso. apply andb_false_iff in El.
      rewrite orb_false_iff, negb_false_iff in El.
      rewrite ?Z.eqb_eq, ?Z.eqb_neq in *. Z.div_mod_to_equations. lia.
  - apply orb_false_iff in E. rewrite !Z.eqb_neq in E.
    match goal with
    | |- context [if ?c then 366 else 365] => destruct c eqn:El
    end.
    + Z.div_mod_to_equations. lia.
    + Z.div_mod_to_equations. lia.
Qed.

Lemma days_before_month_step (y m : Z) :
  1 <= m ->
  Calendar.days_before_month y (m + 1)
  = Calendar.days_before_month y m + Calendar.days_in_month y m.
Proof.
  intros Hm. unfold Calendar.days_before_month.
  replace (Z.to_nat (m + 1 - 1)) with (S (Z.to_nat (m - 1))) by lia.
  cbn [Calendar.days_before_month_aux]. f_equal. f_equal. lia.
Qed.

Lemma days_before_month_13 (y : Z) :
  Calendar.days_before_month y 13
  = if Calendar.is_leap y then 366 else 365.
Proof.
  unfold Calendar.days_before_month.
  change (Z.to_nat (13 - 1)) with 12%nat.
  cbn [Calendar.days_before_month_aux]. unfold Calendar.days_in_month.
  destruct (Calendar.is_leap y); reflexivity.
Qed.

Lemma month_from_gen (y : Z) (fuel : nat) :
  forall doy m,
    1 <= m -> m + Z.of_nat fuel = 12 ->
    1 <= doy <= Calendar.days_before_month y 13
                - Calendar.days_before_month y m ->
    let m' := Calendar.month_from y doy m fuel in
    m <= m' <= 12
    /\ Calendar.days_before_month y m' - Calendar.days_before_month y m < doy
    /\ doy <= Calendar.days_before_month y m'
              - Calendar.days_before_month y m + Calendar.days_in_month y m'.
Proof.
  induction fuel as [|fuel IH]; intros doy m Hm Hfuel Hdoy; cbv zeta;
    cbn [Calendar.month_from].
  - assert (m = 12) by lia. subst m.
    pose proof (days_before_month_step y 12 ltac:(lia)) as Hs.
    change (12 + 1) with 13 in Hs. lia.
  - pose proof (days_before_month_step y m Hm) as Hs.
    destruct (doy <=? Calendar.days_in_month y m) eqn:E.
    + apply Z.leb_le in E. lia.
    + apply Z.leb_gt in E.
      specialize (IH (doy - Calendar.days_in_month y m) (m + 1)
                    ltac:(lia) ltac:(lia) ltac:(lia)).
      cbv zeta in IH. lia.
Qed.

Lemma month_from_spec (y doy : Z) :
  1 <= doy <= (if Calendar.is_leap y then 366 else 365) ->
  let m := Calendar.month_from y doy 1 11 in
  1 <= m <= 12
  /\ Calendar.days_before_month y m < doy
  /\ doy <= Calendar.days_before_month y m + Calendar.days_in_month y m.
Proof.
  intros H. cbv zeta.
  pose proof (month_from_gen y 11 doy 1 ltac:(lia) ltac:(lia)) as Hg.
  rewrite days_before_month_13 in Hg.
  change (Calendar.days_before_month y 1) with 0 in Hg.
  cbv zeta in Hg. specialize (Hg ltac:(lia)). lia.
Qed.

Lemma month_of_bounds (t : Z) :
  1 <= t ->
  let y := Calendar.year_of t in
  let m := Calendar.month_of t in
  1 <= y /\ 1 <= m <= 12
  /\ Calendar.ymd2ord y m 1 <= t
  /\ t <= Calendar.ymd2ord y m (Calendar.days_in_month y m).
Proof.
  intros Ht. cbv zeta.
  destruct (year_of_bounds t Ht) as (Hy & H1 & H2).
  unfold Calendar.month_of. cbv zeta.
  set (y := Calendar.year_of t) in *.
  destruct (month_from_spec y (t - Calendar.days_before_year y))
    as (Hm & H3 & H4); [lia|].
  set (m := Calendar.month_from y (t - Calendar.days_before_year y) 1 11) in *.
  unfold Calendar.ymd2ord. repeat split; lia.
Qed.

Lemma days_before_year_step (y : Z) :
  Calendar.days_before_year (y + 1)
  = Calendar.days_before_year y + (if Calendar.is_leap y then 366 else 365).
Proof.
  unfold Calendar.days_before_year, Calendar.is_leap. cbv zeta.
  destruct (y mod 4 =? 0) eqn:E4; destruct (y mod 100 =? 0) eqn:E100;
    destruct (y mod 400 =? 0) eqn:E400; cbn [andb orb negb];
    rewrite ?Z.eqb_eq, ?Z.eqb_neq in *; Z.div_mod_to_equations; lia.
Qed.

Lemma days_before_year_mono (y y' : Z) :
  y <= y' -> Calendar.days_before_year y <= Calendar.days_before_year y'.
Proof.
  intros H. unfold Calendar.days_before_year. cbv zeta.
  Z.div_mod_to_equations. lia.
Qed.

Lemma days_before_month_mono (y m m' : Z) :
  1 <= m <= m' ->
  Calendar.days_before_month y m <= Calendar.days_before_month y m'.
Proof.
  intros H. replace m' with (m + Z.of_nat (Z.to_nat (m' - m))) by lia.
  induction (Z.to_nat (m' - m)) as [|k IH]; [rewrite Z.add_0_r; lia|].
  replace (m + Z.of_nat (S k)) with (m + Z.of_nat k + 1) by lia.
  rewrite days_before_month_step by lia.
  pose proof (days_in_month_bounds y (m + Z.of_nat k)). lia.
Qed.

(** The first day of a month, as an ordinal less one. *)
Lemma month_start_mono (y m y' m' : Z) :
  1 <= m <= 12 -> 1 <= m' <= 12 ->
  y * 12 + m < y' * 12 + m' ->
  Calendar.days_before_year y + Calendar.days_before_month y m
  + Calendar.days_in_month y m
  <= Calendar.days_before_year y' + Calendar.days_before_month y' m'.
Proof.
  intros Hm Hm' Hlt.
  rewrite <- Z.add_assoc, <- days_before_month_step by lia.
  destruct (Z.eq_dec y y') as [<-|Hne].
  - pose proof (days_before_month_mono y (m + 1) m' ltac:(lia)). lia.
  - assert (Hy : y + 1 <= y') by lia.
    pose proof (days_before_year_mono (y + 1) y' Hy) as H1.
    rewrite days_before_year_step in H1.
    pose proof (days_before_month_mono y (m + 1) 13 ltac:(lia)) as H2.
    rewrite days_before_month_13 in H2.
    pose proof (days_before_month_mono y' 1 m' ltac:(lia)) as H3.
    change (Calendar.days_before_month y' 1) with 0 in H3. lia.
Qed.

(** The ordinals of a month are those whose year and month are its own. *)
Lemma month_of_unique (t y m : Z) :
  1 <= t -> 1 <= m <= 12 ->
  Calendar.ymd2ord y m 1 <= t <= Calendar.ymd2ord y m (Calendar.days_in_month y m) ->
  Calendar.year_of t = y /\ Calendar.month_of t = m.
Proof.
  intros Ht Hm Hrange.
  destruct (month_of_bounds t Ht) as (_ & Hm' & H1 & H2).
  set (y' := Calendar.year_of t) in *. set (m' := Calendar.month_of t) in *.
  unfold Calendar.ymd2ord in *.
  destruct (Z.lt_trichotomy (y' * 12 + m') (y * 12 + m)) as [Hlt|[Heq|Hgt]].
  - pose proof (month_start_mono y' m' y m Hm' Hm Hlt). lia.
  - split; lia.
  - pose proof (month_start_mono y m y' m' Hm Hm' Hgt). lia.
Qed.

(** X27: with the single-order policy switched on in the mode
    [previous_month], a customer is let through exactly when the last order
    falls in the calendar month before the month of the run; the last order
    is then between 1 and 61 days old. *)
Theorem single_order_previous_month (cfg : ConfigModel) (last run : Z) :
  single_order_enabled cfg = true ->
  lower (if nonempty (single_order_mode cfg) then single_order_mode cfg
         else "previous_month") = "previous_month" ->
  1 <= last -> 32 <= run ->
  (allow_single_order cfg (Some last) run = true
   <-> Calendar.year_of last * 12 + Calendar.month_of last
       = Calendar.year_of run * 12 + Calendar.month_of run - 1)
  /\ (allow_single_order cfg (Some last) run = true ->
      1 <= run - last <= 61).
Proof.
  intros Hon Hmode Hlast Hrun.
  unfold allow_single_order. rewrite Hon, Hmode. cbn [negb].
  change (String.eqb "previous_month" "previous_month") with true.
  cbv iota zeta.
  destruct (month_of_bounds run ltac:(lia)) as (Hy & Hm & H1 & H2).
  destruct (month_of_bounds last Hlast) as (Hy' & Hm' & H3 & H4).
  set (y := Calendar.year_of run) in *. set (m := Calendar.month_of run) in *.
  set (py := if m - 1 =? 0 then y - 1 else y).
  set (pm := if m - 1 =? 0 then 12 else m - 1).
  assert (Hpm : 1 <= pm <= 12 /\ py * 12 + pm = y * 12 + m - 1).
  { unfold py, pm. destruct (m - 1 =? 0) eqn:E;
      [apply Z.eqb_eq in E|apply Z.eqb_neq in E]; lia. }
  assert (Hstop : Calendar.ymd2ord py pm (Calendar.days_in_month py pm) + 1
                  = Calendar.ymd2ord y m 1).
  { unfold py, pm, Calendar.ymd2ord. destruct (m - 1 =? 0) eqn:E.
    - apply Z.eqb_eq in E. replace m with 1 by lia.
      change (Calendar.days_before_month y 1) with 0.
      pose proof (days_before_month_step (y - 1) 12 ltac:(lia)) as Hs.
      change (12 + 1) with 13 in Hs. rewrite days_before_month_13 in Hs.
      pose proof (days_before_year_step (y - 1)) as Hys.
      replace (y - 1 + 1) with y in Hys by lia. lia.
    - apply Z.eqb_neq in E.
      pose proof (days_before_month_step y (m - 1) ltac:(lia)) as Hs.
      replace (m - 1 + 1) with m in Hs by lia. lia. }
  pose proof (days_in_month_bounds py pm) as Hd1.
  pose proof (days_in_month_bounds y m) as Hd2.
  assert (Hin : (Calendar.ymd2ord py pm 1 <=? last)
                && (last <=? Calendar.ymd2ord py pm
                               (Calendar.days_in_month py pm)) = true
                <-> Calendar.ymd2ord py pm 1 <= last
                    <= Calendar.ymd2ord py pm (Calendar.days_in_month py pm)).
  { rewrite andb_true_iff, !Z.leb_le. tauto. }
  rewrite Hin. split.
  - split.
    + intros Hrange.
      destruct (month_of_unique last py pm Hlast (proj1 Hpm) Hrange)
        as [-> ->].
      exact (proj2 Hpm).
    + intros Hidx.
      assert (Calendar.year_of last = py /\ Calendar.month_of last = pm)
        as [E1 E2] by lia.
      rewrite E1, E2 in H3, H4. lia.
  - intros Hrange. unfold Calendar.ymd2ord in *. lia.
Qed.

Lemma single_order_previous_month_witness :
  allow_single_order Sample4.config_single_order
    (Some (Sample.run_day - 10)) Sample.run_day = true
  /\ 1 <= Sample.run_day - (Sample.run_day - 10) <= 61.
Proof.
  assert (H : allow_single_order Sample4.config_single_order
                (Some (Sample.run_day - 10)) Sample.run_day = true)
    by (vm_compute; reflexivity).
  split; [exact H|].
  apply (single_order_previous_month Sample4.config_single_order
           (Sample.run_day - 10) Sample.run_day).
  - reflexivity.
  - reflexivity.
  - vm_compute. discriminate.
  - vm_compute. discriminate.
  - exact H.
Defined.

(** ** The further columns of the contact log *)

Lemma info_step_get (info_map : list (string * ContactInfo)) (row : LogRow)
    (ph : string) :
  dict_get ph (info_step info_map row)
  = if match lr_phone row with
       | Some p => String.eqb p ph && nonempty p
       | None => false
       end
    then
      let info := match dict_get ph info_map with
                  | Some i => i
                  | None => no_info
                  end in
      Some (mkContact
              (updated_text (lr_employee row) (ci_employee info))
              (updated_text (lr_platform row) (ci_platform info))
              (updated_text (lr_status row) (ci_status info))
              (updated_text (lr_note row) (ci_note info))
              (updated_value (lr_next_contact row) (ci_next_contact info))
              (updated_value (lr_happiness row) (ci_happiness info)))
    else dict_get ph info_map.
Proof.
  unfold info_step. destruct (lr_phone row) as [[|c p]|]; try reflexivity.
  - now rewrite andb_false_r.
  - cbn [nonempty]. rewrite andb_true_r. cbv zeta.
    destruct (String.eqb (String c p) ph) eqn:E.
    + apply String.eqb_eq in E. subst ph. apply dict_get_set_same.
    + apply String.eqb_neq in E. apply dict_get_set_other. congruence.
Qed.

Lemma load_contact_log_extended_app (rows : list LogRow) (row : LogRow) :
  load_contact_log_extended (rows ++ [row])
  = extended_step (load_contact_log_extended rows) row.
Proof.
  unfold load_contact_log_extended. rewrite fold_left_app. reflexivity.
Qed.

Lemma row_of_phone (row : LogRow) (ph : string) :
  match lr_phone row with
  | Some p => String.eqb p ph && nonempty p
  | None => false
  end = true
  <-> lr_phone row = Some ph /\ ph <> "".
Proof.
  destruct (lr_phone row) as [p|].
  - rewrite andb_true_iff, String.eqb_eq, nonempty_true. split.
    + intros [-> H]. split; [reflexivity|exact H].
    + intros [H1 H2]. injection H1 as ->. split; [reflexivity|exact H2].
  - split; [discriminate|intros [H _]; discriminate].
Qed.

(** X28: in [load_contact_log_extended] a phone has an information record
    exactly when a row holds it, so every phone of the date map has one;
    and the reply status of the record is the text, stripped of blanks, of
    the last row of that phone in the order of the sheet whose status cell
    is filled, whatever the contact dates of the rows are. *)
Theorem contact_info_follows_sheet_order (rows : list LogRow) (ph : string) :
  let maps := load_contact_log_extended rows in
  (dict_get ph (snd maps) <> None
   <-> ph <> "" /\ exists row, In row rows /\ lr_phone row = Some ph)
  /\ (dict_get ph (fst maps) <> None -> dict_get ph (snd maps) <> None)
  /\ (forall info, dict_get ph (snd maps) = Some info ->
      match ci_status info with
      | Some text =>
          exists before row after,
            rows = before ++ row :: after
            /\ lr_phone row = Some ph
            /\ Text.strip_opt (lr_status row) = Some text
            /\ Forall (fun r => lr_phone r = Some ph ->
                                Text.strip_opt (lr_status r) = None) after
      | None =>
          Forall (fun r => lr_phone r = Some ph ->
                           Text.strip_opt (lr_status r) = None) rows
      end).
Proof.
  cbv zeta. induction rows as [|row rows IH] using rev_ind.
  - cbn. split; [|split].
    + split; [congruence|]. intros (_ & row & [] & _).
    + congruence.
    + discriminate.
  - destruct IH as (IH1 & IH2 & IH3).
    rewrite load_contact_log_extended_app. unfold extended_step.
    cbn [fst snd]. rewrite info_step_get, contact_step_get.
    pose proof (row_of_phone row ph) as Hrow.
    destruct (match lr_phone row with
              | Some p => String.eqb p ph && nonempty p
              | None => false
              end) eqn:E.
    + destruct (proj1 Hrow eq_refl) as [Hph Hne]. split; [|split].
      * split; [|discriminate]. intros _. split; [exact Hne|].
        exists row. split; [apply in_or_app; right; now left|exact Hph].
      * discriminate.
      * intros info Hinfo. cbv zeta in Hinfo. injection Hinfo as <-.
        cbn [ci_status]. unfold updated_text.
        destruct (Text.strip_opt (lr_status row)) as [text|] eqn:Es.
        -- exists rows, row, []. repeat split; auto.
        -- destruct (dict_get ph (snd (load_contact_log_extended rows)))
             as [old|] eqn:Eold.
           ++ specialize (IH3 old eq_refl).
              destruct (ci_status old) as [text|].
              ** destruct IH3 as (before & r & after & -> & H1 & H2 & H3).
                 exists before, r, (after ++ [row]).
                 rewrite <- app_assoc. repeat split; auto.
                 apply Forall_app. split; [exact H3|].
                 constructor; [intros _; exact Es|constructor].
              ** apply Forall_app. split; [exact IH3|].
                 constructor; [intros _; exact Es|constructor].
           ++ cbn [ci_status no_info]. apply Forall_forall.
              intros r Hr Hr'. apply in_app_or in Hr.
              destruct Hr as [Hr|[<-|[]]]; [|exact Es].
              exfalso. apply (proj2 IH1); [|reflexivity].
              split; [exact Hne|]. exists r. tauto.
    + assert (Hnot : ~ (lr_phone row = Some ph /\ ph <> "")).
      { intros H. apply Hrow in H. discriminate. }
      split; [|split].
      * rewrite IH1. split.
        -- intros (Hne & r & Hr & Hr'). split; [exact Hne|].
           exists r. split; [apply in_or_app; now left|exact Hr'].
        -- intros (Hne & r & Hr & Hr'). split; [exact Hne|].
           apply in_app_or in Hr. destruct Hr as [Hr|[<-|[]]].
           ++ exists r. tauto.
           ++ exfalso. apply Hnot. tauto.
      * destruct (lr_phone row) as [p|] eqn:Ep; [|exact IH2].
        destruct (lr_date row) as [d|]; [|exact IH2].
        rewrite E. exact IH2.
      * intros info Hinfo. specialize (IH3 info Hinfo).
        assert (Hne : ph <> "").
        { apply IH1. congruence. }
        destruct (ci_status info) as [text|].
        -- destruct IH3 as (before & r & after & -> & H1 & H2 & H3).
           exists before, r, (after ++ [row]).
           rewrite <- app_assoc. repeat split; auto.
           apply Forall_app. split; [exact H3|].
           constructor; [|constructor]. intros H. exfalso. apply Hnot. tauto.
        -- apply Forall_app. split; [exact IH3|].
           constructor; [|constructor]. intros H. exfalso. apply Hnot. tauto.
Qed.

Lemma contact_info_follows_sheet_order_witness :
  let maps := load_contact_log_extended Sample4.log_rows in
  dict_get "13900000000" (fst maps) = Some (Sample.run_day - 3)
  /\ dict_get "13900000000" (snd maps) <> None.
Proof.
  cbv zeta. split; [reflexivity|].
  apply (contact_info_follows_sheet_order Sample4.log_rows "13900000000").
  vm_compute. discriminate.
Defined.

(** ** Boosts and penalties that exclude each other *)

(** X29: the penalties of the score and the boosts for good customers never
    meet: the penalty for a long dormant customer goes to customers with 2
    to 4 orders and a last order of 180 days or more ago, who get neither
    the VIP boost nor the activity boost; and a customer with the penalty
    of -80 for a return rate of 0.49 or more gets neither of the two
    either. *)
Theorem penalties_exclude_boosts (days : option Z) (n : Z) (rate : option Q) :
  (long_dormant_penalty days n <> 0 ->
   2 <= n <= 4
   /\ (exists ds, days = Some ds /\ 180 <= ds)
   /\ super_vip_boost n rate = 0
   /\ activity_boost days n rate = 0)
  /\ (return_rate_boost rate = -80 ->
      (exists r, rate = Some r /\ (0.49 <= r)%Q)
      /\ super_vip_boost n rate = 0
      /\ activity_boost days n rate = 0)
  /\ (super_vip_boost n rate <> 0 ->
      5 <= n /\ 0 <= return_rate_boost rate).
Proof.
  split; [|split].
  - unfold long_dormant_penalty. destruct days as [ds|]; [|congruence].
    destruct (180 <=? ds) eqn:E180; [|congruence]. apply Z.leb_le in E180.
    intros H.
    assert (Hn : 2 <= n <= 4).
    { destruct (n =? 2) eqn:E2; [apply Z.eqb_eq in E2; lia|].
      destruct (n =? 3) eqn:E3; [apply Z.eqb_eq in E3; lia|].
      destruct (n =? 4) eqn:E4; [apply Z.eqb_eq in E4; lia|congruence]. }
    split; [exact Hn|]. split; [eauto|]. split.
    + unfold super_vip_boost.
      replace (10 <=? n) with false by (symmetry; apply Z.leb_gt; lia).
      replace (7 <=? n) with false by (symmetry; apply Z.leb_gt; lia).
      replace (5 <=? n) with false by (symmetry; apply Z.leb_gt; lia).
      reflexivity.
    + unfold activity_boost.
      replace (ds <? 45) with false by (symmetry; apply Z.ltb_ge; lia).
      reflexivity.
  - unfold return_rate_boost. destruct rate as [r|]; [|discriminate].
    destruct (Qleb 0.49 r) eqn:E.
    + apply Qleb_true in E. intros _. split; [eauto|]. split.
      * unfold super_vip_boost, rate_below.
        replace (Qltb r 0.2) with false by (symmetry; apply Qltb_false; lra).
        replace (Qltb r 0.15) with false by (symmetry; apply Qltb_false; lra).
        replace (Qltb r 0.1) with false by (symmetry; apply Qltb_false; lra).
        rewrite !andb_false_r. reflexivity.
      * unfold activity_boost. destruct days as [ds|]; [|reflexivity].
        replace (Qltb r 0.2) with false by (symmetry; apply Qltb_false; lra).
        replace (Qltb r 0.3) with false by (symmetry; apply Qltb_false; lra).
        rewrite !andb_false_r. destruct (ds <? 45); reflexivity.
    + destruct (Qleb r 0); [discriminate|].
      destruct (Qltb r 0.1); [discriminate|].
      destruct (Qltb r 0.2); [discriminate|].
      destruct (Qltb r 0.3); discriminate.
  - unfold super_vip_boost, return_rate_boost, rate_below. intros H.
    assert (Hn : 5 <= n).
    { destruct (5 <=? n) eqn:E5; [apply Z.leb_le, E5|].
      apply Z.leb_gt in E5.
      replace (10 <=? n) with false in H by (symmetry; apply Z.leb_gt; lia).
      replace (7 <=? n) with false in H by (symmetry; apply Z.leb_gt; lia).
      cbn in H. congruence. }
    split; [exact Hn|]. destruct rate as [r|]; [|lia].
    destruct (Qleb 0.49 r) eqn:E.
    + exfalso. apply Qleb_true in E.
      replace (Qltb r 0.2) with false in H
        by (symmetry; apply Qltb_false; lra).
      replace (Qltb r 0.15) with false in H
        by (symmetry; apply Qltb_false; lra).
      replace (Qltb r 0.1) with false in H
        by (symmetry; apply Qltb_false; lra).
      rewrite !andb_false_r in H. congruence.
    + destruct (Qleb r 0); [lia|]. destruct (Qltb r 0.1); [lia|].
      destruct (Qltb r 0.2); [lia|]. destruct (Qltb r 0.3); lia.
Qed.

Lemma penalties_exclude_boosts_witness :
  super_vip_boost 3 (Some 0%Q) = 0 /\ activity_boost (Some 200) 3 (Some 0%Q) = 0.
Proof.
  destruct (proj1 (penalties_exclude_boosts (Some 200) 3 (Some 0%Q)))
    as (_ & _ & H1 & H2); [vm_compute; discriminate|].
  split; assumption.
Defined.

(** ** The value tier *)

(** X30: the value tier never falls when the net total, the order count and
    the average order value rise; a customer with two orders or more is
    never in the lowest tier, and one with a net total of 5000 or more is
    in the highest. *)
Theorem classify_customer_value_monotone (net net' : Q) (n n' : Z)
    (aov aov' : Q) :
  ((net <= net')%Q -> n <= n' -> (aov <= aov')%Q ->
   value_rank (classify_customer_value net n aov)
   <= value_rank (classify_customer_value net' n' aov'))
  /\ (2 <= n -> 1 <= value_rank (classify_customer_value net n aov))
  /\ ((5000 <= net)%Q -> value_rank (classify_customer_value net n aov) = 2).
Proof.
  unfold classify_customer_value. split; [|split].
  - intros Hnet Hn Haov.
    destruct (Qleb 5000 net) eqn:E1; destruct (Qleb 5000 net') eqn:E1';
      destruct (3 <=? n) eqn:E2; destruct (3 <=? n') eqn:E2';
      destruct (Qleb 500 aov) eqn:E3; destruct (Qleb 500 aov') eqn:E3';
      cbn [orb andb];
      try (cbn; lia);
      rewrite ?Qleb_true, ?Qleb_false, ?Z.leb_le, ?Z.leb_gt in *;
      try (exfalso; lra); try (exfalso; lia);
      destruct (Qleb 2000 net) eqn:E4; destruct (Qleb 2000 net') eqn:E4';
      destruct (2 <=? n) eqn:E5; destruct (2 <=? n') eqn:E5';
      cbn [orb andb];
      try (cbn; lia);
      rewrite ?Qleb_true, ?Qleb_false, ?Z.leb_le, ?Z.leb_gt in *;
      try (exfalso; lra); exfalso; lia.
  - intros Hn.
    replace (2 <=? n) with true by (symmetry; apply Z.leb_le, Hn).
    rewrite orb_true_r.
    destruct (Qleb 5000 net || (3 <=? n) && Qleb 500 aov); cbn; lia.
  - intros Hnet.
    replace (Qleb 5000 net) with true by (symmetry; apply Qleb_true, Hnet).
    reflexivity.
Qed.

Lemma classify_customer_value_monotone_witness :
  value_rank (classify_customer_value 1300 1 1300)
  <= value_rank (classify_customer_value 2600 2 1300).
Proof.
  apply (proj1 (classify_customer_value_monotone 1300 2600 1 2 1300 1300)).
  - vm_compute. discriminate.
  - lia.
  - vm_compute. discriminate.
Defined.
